(** * go-webapiclient: the [Do] pipeline of [ClientImpl]

    A shallow embedding of [client.go] (package [webapiclient]) and of the
    parts of the Go standard library it calls, followed by the properties of
    the request builder and of the executor/validator.

    Conventions of the embedding:
    - a Go [string] is a [string] (a sequence of bytes), a [[]byte] is a
      [list byte], an [int] is a [Z] (no arithmetic is done on it);
    - a Go [map[string][]string] is a [gmap string (list string)]; a [range]
      over it visits the entries in an order the language leaves open, which is
      the parameter [MapRange] below;
    - a [(T, error)] result of a function that never returns both (or
      neither) is a [result T]; [Do] and [readResponse] keep the pair of Go,
      [option Response * option error], [None] standing for [nil];
    - calls into caller-supplied code and on the response stream are recorded
      in a trace of [event]s, in the order the code makes them;
    - the case table of package [unicode] is the parameter [Unicode.Tables]:
      [strings.ToLower] is embedded with its ASCII path, its UTF-8 decoding
      and encoding, and the table left open. *)

From Stdlib Require Import ZArith NArith Ascii String List Lia Permutation.
From stdpp Require Import gmap strings list fin_maps pretty.

Open Scope string_scope.

(** ** Bytes and the character classes used by the standard library *)

Module Bytes.

Definition code (c : ascii) : N := N_of_ascii c.

(** ['A' <= c && c <= 'Z'] *)
Definition isUpper (c : ascii) : bool := (65 <=? code c)%N && (code c <=? 90)%N.

(** ['a' <= c && c <= 'z'] *)
Definition isLower (c : ascii) : bool := (97 <=? code c)%N && (code c <=? 122)%N.

(** ['0' <= c && c <= '9'] *)
Definition isDigit (c : ascii) : bool := (48 <=? code c)%N && (code c <=? 57)%N.

Definition isLetter (c : ascii) : bool := isUpper c || isLower c.

(** [c += 'a' - 'A'] on an upper-case letter. *)
Definition toLower (c : ascii) : ascii :=
  if isUpper c then ascii_of_N (code c + 32) else c.

(** [c -= 'a' - 'A'] on a lower-case letter. *)
Definition toUpper (c : ascii) : ascii :=
  if isLower c then ascii_of_N (code c - 32) else c.

Definition eqb (a b : ascii) : bool := Ascii.eqb a b.

Definition oneOf (c : ascii) (set : string) : bool :=
  existsb (eqb c) (list_ascii_of_string set).

(** The 256 bytes, for facts checked byte by byte. *)
Definition all : list ascii := map ascii_of_nat (seq 0 256).

End Bytes.

(** ** Package [unicode/utf8] *)

Module UTF8.

#[local] Open Scope Z_scope.

Definition RuneError : Z := 0xFFFD.
Definition RuneSelf : Z := 0x80.
Definition MaxRune : Z := 0x10FFFF.

Definition surrogateMin : Z := 0xD800.
Definition surrogateMax : Z := 0xDFFF.

Definition tx : Z := 0x80.
Definition t2 : Z := 0xC0.
Definition t3 : Z := 0xE0.
Definition t4 : Z := 0xF0.

Definition maskx : Z := 0x3F.
Definition mask2 : Z := 0x1F.
Definition mask3 : Z := 0x0F.
Definition mask4 : Z := 0x07.

Definition rune1Max : Z := 0x7F.
Definition rune2Max : Z := 0x7FF.
Definition rune3Max : Z := 0xFFFF.

Definition locb : Z := 0x80.
Definition hicb : Z := 0xBF.

(** The entries of the table [first]: [xx] for a byte that starts no
    sequence, [as'] (the constant [as] of Go) for an ASCII byte, and for
    the others the size of the sequence in the low bits and the index of the
    range of the second byte in the high bits. *)
Definition xx : Z := 0xF1.
Definition as' : Z := 0xF0.
Definition s1 : Z := 0x02.
Definition s2 : Z := 0x13.
Definition s3 : Z := 0x03.
Definition s4 : Z := 0x23.
Definition s5 : Z := 0x34.
Definition s6 : Z := 0x04.
Definition s7 : Z := 0x44.

(** [first[b]] *)
Definition first (b : Z) : Z :=
  if b <? 0x80 then as'
  else if b <? 0xC2 then xx
  else if b <? 0xE0 then s1
  else if b =? 0xE0 then s2
  else if b <? 0xED then s3
  else if b =? 0xED then s4
  else if b <? 0xF0 then s3
  else if b =? 0xF0 then s5
  else if b <? 0xF4 then s6
  else if b =? 0xF4 then s7
  else xx.

(** [acceptRanges[i]]: the lowest and the highest second byte. *)
Definition acceptRanges (i : Z) : Z * Z :=
  if i =? 0 then (locb, hicb)
  else if i =? 1 then (0xA0, hicb)
  else if i =? 2 then (locb, 0x9F)
  else if i =? 3 then (0x90, hicb)
  else if i =? 4 then (locb, 0x8F)
  else (0, 0).

(** A byte as a number. *)
Definition byteOf (c : ascii) : Z := Z.of_N (N_of_ascii c).

(** [byte(x)]: the low eight bits, as a byte. *)
Definition toByte (x : Z) : ascii := ascii_of_N (Z.to_N (Z.land x 0xFF)).

(** [utf8.DecodeRuneInString(s)]: the first rune of [s] and its width in
    bytes; [(RuneError, 0)] for the empty string, [(RuneError, 1)] where the
    bytes are no UTF-8 encoding (a byte that starts no sequence, a sequence
    cut short, a byte out of range, which excludes the encodings that are
    longer than needed and those of the surrogates). For [x >= as'] the mask
    of Go selects [RuneError] when [x] is [xx] (odd) and the byte itself when
    [x] is [as']. *)
Definition DecodeRuneInString (s : list ascii) : Z * nat :=
  match s with
  | [] => (RuneError, 0%nat)
  | c0 :: rest0 =>
      let n := Z.of_nat (List.length s) in
      let s0 := byteOf c0 in
      let x := first s0 in
      if as' <=? x then ((if Z.odd x then RuneError else s0), 1%nat)
      else
        let sz := Z.land x 7 in
        let accept := acceptRanges (Z.shiftr x 4) in
        if n <? sz then (RuneError, 1%nat)
        else
          match rest0 with
          | [] => (RuneError, 1%nat)
          | c1 :: rest1 =>
              let s1 := byteOf c1 in
              if (s1 <? fst accept) || (snd accept <? s1) then (RuneError, 1%nat)
              else if sz <=? 2
              then (Z.lor (Z.shiftl (Z.land s0 mask2) 6) (Z.land s1 maskx), 2%nat)
              else
                match rest1 with
                | [] => (RuneError, 1%nat)
                | c2 :: rest2 =>
                    let s2 := byteOf c2 in
                    if (s2 <? locb) || (hicb <? s2) then (RuneError, 1%nat)
                    else if sz <=? 3
                    then (Z.lor (Z.lor (Z.shiftl (Z.land s0 mask3) 12)
                                   (Z.shiftl (Z.land s1 maskx) 6))
                            (Z.land s2 maskx), 3%nat)
                    else
                      match rest2 with
                      | [] => (RuneError, 1%nat)
                      | c3 :: _ =>
                          let s3 := byteOf c3 in
                          if (s3 <? locb) || (hicb <? s3) then (RuneError, 1%nat)
                          else (Z.lor (Z.lor (Z.lor (Z.shiftl (Z.land s0 mask4) 18)
                                                (Z.shiftl (Z.land s1 maskx) 12))
                                         (Z.shiftl (Z.land s2 maskx) 6))
                                  (Z.land s3 maskx), 4%nat)
                      end
                end
          end
  end.

(** [for _, c := range s]: the runes of [s] in order; a byte that is no
    UTF-8 encoding gives [RuneError] and the loop goes on with the next byte.
    [fuel] bounds the number of runes; the length of [s] is enough, every
    rune taking at least one byte ([rangeString_fuel] below). *)
Fixpoint rangeString (fuel : nat) (s : list ascii) : list Z :=
  match fuel, s with
  | S fuel, _ :: _ =>
      let '(c, width) := DecodeRuneInString s in
      c :: rangeString fuel (skipn width s)
  | _, _ => []
  end.

Definition runes (s : list ascii) : list Z :=
  rangeString (List.length s) s.

(** [utf8.RuneLen(r)] *)
Definition RuneLen (r : Z) : Z :=
  if r <? 0 then -1
  else if r <=? rune1Max then 1
  else if r <=? rune2Max then 2
  else if (surrogateMin <=? r) && (r <=? surrogateMax) then -1
  else if r <=? rune3Max then 3
  else if r <=? MaxRune then 4
  else -1.

(** [utf8.AppendRune(nil, r)] for [r >= 0]: the UTF-8 encoding of [r], that
    of [RuneError] when [r] is a surrogate or lies above [MaxRune]. *)
Definition AppendRune (r : Z) : list ascii :=
  if r <=? rune1Max then [toByte r]
  else if r <=? rune2Max
  then [toByte (Z.lor t2 (Z.land (Z.shiftr r 6) 0xFF));
        toByte (Z.lor tx (Z.land (Z.land r 0xFF) maskx))]
  else
    let three (r : Z) :=
      [toByte (Z.lor t3 (Z.land (Z.shiftr r 12) 0xFF));
       toByte (Z.lor tx (Z.land (Z.land (Z.shiftr r 6) 0xFF) maskx));
       toByte (Z.lor tx (Z.land (Z.land r 0xFF) maskx))] in
    if (MaxRune <? r) || ((surrogateMin <=? r) && (r <=? surrogateMax))
    then three RuneError
    else if r <=? rune3Max then three r
    else [toByte (Z.lor t4 (Z.land (Z.shiftr r 18) 0xFF));
          toByte (Z.lor tx (Z.land (Z.land (Z.shiftr r 12) 0xFF) maskx));
          toByte (Z.lor tx (Z.land (Z.land (Z.shiftr r 6) 0xFF) maskx));
          toByte (Z.lor tx (Z.land (Z.land r 0xFF) maskx))].

End UTF8.

(** ** Package [unicode] *)

Module Unicode.

#[local] Open Scope Z_scope.

Definition MaxASCII : Z := 0x7F.

(** [unicode.To(unicode.LowerCase, r)]: the lower case of [r] by the table
    [unicode.CaseRanges] of the Unicode version Go is built with. The table
    is not part of the repository: the client is verified against any
    table. *)
Class Tables : Type := {
  To_LowerCase : Z -> Z
}.

(** [unicode.ToLower(r)] *)
Definition ToLower {tables : Tables} (r : Z) : Z :=
  if r <=? MaxASCII
  then if (65 <=? r) && (r <=? 90) then r + 32 else r
  else To_LowerCase r.

End Unicode.

(** ** Package [strings] and [slices] *)

Module GoStrings.

(** The loop of the ASCII path of [strings.ToLower]: every byte ['A'..'Z']
    is replaced by its lower-case letter, every other byte is kept. *)
Fixpoint lowerASCII (s : string) : string :=
  match s with
  | EmptyString => EmptyString
  | String c s' => String (Bytes.toLower c) (lowerASCII s')
  end.

(** [isASCII] in [strings.ToLower]: no byte of [s] is [utf8.RuneSelf] or
    above. *)
Definition isASCII (s : string) : bool :=
  forallb (fun c => (Bytes.code c <? 128)%N) (list_ascii_of_string s).

(** [hasUpper] in [strings.ToLower], for an ASCII [s]. *)
Definition hasUpper (s : string) : bool :=
  existsb Bytes.isUpper (list_ascii_of_string s).

(** What the two loops of [strings.Map] write for a rune the mapping sends to
    [r]: nothing for a negative [r]; [WriteRune(r)] in the first loop,
    [WriteByte(byte(r))] or [WriteRune(r)] in the second. *)
Definition writeFirst (r : Z) : list ascii :=
  if (0 <=? r)%Z then UTF8.AppendRune r else [].

Definition writeRest (r : Z) : list ascii :=
  if (0 <=? r)%Z
  then if (r <? UTF8.RuneSelf)%Z then [UTF8.toByte r] else UTF8.AppendRune r
  else [].

(** The second loop of [strings.Map], over what is left of the string: every
    rune is mapped and written. *)
Definition mapRest (mapping : Z -> Z) (s : list ascii) : list ascii :=
  concat (map (fun c => writeRest (mapping c)) (UTF8.runes s)).

(** The first loop of [strings.Map], from the rune at the start of [s] on,
    giving the whole output from there: a rune the mapping leaves as it is
    keeps its bytes (a [RuneError] only when it was decoded from more than
    one byte); at the first other rune, what the mapping gives is written,
    [width] bytes are skipped and the second loop does the rest. A string in
    which no rune changes is returned as it is. [fuel] bounds the number of
    runes; the length of [s] is enough ([mapFirst_fuel] below). *)
Fixpoint mapFirst (fuel : nat) (mapping : Z -> Z) (s : list ascii) : list ascii :=
  match fuel, s with
  | S fuel, _ :: _ =>
      let '(c, decoded) := UTF8.DecodeRuneInString s in
      let r := mapping c in
      if (r =? c)%Z && negb (c =? UTF8.RuneError)%Z
      then (firstn decoded s ++ mapFirst fuel mapping (skipn decoded s))%list
      else
        let width :=
          if (c =? UTF8.RuneError)%Z then Z.of_nat decoded else UTF8.RuneLen c in
        if (c =? UTF8.RuneError)%Z && negb (width =? 1)%Z && (r =? c)%Z
        then (firstn decoded s ++ mapFirst fuel mapping (skipn decoded s))%list
        else (writeFirst r ++ mapRest mapping (skipn (Z.to_nat width) s))%list
  | _, _ => []
  end.

(** [strings.Map(mapping, s)] *)
Definition Map (mapping : Z -> Z) (s : string) : string :=
  let bytes := list_ascii_of_string s in
  string_of_list_ascii (mapFirst (List.length bytes) mapping bytes).

(** [strings.ToLower(s)]: a string of ASCII bytes is returned as it is when
    it holds no upper-case letter and has its upper-case letters replaced
    otherwise; any other string goes through [Map(unicode.ToLower, s)]. *)
Definition ToLower {tables : Unicode.Tables} (s : string) : string :=
  if isASCII s
  then if hasUpper s then lowerASCII s else s
  else Map Unicode.ToLower s.

(** [strings.HasPrefix(s, prefix)] *)
Fixpoint HasPrefix (s prefix : string) : bool :=
  match prefix, s with
  | EmptyString, _ => true
  | String p prefix', String c s' => Bytes.eqb c p && HasPrefix s' prefix'
  | String _ _, EmptyString => false
  end.

(** [strings.HasSuffix(s, suffix)] *)
Definition HasSuffix (s suffix : string) : bool :=
  HasPrefix (String.rev s) (String.rev suffix).

(** [strings.Cut(s, sep)] for a one-byte separator: the text before and
    after the first [sep], and whether [sep] occurs. *)
Fixpoint Cut (s : string) (sep : ascii) : string * string * bool :=
  match s with
  | EmptyString => (EmptyString, EmptyString, false)
  | String c s' =>
      if Bytes.eqb c sep then (EmptyString, s', true)
      else let '(before, after, found) := Cut s' sep in (String c before, after, found)
  end.

(** [strings.Contains(s, sep)] for a one-byte [sep]. *)
Definition ContainsByte (s : string) (sep : ascii) : bool :=
  existsb (Bytes.eqb sep) (list_ascii_of_string s).

(** [strings.Count(s, sep)] for a one-byte [sep]. *)
Definition CountByte (s : string) (sep : ascii) : nat :=
  List.length (List.filter (Bytes.eqb sep) (list_ascii_of_string s)).

(** [s[:i]], [s[i+1:]] and [i >= 0] for [i = strings.LastIndex(s, sep)],
    [sep] one byte; when [sep] does not occur the first part is empty and
    the second is [s]. *)
Definition CutLast (s : string) (sep : ascii) : string * string * bool :=
  let '(after, before, found) := Cut (String.rev s) sep in
  (String.rev before, String.rev after, found).

(** [strings.Split(s, sep)] for a one-byte [sep]: the texts between the
    separators, in order; never empty. *)
Fixpoint Split (s : string) (sep : ascii) : list string :=
  match s with
  | EmptyString => [EmptyString]
  | String c s' =>
      if Bytes.eqb c sep then EmptyString :: Split s' sep
      else match Split s' sep with
           | elem :: elems => String c elem :: elems
           | [] => [String c EmptyString]
           end
  end.

End GoStrings.

Module GoSlices.

(** [slices.Contains] on a [[]int]. *)
Definition Contains (s : list Z) (v : Z) : bool := existsb (Z.eqb v) s.

(** [slices.ContainsFunc] *)
Definition ContainsFunc {E : Type} (s : list E) (f : E -> bool) : bool := existsb f s.

End GoSlices.

(** ** Package [net/textproto]: canonical header keys *)

Module Textproto.

(** [validHeaderFieldByte]: the token bytes of RFC 7230. *)
Definition validHeaderFieldByte (c : ascii) : bool :=
  Bytes.isDigit c || Bytes.isLetter c || Bytes.oneOf c "!#$%&'*+-.^_`|~".

(** One byte of the rewriting loop of [canonicalMIMEHeaderKey]. *)
Definition canonicalByte (upper : bool) (c : ascii) : ascii :=
  if upper && Bytes.isLower c then Bytes.toUpper c
  else if negb upper && Bytes.isUpper c then Bytes.toLower c
  else c.

(** The rewriting loop of [canonicalMIMEHeaderKey]: upper case for the first
    letter and after each dash, lower case elsewhere. *)
Fixpoint canonicalize (upper : bool) (a : string) : string :=
  match a with
  | EmptyString => EmptyString
  | String c a' =>
      let c := canonicalByte upper c in
      String c (canonicalize (Bytes.eqb c "-") a')
  end.

(** The first loop of [canonicalMIMEHeaderKey]: [None] when a byte that is
    neither a token byte nor a space is met ([return string(a), false]),
    otherwise [Some noCanon]. *)
Fixpoint scanKey (noCanon : bool) (a : string) : option bool :=
  match a with
  | EmptyString => Some noCanon
  | String c a' =>
      if validHeaderFieldByte c then scanKey noCanon a'
      else if Bytes.eqb c " " then scanKey true a'
      else None
  end.

Definition canonicalMIMEHeaderKey (a : string) : string * bool :=
  match a with
  | EmptyString => (EmptyString, false)
  | _ =>
      match scanKey false a with
      | None => (a, false)
      | Some true => (a, true)
      | Some false => (canonicalize true a, true)
      end
  end.

(** The quick check of [CanonicalMIMEHeaderKey]: [s] is returned as it is
    when a byte is not a token byte or when no letter has the wrong case;
    at the first letter with the wrong case the whole key goes through
    [canonicalMIMEHeaderKey]. *)
Fixpoint quickCheck (upper : bool) (rest : string) (s : string) : string :=
  match rest with
  | EmptyString => s
  | String c rest' =>
      if negb (validHeaderFieldByte c) then s
      else if upper && Bytes.isLower c then fst (canonicalMIMEHeaderKey s)
      else if negb upper && Bytes.isUpper c then fst (canonicalMIMEHeaderKey s)
      else quickCheck (Bytes.eqb c "-") rest' s
  end.

Definition CanonicalMIMEHeaderKey (s : string) : string := quickCheck true s s.

End Textproto.

(** ** Errors and results *)

(** An [error] value. [errorString] stands for an error made outside the
    package (by the standard library, the edit hook, the transport or the
    response stream); [Errorf] and [WithStack] are those of
    [github.com/pkg/errors], [Errorf] holding the formatted message. *)
Inductive error : Type :=
| errorString (msg : string)
| Errorf (msg : string)
| WithStack (err : error).

(** A Go [(T, error)] of which exactly one component is set. *)
Inductive result (A : Type) : Type :=
| Ok (a : A)
| Err (err : error).
Arguments Ok {A} a.
Arguments Err {A} err.

(** ** Package [net/url] *)

Module NetURL.

(** [url.URL]; [User] holds the user-info text as written. *)
Record URL : Type := mkURL {
  Scheme : string;
  Opaque : string;
  User : option string;
  Host : string;
  Path : string;
  RawPath : string;
  OmitHost : bool;
  ForceQuery : bool;
  RawQuery : string;
  Fragment : string;
  RawFragment : string
}.

(** The three functions of [net/url] the client calls. The client is
    verified against any implementation of them; [RFC3986.impl] below is the
    one the examples run on. *)
Class Impl : Type := {
  Parse : string -> result URL;
  ResolveReference : URL -> URL -> URL;
  String : URL -> string
}.

(** [u.Parse(ref)]: [ref] is parsed and resolved against [u]. *)
Definition URL_Parse {urlImpl : Impl} (u : URL) (ref : string) : result URL :=
  match Parse ref with
  | Err err => Err err
  | Ok refURL => Ok (ResolveReference u refURL)
  end.

End NetURL.

(** An implementation of [net/url] on the URLs that need no percent-coding:
    it follows [url.Parse], [URL.ResolveReference] (RFC 3986, section 5.2)
    and [URL.String] step by step, with [setPath] and [EscapedPath] taken as
    the identity ([RawPath] and [RawFragment] stay empty) and the host text
    kept as written. *)
Module RFC3986.

Import GoStrings.

Definition stringContainsCTLByte (s : string) : bool :=
  existsb (fun c => (Bytes.code c <? 32)%N || (Bytes.code c =? 127)%N)
          (list_ascii_of_string s).

Inductive schemeScan : Type :=
| NoScheme
| MissingScheme
| FoundScheme (scheme rest : string).

(** [getScheme]: the loop over the bytes of [rawURL], [i0] telling whether
    the byte is the first one. *)
Fixpoint scanScheme (i0 : bool) (s : string) : schemeScan :=
  match s with
  | EmptyString => NoScheme
  | String c s' =>
      let continue :=
        match scanScheme false s' with
        | FoundScheme scheme rest => FoundScheme (String c scheme) rest
        | other => other
        end in
      if Bytes.isLetter c then continue
      else if Bytes.isDigit c || Bytes.oneOf c "+-." then
        if i0 then NoScheme else continue
      else if Bytes.eqb c ":" then
        if i0 then MissingScheme else FoundScheme EmptyString s'
      else NoScheme
  end.

Definition getScheme (rawURL : string) : result (string * string) :=
  match scanScheme true rawURL with
  | NoScheme => Ok (EmptyString, rawURL)
  | MissingScheme => Err (errorString "missing protocol scheme")
  | FoundScheme scheme rest => Ok (scheme, rest)
  end.

Definition validOptionalPort (port : string) : bool :=
  match port with
  | EmptyString => true
  | String c digits =>
      Bytes.eqb c ":" && forallb Bytes.isDigit (list_ascii_of_string digits)
  end.

Definition parseHost (host : string) : result string :=
  if HasPrefix host "[" then
    let '(_, colonPort, found) := CutLast host "]" in
    if negb found then Err (errorString "missing ']' in host")
    else if negb (validOptionalPort colonPort)
         then Err (errorString "invalid port after host")
         else Ok host
  else
    let '(_, port, found) := CutLast host ":" in
    if found && negb (validOptionalPort (String ":" port))
    then Err (errorString "invalid port after host")
    else Ok host.

Definition validUserinfo (s : string) : bool :=
  forallb (fun c => Bytes.isLetter c || Bytes.isDigit c
                    || Bytes.oneOf c "-._:~!$&'()*+,;=%@")
          (list_ascii_of_string s).

Definition parseAuthority (authority : string) : result (option string * string) :=
  let '(userinfo, hostport, found) := CutLast authority "@" in
  match parseHost hostport with
  | Err err => Err err
  | Ok host =>
      if negb found then Ok (None, host)
      else if negb (validUserinfo userinfo)
           then Err (errorString "net/url: invalid userinfo")
           else Ok (Some userinfo, host)
  end.

Definition isEmpty (s : string) : bool := String.eqb s EmptyString.

(** A URL with the parts [parse] sets; the other fields are empty. *)
Definition parsed (scheme opaque : string) (user : option string)
    (host path : string) (omitHost forceQuery : bool) (rawQuery : string)
    : NetURL.URL :=
  NetURL.mkURL scheme opaque user host path EmptyString omitHost forceQuery
    rawQuery EmptyString EmptyString.

(** [parse(rawURL, viaRequest = false)]. The scheme [getScheme] returns is
    made of ASCII letters, digits and [+ - .], so that [strings.ToLower] on
    it is the loop of its ASCII path. *)
Definition parse (rawURL : string) : result NetURL.URL :=
  if stringContainsCTLByte rawURL
  then Err (errorString "net/url: invalid control character in URL")
  else if String.eqb rawURL "*"
  then Ok (parsed EmptyString EmptyString None EmptyString "*" false false EmptyString)
  else
  match getScheme rawURL with
  | Err err => Err err
  | Ok (scheme, rest) =>
      let scheme := lowerASCII scheme in
      let '(rest, rawQuery, forceQuery) :=
        if HasSuffix rest "?" && Nat.eqb (CountByte rest "?") 1
        then (String.substring 0 (String.length rest - 1) rest, EmptyString, true)
        else let '(rest, rawQuery, _) := Cut rest "?" in (rest, rawQuery, false) in
      if negb (HasPrefix rest "/") && negb (isEmpty scheme)
      then Ok (parsed scheme rest None EmptyString EmptyString false forceQuery rawQuery)
      else if negb (HasPrefix rest "/") && ContainsByte (fst (fst (Cut rest "/"))) ":"
      then Err (errorString "first path segment in URL cannot contain colon")
      else if (negb (isEmpty scheme) || negb (HasPrefix rest "///")) && HasPrefix rest "//"
      then
        let '(authority, after, found) :=
          Cut (String.substring 2 (String.length rest - 2) rest) "/" in
        let rest := if found then String "/" after else EmptyString in
        match parseAuthority authority with
        | Err err => Err err
        | Ok (user, host) =>
            Ok (parsed scheme EmptyString user host rest false forceQuery rawQuery)
        end
      else
        let omitHost := negb (isEmpty scheme) && HasPrefix rest "/" in
        Ok (parsed scheme EmptyString None EmptyString rest omitHost forceQuery rawQuery)
  end.

Definition setFragment (u : NetURL.URL) (frag : string) : NetURL.URL :=
  NetURL.mkURL (NetURL.Scheme u) (NetURL.Opaque u) (NetURL.User u) (NetURL.Host u)
    (NetURL.Path u) (NetURL.RawPath u) (NetURL.OmitHost u) (NetURL.ForceQuery u)
    (NetURL.RawQuery u) frag EmptyString.

(** [url.Parse] *)
Definition Parse (rawURL : string) : result NetURL.URL :=
  let '(u, frag, _) := Cut rawURL "#" in
  match parse u with
  | Err err => Err err
  | Ok url => if isEmpty frag then Ok url else Ok (setFragment url frag)
  end.

(** One round of the loop of [resolvePath] on the element [elem]; the state
    is the text written to [dst] so far and the flag [first]. *)
Definition resolveStep (st : string * bool) (elem : string) : string * bool :=
  let '(dst, first) := st in
  if String.eqb elem "." then (dst, false)
  else if String.eqb elem ".." then
    let str := String.substring 1 (String.length dst - 1) dst in
    let '(before, _, found) := CutLast str "/" in
    if found then (String "/" before, first) else ("/", true)
  else ((if first then dst else dst ++ "/") ++ elem, false).

(** [resolvePath(base, ref)] *)
Definition resolvePath (base ref : string) : string :=
  let full :=
    match ref with
    | EmptyString => base
    | String c _ =>
        if Bytes.eqb c "/" then ref
        else let '(before, _, found) := CutLast base "/" in
             (if found then before ++ "/" else EmptyString) ++ ref
    end in
  if isEmpty full then EmptyString
  else
    let elems := Split full "/" in
    let dst := fst (fold_left resolveStep elems ("/", true)) in
    let elem := List.last elems EmptyString in
    let dst := if String.eqb elem "." || String.eqb elem ".." then dst ++ "/" else dst in
    match dst with
    | String _ (String c r) => if Bytes.eqb c "/" then String c r else dst
    | _ => dst
    end.

Definition withPath (u : NetURL.URL) (scheme : string) (user : option string)
    (host path : string) : NetURL.URL :=
  NetURL.mkURL scheme (NetURL.Opaque u) user host path EmptyString
    (NetURL.OmitHost u) (NetURL.ForceQuery u) (NetURL.RawQuery u)
    (NetURL.Fragment u) (NetURL.RawFragment u).

(** [u.ResolveReference(ref)] *)
Definition ResolveReference (u ref : NetURL.URL) : NetURL.URL :=
  let scheme :=
    if isEmpty (NetURL.Scheme ref) then NetURL.Scheme u else NetURL.Scheme ref in
  if negb (isEmpty (NetURL.Scheme ref)) || negb (isEmpty (NetURL.Host ref))
     || match NetURL.User ref with Some _ => true | None => false end
  then withPath ref scheme (NetURL.User ref) (NetURL.Host ref)
         (resolvePath (NetURL.Path ref) EmptyString)
  else if negb (isEmpty (NetURL.Opaque ref))
  then withPath ref scheme None EmptyString EmptyString
  else
    let inherit := isEmpty (NetURL.Path ref) && negb (NetURL.ForceQuery ref)
                   && isEmpty (NetURL.RawQuery ref) in
    let rawQuery := if inherit then NetURL.RawQuery u else NetURL.RawQuery ref in
    let fragment := if inherit && isEmpty (NetURL.Fragment ref)
                    then NetURL.Fragment u else NetURL.Fragment ref in
    if isEmpty (NetURL.Path ref) && negb (isEmpty (NetURL.Opaque u))
    then NetURL.mkURL scheme (NetURL.Opaque u) None EmptyString EmptyString
           EmptyString (NetURL.OmitHost ref) (NetURL.ForceQuery ref) rawQuery
           fragment EmptyString
    else NetURL.mkURL scheme (NetURL.Opaque ref) (NetURL.User u) (NetURL.Host u)
           (resolvePath (NetURL.Path u) (NetURL.Path ref)) EmptyString
           (NetURL.OmitHost ref) (NetURL.ForceQuery ref) rawQuery fragment
           EmptyString.

(** [u.String()] *)
Definition URLString (u : NetURL.URL) : string :=
  let hasUser := match NetURL.User u with Some _ => true | None => false end in
  let buf := if isEmpty (NetURL.Scheme u) then EmptyString else NetURL.Scheme u ++ ":" in
  let buf :=
    if negb (isEmpty (NetURL.Opaque u)) then buf ++ NetURL.Opaque u
    else
      let buf :=
        if negb (isEmpty (NetURL.Scheme u)) || negb (isEmpty (NetURL.Host u)) || hasUser
        then
          if NetURL.OmitHost u && isEmpty (NetURL.Host u) && negb hasUser then buf
          else
            let buf := if negb (isEmpty (NetURL.Host u))
                          || negb (isEmpty (NetURL.Path u)) || hasUser
                       then buf ++ "//" else buf in
            let buf := match NetURL.User u with
                       | Some ui => buf ++ ui ++ "@"
                       | None => buf
                       end in
            buf ++ NetURL.Host u
        else buf in
      let path := NetURL.Path u in
      let buf := if negb (isEmpty path) && negb (HasPrefix path "/")
                    && negb (isEmpty (NetURL.Host u))
                 then buf ++ "/" else buf in
      let buf := if isEmpty buf && ContainsByte (fst (fst (Cut path "/"))) ":"
                 then buf ++ "./" else buf in
      buf ++ path in
  let buf := if NetURL.ForceQuery u || negb (isEmpty (NetURL.RawQuery u))
             then buf ++ "?" ++ NetURL.RawQuery u else buf in
  if negb (isEmpty (NetURL.Fragment u)) then buf ++ "#" ++ NetURL.Fragment u else buf.

#[export] Instance impl : NetURL.Impl := {|
  NetURL.Parse := Parse;
  NetURL.ResolveReference := ResolveReference;
  NetURL.String := URLString
|}.

End RFC3986.

(** ** Package [context] *)

Module GoContext.

(** A non-nil [context.Context]: [context.Background()], or any other one
    (a context with a cancel function, a deadline or values, or
    [context.TODO()]), [id] telling such contexts apart. What a context does
    is up to the code that looks at it: the hook and the transport get it
    with the request. *)
Inductive t : Type :=
| Background
| Other (id : nat).

End GoContext.

(** ** Package [net/http] *)

(** [http.Header], a [map[string][]string]. *)
Module HTTPHeader.

(** [h.Add(key, value)]: the key is canonicalized, the value appended. *)
Definition Add (h : gmap string (list string)) (key value : string)
    : gmap string (list string) :=
  let key := Textproto.CanonicalMIMEHeaderKey key in
  <[key := (default [] (h !! key) ++ [value])%list]> h.

(** [h.Get(key)]: the first value under the canonical key, or the empty
    string. *)
Definition Get (h : gmap string (list string)) (key : string) : string :=
  match h !! Textproto.CanonicalMIMEHeaderKey key with
  | Some (v :: _) => v
  | _ => EmptyString
  end.

(** [h.Clone()]: a copy with the same keys and values. *)
Definition Clone (h : gmap string (list string)) : gmap string (list string) := h.

End HTTPHeader.

(** [http.Request], with the fields [NewRequestWithContext] sets. *)
Module HTTPRequest.

(** The [Body] of an outgoing request: [nil], [http.NoBody],
    [io.NopCloser] over a reader that yields [data], or an [io.ReadCloser]
    of the caller that yields [data]. *)
Inductive body : Type :=
| nilBody
| NoBody
| NopCloser (data : list Byte.byte)
| ReadCloser (data : list Byte.byte).

(** The bytes a transport reads from the body of a request. *)
Definition bodyBytes (b : body) : list Byte.byte :=
  match b with
  | NopCloser data => data
  | ReadCloser data => data
  | nilBody => []
  | NoBody => []
  end.

(** [ctx] is the context the request is bound to. *)
Record t : Type := mk {
  Method : string;
  URL : NetURL.URL;
  Header : gmap string (list string);
  Body : body;
  ContentLength : Z;
  Host : string;
  ctx : GoContext.t
}.

(** [r.WithContext(ctx)]: a copy of [r] bound to [ctx]. *)
Definition WithContext (r : t) (ctx : GoContext.t) : t :=
  mk (Method r) (URL r) (Header r) (Body r) (ContentLength r) (Host r) ctx.

End HTTPRequest.

(** [http.Response] *)
Module HTTPResponse.

(** The response stream, an [io.ReadCloser]: what [io.ReadAll] gets from it
    (the bytes it yields and the error that ends them, if any) and what
    [Close] returns. *)
Record ReadCloser : Type := mkReadCloser {
  data : list Byte.byte;
  readErr : option error;
  closeErr : option error
}.

Record t : Type := mk {
  StatusCode : Z;
  Header : gmap string (list string);
  Body : ReadCloser
}.

End HTTPResponse.

Module NetHTTP.

Definition MethodGet : string := "GET".

(** [http.CanonicalHeaderKey] *)
Definition CanonicalHeaderKey (s : string) : string :=
  Textproto.CanonicalMIMEHeaderKey s.

(** [validMethod]: a non-empty token. *)
Definition validMethod (method : string) : bool :=
  negb (String.eqb method EmptyString)
  && forallb Textproto.validHeaderFieldByte (list_ascii_of_string method).

(** [removeEmptyPort]: a trailing [":"] is removed when the host has a
    port part ([hasPort]: the last [":"] comes after the last ["]"]). *)
Definition removeEmptyPort (host : string) : string :=
  let '(_, afterColon, hasColon) := GoStrings.CutLast host ":" in
  if hasColon && negb (GoStrings.ContainsByte afterColon "]")
     && String.eqb afterColon EmptyString
  then String.substring 0 (String.length host - 1) host
  else host.

Definition withHost (u : NetURL.URL) (host : string) : NetURL.URL :=
  NetURL.mkURL (NetURL.Scheme u) (NetURL.Opaque u) (NetURL.User u) host
    (NetURL.Path u) (NetURL.RawPath u) (NetURL.OmitHost u) (NetURL.ForceQuery u)
    (NetURL.RawQuery u) (NetURL.Fragment u) (NetURL.RawFragment u).

(** [http.NewRequestWithContext(context.Background(), method, url, body)]
    for a [body] that is [nil] ([None]) or a [*bytes.Reader] over the given
    bytes. An empty method means [GET]; a reader of length zero is replaced
    by [http.NoBody]. *)
Definition NewRequestWithContext {urlImpl : NetURL.Impl} (method url : string)
    (body : option (list Byte.byte)) : result HTTPRequest.t :=
  let method := if String.eqb method EmptyString then "GET" else method in
  if negb (validMethod method) then Err (errorString "net/http: invalid method")
  else
    match NetURL.Parse url with
    | Err err => Err err
    | Ok u =>
        let u := withHost u (removeEmptyPort (NetURL.Host u)) in
        let '(rc, contentLength) :=
          match body with
          | None => (HTTPRequest.nilBody, 0%Z)
          | Some b =>
              if Nat.eqb (List.length b) 0 then (HTTPRequest.NoBody, 0%Z)
              else (HTTPRequest.NopCloser b, Z.of_nat (List.length b))
          end in
        Ok (HTTPRequest.mk method u ∅ rc contentLength (NetURL.Host u)
              GoContext.Background)
    end.

End NetHTTP.

(** ** Ranging over a map

    [for key, values := range m] visits every entry of [m] once, in an order
    that Go does not specify. [rangeMap m] is the order of one such loop. *)
Class MapRange : Type := {
  rangeMap : gmap string (list string) -> list (string * list string);
  rangeMap_perm : forall m, rangeMap m ≡ₚ map_to_list m
}.

(** Two possible orders. *)
Definition rangeForward : MapRange :=
  {| rangeMap := map_to_list; rangeMap_perm := fun m => reflexivity _ |}.

Definition rangeBackward : MapRange :=
  {| rangeMap := fun m => List.rev (map_to_list m);
     rangeMap_perm := fun m => Permutation_sym (Permutation_rev (map_to_list m)) |}.

(** ** Package [webapiclient]: the data of [client.go] *)

Module Request.

(** [type Request struct]; a [nil] [Body] is [None]. *)
Record t : Type := mk {
  Method : string;
  Path : string;
  Headers : gmap string (list string);
  Body : option (list Byte.byte);
  ExpectedStatusCodes : list Z;
  ExpectedContentTypes : list string
}.

End Request.

Module Response.

(** [type Response struct] *)
Record t : Type := mk {
  StatusCode : Z;
  Headers : gmap string (list string);
  Body : list Byte.byte
}.

End Response.

(** [type EditRequestFunc func(httpRequest *http.Request) error]: the hook
    may change the request it is given; it yields the request as it left it
    and the error it returns ([None] for [nil]). *)
Definition EditRequestFunc : Type := HTTPRequest.t -> HTTPRequest.t * option error.

(** [type DoFunc]: a function from a [*http.Request] to a [*http.Response]
    and an [error], under the contract of [http.Client.Do]: either an error,
    or a response with a body stream. *)
Definition DoFunc : Type := HTTPRequest.t -> result HTTPResponse.t.

(** [type ClientImpl struct] *)
Record ClientImpl : Type := NewClient {
  do : DoFunc;
  baseURL : string
}.

(** ** Effects: the calls [Do] makes, in order *)

Inductive event : Type :=
| CallEdit (httpRequest : HTTPRequest.t)   (* [edit(httpRequest)] *)
| CallDo (httpRequest : HTTPRequest.t)     (* [c.do(httpRequest)] *)
| ReadAll                                  (* [io.ReadAll(httpResponse.Body)] *)
| Close.                                   (* [httpResponse.Body.Close()] *)

(** A computation that yields a value and the calls it made. *)
Definition M (A : Type) : Type := A * list event.

#[export] Instance M_ret : MRet M := fun A a => (a, []).

#[export] Instance M_bind : MBind M := fun A B f m =>
  let '(a, t1) := m in
  let '(b, t2) := f a in
  (b, (t1 ++ t2)%list).

Definition emit (e : event) : M unit := (tt, [e]).

(** [defer cleanup] followed by [body]: [cleanup] runs when [body] has
    produced the values to return, and the values are returned after it. *)
Definition defer {A : Type} (cleanup : M unit) (body : M A) : M A :=
  r ← body;
  _ ← cleanup;
  mret r.

(** The calls into code that is not the client's. *)

Definition callEdit (edit : EditRequestFunc) (httpRequest : HTTPRequest.t)
    : M (HTTPRequest.t * option error) :=
  _ ← emit (CallEdit httpRequest);
  mret (edit httpRequest).

Definition callDo (do : DoFunc) (httpRequest : HTTPRequest.t)
    : M (result HTTPResponse.t) :=
  _ ← emit (CallDo httpRequest);
  mret (do httpRequest).

(** [io.ReadAll(body)] *)
Definition io_ReadAll (body : HTTPResponse.ReadCloser)
    : M (list Byte.byte * option error) :=
  _ ← emit ReadAll;
  mret (HTTPResponse.data body, HTTPResponse.readErr body).

(** [body.Close()] *)
Definition Body_Close (body : HTTPResponse.ReadCloser) : M (option error) :=
  _ ← emit Close;
  mret (HTTPResponse.closeErr body).

(** [fmt.Sprintf("%d", n)] *)
Definition formatInt (n : Z) : string := pretty n.

(** ** Package [webapiclient]: the functions of [client.go] *)

(** [x != nil] *)
Definition notNil {A : Type} (x : option A) : bool :=
  match x with
  | Some _ => true
  | None => false
  end.

Section Client.

Context {urlImpl : NetURL.Impl} {mapRange : MapRange} {tables : Unicode.Tables}.

(** The inner loop of [buildHTTPRequest]:
    [for _, value := range values { httpRequest.Header.Add(key, value) }] *)
Definition addValues (h : gmap string (list string)) (key : string)
    (values : list string) : gmap string (list string) :=
  fold_left (fun h value => HTTPHeader.Add h key value) values h.

(** The outer loop, over the entries in the order [range] visits them. *)
Definition addHeaders (h : gmap string (list string))
    (entries : list (string * list string)) : gmap string (list string) :=
  fold_left (fun h '(key, values) => addValues h key values) entries h.

Definition withHeader (r : HTTPRequest.t) (h : gmap string (list string))
    : HTTPRequest.t :=
  HTTPRequest.mk (HTTPRequest.Method r) (HTTPRequest.URL r) h
    (HTTPRequest.Body r) (HTTPRequest.ContentLength r) (HTTPRequest.Host r)
    (HTTPRequest.ctx r).

(** [func (c *ClientImpl) buildHTTPRequest(request *Request)] *)
Definition buildHTTPRequest (c : ClientImpl) (request : Request.t)
    : result HTTPRequest.t :=
  let requestBody :=
    if negb (String.eqb (Request.Method request) NetHTTP.MethodGet)
       && notNil (Request.Body request)
    then Request.Body request
    else None in
  match NetURL.Parse (baseURL c) with
  | Err err => Err (WithStack err)
  | Ok baseURL =>
      match NetURL.URL_Parse baseURL (Request.Path request) with
      | Err err => Err (WithStack err)
      | Ok requestURL =>
          match NetHTTP.NewRequestWithContext (Request.Method request)
                  (NetURL.String requestURL) requestBody with
          | Err err => Err (WithStack err)
          | Ok httpRequest =>
              Ok (withHeader httpRequest
                    (addHeaders (HTTPRequest.Header httpRequest)
                       (rangeMap (Request.Headers request))))
          end
      end
  end.

(** [func (c *ClientImpl) validateResponse(httpResponse, request) error] *)
Definition validateResponse (httpResponse : HTTPResponse.t) (request : Request.t)
    : option error :=
  if (0 <? List.length (Request.ExpectedStatusCodes request))%nat
     && negb (GoSlices.Contains (Request.ExpectedStatusCodes request)
                (HTTPResponse.StatusCode httpResponse))
  then Some (Errorf ("unexpected status code: "
                     ++ formatInt (HTTPResponse.StatusCode httpResponse)))
  else
    let contentType := HTTPHeader.Get (HTTPResponse.Header httpResponse) "Content-Type" in
    if (0 <? List.length (Request.ExpectedContentTypes request))%nat
       && negb (GoSlices.ContainsFunc (Request.ExpectedContentTypes request)
                  (fun prefix => GoStrings.HasPrefix (GoStrings.ToLower contentType)
                                   (GoStrings.ToLower prefix)))
    then Some (Errorf ("unexpected content type: " ++ contentType))
    else None.

(** [func (c *ClientImpl) readResponse(httpResponse)], returning the pair
    of Go, a [*Response] and an [error], with [None] for [nil]. *)
Definition readResponse (httpResponse : HTTPResponse.t)
    : M (option Response.t * option error) :=
  '(responseBody, err) ← io_ReadAll (HTTPResponse.Body httpResponse);
  match err with
  | Some err => mret (None, Some (WithStack err))
  | None =>
      mret (Some (Response.mk (HTTPResponse.StatusCode httpResponse)
                    (HTTPHeader.Clone (HTTPResponse.Header httpResponse))
                    responseBody),
            None)
  end.

(** [func (c *ClientImpl) Do(request *Request, edit EditRequestFunc)],
    returning a [*Response] and an [error]; a [nil] hook is [None]. The
    deferred function closes the body of the response and drops the error
    of [Close]. *)
Definition Do (c : ClientImpl) (request : Request.t) (edit : option EditRequestFunc)
    : M (option Response.t * option error) :=
  match buildHTTPRequest c request with
  | Err err => mret (None, Some err)
  | Ok httpRequest =>
      '(httpRequest, err) ←
        match edit with
        | Some edit => callEdit edit httpRequest
        | None => mret (httpRequest, None)
        end;
      match err with
      | Some err => mret (None, Some (WithStack err))
      | None =>
          r ← callDo (do c) httpRequest;
          match r with
          | Err err => mret (None, Some (WithStack err))
          | Ok httpResponse =>
              defer (_ ← Body_Close (HTTPResponse.Body httpResponse); mret tt)
                match validateResponse httpResponse request with
                | Some err => mret (None, Some err)
                | None => readResponse httpResponse
                end
          end
      end
  end.

End Client.

(** ** The helpers of the earlier revision of [client.go]

    The earlier revision kept in the repository validates inside [Do] with
    two helpers of its own; the current one uses [slices.Contains] and a
    lower-cased [strings.HasPrefix] instead. *)

Module Superseded.

(** [containsInt] *)
Fixpoint containsInt (list : list Z) (item : Z) : bool :=
  match list with
  | [] => false
  | v :: list' => if Z.eqb v item then true else containsInt list' item
  end.

(** [containsStringPrefix]: the prefixes are compared byte for byte. *)
Fixpoint containsStringPrefix (list : list string) (s : string) : bool :=
  match list with
  | [] => false
  | prefix :: list' =>
      if GoStrings.HasPrefix s prefix then true else containsStringPrefix list' s
  end.

End Superseded.

(** ** Notions the properties are stated with *)

Open Scope list_scope.

(** Two bytes that are equal, or the two cases of one ASCII letter. *)
Definition sameLetter (a b : ascii) : bool :=
  Bytes.eqb a b
  || (Bytes.isUpper a && (Bytes.code b =? Bytes.code a + 32)%N)
  || (Bytes.isUpper b && (Bytes.code a =? Bytes.code b + 32)%N).

(** Equality of two strings up to the case of ASCII letters. *)
Fixpoint EqualFold (s t : string) : bool :=
  match s, t with
  | EmptyString, EmptyString => true
  | String a s', String b t' => sameLetter a b && EqualFold s' t'
  | _, _ => false
  end.

(** [CasePrefix prefix s]: [prefix] is a prefix of [s] up to the case of
    ASCII letters. *)
Inductive CasePrefix : string -> string -> Prop :=
| CasePrefix_empty (s : string) : CasePrefix EmptyString s
| CasePrefix_byte (a b : ascii) (prefix s : string) :
    sameLetter a b = true -> CasePrefix prefix s ->
    CasePrefix (String a prefix) (String b s).

(** [LowerPrefix prefix s]: [prefix] is a prefix of [s] once both are in
    lower case (the lower case of [strings.ToLower]: of ASCII letters, and of
    the other runes by the Unicode table). *)
Definition LowerPrefix {tables : Unicode.Tables} (prefix s : string) : Prop :=
  exists rest, GoStrings.ToLower s = (GoStrings.ToLower prefix ++ rest)%string.

(** A header name made of token bytes only. *)
Definition validHeaderFieldName (key : string) : bool :=
  forallb Textproto.validHeaderFieldByte (list_ascii_of_string key).

(** What the hook leaves of the request, and the error it returns; no hook
    leaves the request as built. *)
Definition applyEdit (edit : option EditRequestFunc) (httpRequest : HTTPRequest.t)
    : HTTPRequest.t * option error :=
  match edit with
  | Some edit => edit httpRequest
  | None => (httpRequest, None)
  end.

(** The calls made up to and including the transport call. *)
Definition callsUntilDo (edit : option EditRequestFunc)
    (built sent : HTTPRequest.t) : list event :=
  match edit with
  | Some _ => [CallEdit built; CallDo sent]
  | None => [CallDo sent]
  end.

Definition isClose (e : event) : bool :=
  match e with
  | Close => true
  | _ => false
  end.

(** The status code of the response is acceptable to the request. *)
Definition statusAccepted (request : Request.t) (httpResponse : HTTPResponse.t) : Prop :=
  Request.ExpectedStatusCodes request = []
  \/ In (HTTPResponse.StatusCode httpResponse) (Request.ExpectedStatusCodes request).

(** The content type of the response is acceptable to the request. *)
Definition contentTypeAccepted {tables : Unicode.Tables} (request : Request.t)
    (httpResponse : HTTPResponse.t) : Prop :=
  Request.ExpectedContentTypes request = []
  \/ exists prefix, In prefix (Request.ExpectedContentTypes request)
       /\ LowerPrefix prefix (HTTPHeader.Get (HTTPResponse.Header httpResponse) "Content-Type").

(** The values of the entries, one after the other. *)
Definition valuesOf (entries : list (string * list string)) : list string :=
  concat (map snd entries).

(** A header entry with these values: none when there is no value. *)
Definition entryOf (values : list string) : option (list string) :=
  match values with
  | [] => None
  | _ => Some values
  end.

(** The entry [o] of a header after [values] are appended to it. *)
Definition appendTo (o : option (list string)) (values : list string)
    : option (list string) :=
  match values with
  | [] => o
  | _ => Some (default [] o ++ values)%list
  end.

(** The entries whose key has the canonical form [K]. *)
Definition entriesFor (K : string) (entries : list (string * list string))
    : list (string * list string) :=
  List.filter (fun kv => String.eqb (Textproto.CanonicalMIMEHeaderKey (fst kv)) K) entries.

(** The entries whose key is [k] up to case. *)
Definition entriesFold (k : string) (entries : list (string * list string))
    : list (string * list string) :=
  List.filter (fun kv => EqualFold (fst kv) k) entries.

(** The five ways a call to [Do] can go, each with what [Do] returns and the
    calls it made. *)
Section PathsOfDo.

Context {urlImpl : NetURL.Impl} {mapRange : MapRange} {tables : Unicode.Tables}.

Inductive DoPath (c : ClientImpl) (request : Request.t)
    (edit : option EditRequestFunc) : Prop :=
| BuildFails (err : error) :
    buildHTTPRequest c request = Err err ->
    Do c request edit = ((None, Some err), []) ->
    DoPath c request edit
| EditFails (built sent : HTTPRequest.t) (err : error) :
    buildHTTPRequest c request = Ok built ->
    applyEdit edit built = (sent, Some err) ->
    Do c request edit = ((None, Some (WithStack err)), [CallEdit built]) ->
    DoPath c request edit
| TransportFails (built sent : HTTPRequest.t) (err : error) :
    buildHTTPRequest c request = Ok built ->
    applyEdit edit built = (sent, None) ->
    do c sent = Err err ->
    Do c request edit = ((None, Some (WithStack err)), callsUntilDo edit built sent) ->
    DoPath c request edit
| ValidationFails (built sent : HTTPRequest.t) (httpResponse : HTTPResponse.t)
    (err : error) :
    buildHTTPRequest c request = Ok built ->
    applyEdit edit built = (sent, None) ->
    do c sent = Ok httpResponse ->
    validateResponse httpResponse request = Some err ->
    Do c request edit = ((None, Some err), callsUntilDo edit built sent ++ [Close]) ->
    DoPath c request edit
| BodyRead (built sent : HTTPRequest.t) (httpResponse : HTTPResponse.t) :
    buildHTTPRequest c request = Ok built ->
    applyEdit edit built = (sent, None) ->
    do c sent = Ok httpResponse ->
    validateResponse httpResponse request = None ->
    Do c request edit
    = (fst (readResponse httpResponse), callsUntilDo edit built sent ++ [ReadAll; Close]) ->
    DoPath c request edit.

End PathsOfDo.

(** ** Example calls, after the cases of [client_test.go] *)

(** The case table the examples run on: the rows of [unicode.CaseRanges] for
    the capital letters of Latin-1, U+00C0 to U+00D6 and U+00D8 to U+00DE,
    whose lower case lies 32 above; every other rune is left as it is, as the
    table of Go leaves a rune that has no lower case (such as U+FFFD). The
    examples hold no rune above U+00FF that has a lower case. *)
Definition latin1Tables : Unicode.Tables :=
  {| Unicode.To_LowerCase r :=
       if ((0xC0 <=? r) && (r <=? 0xDE) && negb (r =? 0xD7))%Z then (r + 32)%Z else r |}.

(** The UTF-8 encodings of the letters U+00C9 and U+00E9 (E with acute,
    capital and small), and the first byte of both alone, which is no
    UTF-8. *)
Definition capitalEAcute : string :=
  String (ascii_of_nat 195) (String (ascii_of_nat 137) EmptyString).

Definition smallEAcute : string :=
  String (ascii_of_nat 195) (String (ascii_of_nat 169) EmptyString).

Definition loneByte : string := String (ascii_of_nat 195) EmptyString.

(** A response stream that yields [text] and closes without error. *)
Definition streamOf (text : string) : HTTPResponse.ReadCloser :=
  HTTPResponse.mkReadCloser (list_byte_of_string text) None None.

(** A response stream that fails while it is read. *)
Definition brokenStream : HTTPResponse.ReadCloser :=
  HTTPResponse.mkReadCloser [] (Some (errorString "unexpected EOF")) None.

(** A transport that answers every request with the same response. *)
Definition respond (status : Z) (contentType : string)
    (body : HTTPResponse.ReadCloser) : DoFunc :=
  fun _ => Ok (HTTPResponse.mk status {[ "Content-Type" := [contentType] ]} body).

(** A transport that fails. *)
Definition refuse : DoFunc :=
  fun _ => Err (errorString "connection refused").

(** A hook that sets a header, and a hook that fails. *)
Definition setCustomHeader : EditRequestFunc :=
  fun httpRequest =>
    (withHeader httpRequest
       (<["X-Custom-Header" := ["custom-value"]]> (HTTPRequest.Header httpRequest)),
     None).

Definition failingEdit : EditRequestFunc :=
  fun httpRequest => (httpRequest, Some (errorString "edit failed")).

Definition exampleClient (do : DoFunc) : ClientImpl :=
  NewClient do "http://example.com".

(** [GET /test] with a body that must not be sent, expecting status 200 and
    JSON. *)
Definition getTest : Request.t :=
  Request.mk "GET" "/test" {[ "Accept" := ["application/json"] ]}
    (Some (list_byte_of_string "ignored")) [200%Z] ["application/json"].

(** [POST /test] with a body and no expectation. *)
Definition postTest : Request.t :=
  Request.mk "POST" "/test" {[ "Content-Type" := ["application/json"] ]}
    (Some (list_byte_of_string "test=data")) [] [].

(** A request that spells one header name in two ways. *)
Definition twoSpellings : Request.t :=
  Request.mk "GET" "/test"
    (<["content-type" := ["a"]]> (<["Content-Type" := ["b"]]> ∅))
    None [] [].

(** A request whose two header names, equal up to case, hold a space. *)
Definition spacedNames : Request.t :=
  Request.mk "GET" "/test"
    (<["x y" := ["1"]]> (<["X Y" := ["2"]]> ∅))
    None [] [].

(** [GET /users/1], expecting status 200 and JSON. *)
Definition getUser : Request.t :=
  Request.mk "GET" "/users/1" ∅ None [200%Z] ["application/json"].

(** The bytes of the JSON text for an object whose field id is 1. *)
Definition userJSON : list Byte.byte :=
  [Byte.x7b; Byte.x22; Byte.x69; Byte.x64; Byte.x22; Byte.x3a; Byte.x31; Byte.x7d].

(** A request with an empty method and a body. *)
Definition emptyMethod : Request.t :=
  Request.mk EmptyString "/test" ∅ (Some (list_byte_of_string "payload")) [] [].

(** ** The later revision of [client.go]

    The repository also holds the revision that follows the one above: [Do]
    takes a [context.Context], the [Body] of a request is an [io.Reader], and
    the header loop calls [http.CanonicalHeaderKey] itself. Its
    [validateResponse] and [readResponse] are those above, word for word. *)

Module Latest.

(** A non-nil [context.Context]; a [nil] context is [None]. *)
Abbreviation Context := GoContext.t (only parsing).
Abbreviation Background := GoContext.Background (only parsing).

(** A non-nil [io.Reader] given as the body of a request, by the cases
    [http.NewRequestWithContext] tells apart: a [*bytes.Buffer], a
    [*bytes.Reader] or a [*strings.Reader] with [data] left to read;
    [http.NoBody] itself; another reader that is an [io.ReadCloser]; any
    other reader. Of the last two [http.NewRequestWithContext] does not know
    the length. *)
Inductive reader : Type :=
| BytesBuffer (data : list Byte.byte)
| BytesReader (data : list Byte.byte)
| StringsReader (data : list Byte.byte)
| NoBodyReader
| OtherReadCloser (data : list Byte.byte)
| OtherReader (data : list Byte.byte).

(** [body.(io.ReadCloser)], wrapped by [io.NopCloser] when the reader has
    no [Close]. *)
Definition readCloserOf (body : reader) : HTTPRequest.body :=
  match body with
  | BytesBuffer data => HTTPRequest.NopCloser data
  | BytesReader data => HTTPRequest.NopCloser data
  | StringsReader data => HTTPRequest.NopCloser data
  | NoBodyReader => HTTPRequest.NoBody
  | OtherReadCloser data => HTTPRequest.ReadCloser data
  | OtherReader data => HTTPRequest.NopCloser data
  end.

(** The switch on the type of [body]: [v.Len()] where the length is known
    ([GetBody] is then set), nothing otherwise. *)
Definition knownLength (body : reader) : option Z :=
  match body with
  | BytesBuffer data => Some (Z.of_nat (List.length data))
  | BytesReader data => Some (Z.of_nat (List.length data))
  | StringsReader data => Some (Z.of_nat (List.length data))
  | NoBodyReader => None
  | OtherReadCloser _ => None
  | OtherReader _ => None
  end.

(** [type Request struct], with [Body io.Reader]. *)
Record Request : Type := mkRequest {
  Method : string;
  Path : string;
  Headers : gmap string (list string);
  Body : option reader;
  ExpectedStatusCodes : list Z;
  ExpectedContentTypes : list string
}.

(** [http.NewRequestWithContext(ctx, method, url, body)]: as
    [NetHTTP.NewRequestWithContext], with the check of [ctx] and the switch
    on the type of [body]: [ContentLength] is the length where it is known
    and 0 otherwise, and a body of known length 0 is replaced by
    [http.NoBody]. *)
Definition NewRequestWithContext {urlImpl : NetURL.Impl} (ctx : option Context)
    (method url : string) (body : option reader) : result HTTPRequest.t :=
  let method := if String.eqb method EmptyString then "GET" else method in
  if negb (NetHTTP.validMethod method)
  then Err (errorString "net/http: invalid method")
  else
    match ctx with
    | None => Err (errorString "net/http: nil Context")
    | Some ctx =>
        match NetURL.Parse url with
        | Err err => Err err
        | Ok u =>
            let u := NetHTTP.withHost u (NetHTTP.removeEmptyPort (NetURL.Host u)) in
            let '(rc, contentLength) :=
              match body with
              | None => (HTTPRequest.nilBody, 0%Z)
              | Some body =>
                  match knownLength body with
                  | Some length =>
                      if (length =? 0)%Z then (HTTPRequest.NoBody, 0%Z)
                      else (readCloserOf body, length)
                  | None => (readCloserOf body, 0%Z)
                  end
              end in
            Ok (HTTPRequest.mk method u ∅ rc contentLength (NetURL.Host u) ctx)
        end
    end.

Section Client.

Context {urlImpl : NetURL.Impl} {mapRange : MapRange} {tables : Unicode.Tables}.

(** The header loop: [normalizedKey := http.CanonicalHeaderKey(key)], then
    [httpRequest.Header.Add(normalizedKey, value)] for each value. *)
Definition addHeaders (h : gmap string (list string))
    (entries : list (string * list string)) : gmap string (list string) :=
  fold_left
    (fun h '(key, values) =>
       let normalizedKey := NetHTTP.CanonicalHeaderKey key in
       fold_left (fun h value => HTTPHeader.Add h normalizedKey value) values h)
    entries h.

(** [func (c *client) buildHTTPRequest(ctx, request)] *)
Definition buildHTTPRequest (ctx : option Context) (c : ClientImpl)
    (request : Request) : result HTTPRequest.t :=
  let requestBody :=
    if negb (String.eqb (Method request) NetHTTP.MethodGet)
       && notNil (Body request)
    then Body request
    else None in
  match NetURL.Parse (baseURL c) with
  | Err err => Err (WithStack err)
  | Ok baseURL =>
      match NetURL.URL_Parse baseURL (Path request) with
      | Err err => Err (WithStack err)
      | Ok requestURL =>
          match NewRequestWithContext ctx (Method request)
                  (NetURL.String requestURL) requestBody with
          | Err err => Err (WithStack err)
          | Ok httpRequest =>
              Ok (withHeader httpRequest
                    (addHeaders (HTTPRequest.Header httpRequest)
                       (rangeMap (Headers request))))
          end
      end
  end.

(** [func (c *client) validateResponse(httpResponse, request) error] *)
Definition validateResponse (httpResponse : HTTPResponse.t) (request : Request)
    : option error :=
  if (0 <? List.length (ExpectedStatusCodes request))%nat
     && negb (GoSlices.Contains (ExpectedStatusCodes request)
                (HTTPResponse.StatusCode httpResponse))
  then Some (Errorf ("unexpected status code: "
                     ++ formatInt (HTTPResponse.StatusCode httpResponse))%string)
  else
    let contentType := HTTPHeader.Get (HTTPResponse.Header httpResponse) "Content-Type" in
    if (0 <? List.length (ExpectedContentTypes request))%nat
       && negb (GoSlices.ContainsFunc (ExpectedContentTypes request)
                  (fun prefix => GoStrings.HasPrefix (GoStrings.ToLower contentType)
                                   (GoStrings.ToLower prefix)))
    then Some (Errorf ("unexpected content type: " ++ contentType)%string)
    else None.

(** [func (c *client) Do(ctx, request, edit)] *)
Definition Do (ctx : option Context) (c : ClientImpl) (request : Request)
    (edit : option EditRequestFunc) : M (option Response.t * option error) :=
  match buildHTTPRequest ctx c request with
  | Err err => mret (None, Some err)
  | Ok httpRequest =>
      '(httpRequest, err) ←
        match edit with
        | Some edit => callEdit edit httpRequest
        | None => mret (httpRequest, None)
        end;
      match err with
      | Some err => mret (None, Some (WithStack err))
      | None =>
          r ← callDo (do c) httpRequest;
          match r with
          | Err err => mret (None, Some (WithStack err))
          | Ok httpResponse =>
              defer (_ ← Body_Close (HTTPResponse.Body httpResponse); mret tt)
                match validateResponse httpResponse request with
                | Some err => mret (None, Some err)
                | None => readResponse httpResponse
                end
          end
      end
  end.

End Client.

(** The request of the later revision that stands for a request of the
    current one: the bytes of [Body] behind a [*bytes.Reader]. *)
Definition ofCurrent (request : Request.t) : Request :=
  mkRequest (Request.Method request) (Request.Path request)
    (Request.Headers request)
    (match Request.Body request with
     | Some b => Some (BytesReader b)
     | None => None
     end)
    (Request.ExpectedStatusCodes request) (Request.ExpectedContentTypes request).

End Latest.

(** ** More notions the properties are stated with *)

(** The kind of a call. *)
Inductive call : Type :=
| HookCall
| TransportCall
| ReadCall
| CloseCall.

Definition callOf (e : event) : call :=
  match e with
  | CallEdit _ => HookCall
  | CallDo _ => TransportCall
  | ReadAll => ReadCall
  | Close => CloseCall
  end.

(** The response with the error of its [Close] replaced. *)
Definition setCloseErr (err : option error) (r : HTTPResponse.t) : HTTPResponse.t :=
  HTTPResponse.mk (HTTPResponse.StatusCode r) (HTTPResponse.Header r)
    (HTTPResponse.mkReadCloser (HTTPResponse.data (HTTPResponse.Body r))
       (HTTPResponse.readErr (HTTPResponse.Body r)) err).

(** The transport [do] with the error of [Close] replaced in every response
    it returns. *)
Definition closingWith (err : option error) (do : DoFunc) : DoFunc :=
  fun httpRequest =>
    match do httpRequest with
    | Ok r => Ok (setCloseErr err r)
    | Err e => Err e
    end.

(** All the values of a header, entry after entry. *)
Definition allValues (h : gmap string (list string)) : list string :=
  valuesOf (map_to_list h).

(** A string that holds no upper-case ASCII letter. *)
Definition noUpper (s : string) : bool :=
  forallb (fun c => negb (Bytes.isUpper c)) (list_ascii_of_string s).


(** ** Package [meta]: [version.go] *)

Module Meta.

(** The ASCII white space of [strings.TrimSpace]: tab, line feed, vertical
    tab, form feed, carriage return and space. *)
Definition asciiSpace (c : ascii) : bool :=
  ((9 <=? Bytes.code c) && (Bytes.code c <=? 13))%N || (Bytes.code c =? 32)%N.

(** The two-byte UTF-8 encodings of white space ([unicode.IsSpace]):
    U+0085 and U+00A0. *)
Definition space2 (a b : ascii) : bool :=
  (Bytes.code a =? 194)%N && ((Bytes.code b =? 133)%N || (Bytes.code b =? 160)%N).

(** The three-byte ones: U+1680, U+2000 to U+200A, U+2028, U+2029, U+202F,
    U+205F and U+3000. *)
Definition space3 (a b c : ascii) : bool :=
  ((Bytes.code a =? 225)%N && (Bytes.code b =? 154)%N && (Bytes.code c =? 128)%N)
  || ((Bytes.code a =? 226)%N && (Bytes.code b =? 128)%N
      && (((128 <=? Bytes.code c) && (Bytes.code c <=? 138))%N
          || (Bytes.code c =? 168)%N || (Bytes.code c =? 169)%N
          || (Bytes.code c =? 175)%N))
  || ((Bytes.code a =? 226)%N && (Bytes.code b =? 129)%N && (Bytes.code c =? 159)%N)
  || ((Bytes.code a =? 227)%N && (Bytes.code b =? 128)%N && (Bytes.code c =? 128)%N).

(** The bytes left when the white space at the start is removed, rune by
    rune (a byte that starts no white space stops the removal). *)
Fixpoint trimLeft (s : list ascii) : list ascii :=
  match s with
  | [] => []
  | a :: s1 =>
      if asciiSpace a then trimLeft s1
      else
        match s1 with
        | b :: s2 =>
            if space2 a b then trimLeft s2
            else
              match s2 with
              | c :: s3 => if space3 a b c then trimLeft s3 else s
              | [] => s
              end
        | [] => s
        end
  end.

(** The same from the end, on the bytes in reverse order (as
    [utf8.DecodeLastRuneInString] reads them). *)
Fixpoint trimLeftReversed (s : list ascii) : list ascii :=
  match s with
  | [] => []
  | a :: s1 =>
      if asciiSpace a then trimLeftReversed s1
      else
        match s1 with
        | b :: s2 =>
            if space2 b a then trimLeftReversed s2
            else
              match s2 with
              | c :: s3 => if space3 c b a then trimLeftReversed s3 else s
              | [] => s
              end
        | [] => s
        end
  end.

Definition trimRight (s : list ascii) : list ascii :=
  List.rev (trimLeftReversed (List.rev s)).

(** [strings.TrimSpace(s)]: [s] without the white space at its two ends. *)
Definition TrimSpace (s : string) : string :=
  string_of_list_ascii (trimRight (trimLeft (list_ascii_of_string s))).

(** [func GetVersion() string], [version] being the text of the embedded file
    [version.txt]. *)
Definition GetVersion (version : string) : string :=
  ("v" ++ TrimSpace version)%string.

(** A text made of ASCII white space. *)
Definition allSpace (pad : string) : bool :=
  forallb asciiSpace (list_ascii_of_string pad).

(** An ASCII byte that is not white space. *)
Definition plain (c : ascii) : bool :=
  (Bytes.code c <? 128)%N && negb (asciiSpace c).

(** A text whose first and last bytes are plain. *)
Definition plainEnds (s : string) : bool :=
  match list_ascii_of_string s with
  | a :: _ => plain a
  | [] => false
  end
  && match List.rev (list_ascii_of_string s) with
     | b :: _ => plain b
     | [] => false
     end.

End Meta.

(** ** The example program: [example/main.go] *)

Module ExampleMain.

(** [err.Error()]: the message of the error; [WithStack] keeps the message of
    its cause. *)
Fixpoint Error (err : error) : string :=
  match err with
  | errorString msg => msg
  | Errorf msg => msg
  | WithStack cause => Error cause
  end.

(** How the program ends: [log.Fatalf] with a message (the prefix of the
    logger is left out), the text printed on the standard output, or a
    panic (a nil dereference or a slice out of range). *)
Inductive outcome : Type :=
| Fatal (message : string)
| Printed (stdout : string)
| Panic.

(** The request of [main]. *)
Definition request : Latest.Request :=
  Latest.mkRequest "GET" "/" ∅ None [200%Z; 301%Z; 302%Z] ["text/html"].

Definition newline : string := String (ascii_of_nat 10) EmptyString.

(** [b[:n]], which panics ([None]) when [n] exceeds the length of [b]. *)
Definition slicePrefix (b : list Byte.byte) (n : nat) : option (list Byte.byte) :=
  if (n <=? List.length b)%nat then Some (firstn n b) else None.

(** [func main()], with the transport [http.DefaultClient.Do] as [do]. *)
Definition main {urlImpl : NetURL.Impl} {mapRange : MapRange}
    {tables : Unicode.Tables} (do : DoFunc) : M outcome :=
  let client := NewClient do "http://google.com" in
  '(response, err) ← Latest.Do (Some Latest.Background) client request None;
  match err with
  | Some err => mret (Fatal ("Failed to make request: " ++ Error err)%string)
  | None =>
      match response with
      | None => mret Panic
      | Some response =>
          let bodyLength := List.length (Response.Body response) in
          let bodyLength := if (256 <? bodyLength)%nat then 256%nat else bodyLength in
          match slicePrefix (Response.Body response) bodyLength with
          | None => mret Panic
          | Some first =>
              mret (Printed
                      ("Response Status: " ++ formatInt (Response.StatusCode response)
                       ++ newline
                       ++ "First " ++ formatInt (Z.of_nat bodyLength)
                       ++ " bytes of response body:" ++ newline
                       ++ string_of_list_byte first ++ newline)%string)
          end
      end
  end.

End ExampleMain.


(** * Properties *)

(** ** Bytes *)

Lemma Bytes_all_complete (c : ascii) : In c Bytes.all.
Proof.
  unfold Bytes.all. rewrite <- (ascii_nat_embedding c).
  apply in_map, in_seq. pose proof (nat_ascii_bounded c). lia.
Qed.

Lemma forall_bytes (P : ascii -> bool) :
  forallb P Bytes.all = true -> forall c, P c = true.
Proof.
  intros HP c. rewrite forallb_forall in HP. apply HP, Bytes_all_complete.
Qed.

Lemma forall_bytes2 (P : ascii -> ascii -> bool) :
  forallb (fun a => forallb (P a) Bytes.all) Bytes.all = true ->
  forall a b, P a b = true.
Proof.
  intros HP a b.
  pose proof (forall_bytes _ HP a) as Ha. cbv beta in Ha.
  exact (forall_bytes _ Ha b).
Qed.

Lemma sameLetter_toLower (a b : ascii) :
  sameLetter a b = true <-> Bytes.toLower a = Bytes.toLower b.
Proof.
  pose proof (forall_bytes2
    (fun a b => Bool.eqb (sameLetter a b) (Bytes.eqb (Bytes.toLower a) (Bytes.toLower b)))) as Hall.
  specialize (Hall ltac:(vm_compute; reflexivity) a b).
  apply Bool.eqb_prop in Hall. rewrite Hall. unfold Bytes.eqb.
  apply Ascii.eqb_eq.
Qed.

(** ** Strings up to case *)

Lemma EqualFold_lowerASCII (s t : string) :
  EqualFold s t = true <-> GoStrings.lowerASCII s = GoStrings.lowerASCII t.
Proof.
  revert t. induction s as [|a s IH]; intros [|b t]; simpl; try (split; [done|discriminate]).
  - split; reflexivity.
  - rewrite andb_true_iff, IH, sameLetter_toLower. split.
    + intros [-> ->]. reflexivity.
    + intros Heq. injection Heq as Ha Hs. done.
Qed.

Lemma EqualFold_refl (s : string) : EqualFold s s = true.
Proof. apply EqualFold_lowerASCII. reflexivity. Qed.

Lemma EqualFold_sym (s t : string) : EqualFold s t = true -> EqualFold t s = true.
Proof. rewrite !EqualFold_lowerASCII. congruence. Qed.

Lemma EqualFold_trans (s t u : string) :
  EqualFold s t = true -> EqualFold t u = true -> EqualFold s u = true.
Proof. rewrite !EqualFold_lowerASCII. congruence. Qed.

(** On the ASCII path, the test of [validateResponse] on one prefix is the
    prefix relation up to the case of letters. *)
Lemma CasePrefix_HasPrefix (prefix s : string) :
  CasePrefix prefix s <->
  GoStrings.HasPrefix (GoStrings.lowerASCII s) (GoStrings.lowerASCII prefix) = true.
Proof.
  split.
  - induction 1 as [s|a b prefix s Hab _ IH]; simpl.
    + destruct (GoStrings.lowerASCII s); reflexivity.
    + apply sameLetter_toLower in Hab. rewrite Hab, IH.
      unfold Bytes.eqb. rewrite Ascii.eqb_refl. reflexivity.
  - revert s. induction prefix as [|a prefix IH]; intros s Hs.
    + constructor.
    + destruct s as [|b s]; simpl in Hs; [discriminate|].
      apply andb_true_iff in Hs as [Hb Hs].
      apply Ascii.eqb_eq in Hb. constructor.
      * apply sameLetter_toLower. done.
      * apply IH, Hs.
Qed.

Lemma CasePrefix_app (prefix s1 s2 : string) :
  EqualFold prefix s1 = true -> CasePrefix prefix (s1 ++ s2)%string.
Proof.
  revert s1. induction prefix as [|a prefix IH]; intros [|b s1]; simpl; try discriminate.
  - constructor.
  - intros [Hab Hs]%andb_true_iff. constructor; auto.
Qed.

(** ** Lower case *)

Lemma DecodeRuneInString_width (c0 : ascii) (rest : list ascii) :
  (1 <= snd (UTF8.DecodeRuneInString (c0 :: rest)) <= S (List.length rest))%nat.
Proof.
  unfold UTF8.DecodeRuneInString. cbv zeta.
  repeat match goal with
         | |- context [if ?b then _ else _] => destruct b
         | |- context [match ?l with [] => _ | _ :: _ => _ end] => destruct l
         end; simpl; lia.
Qed.

(** The runes of a string do not depend on the fuel, from the length of the
    string on. *)
Lemma rangeString_fuel (fuel : nat) (s : list ascii) :
  (List.length s <= fuel)%nat ->
  UTF8.rangeString fuel s = UTF8.runes s.
Proof.
  unfold UTF8.runes.
  assert (H : forall fuel1 fuel2 s,
             (List.length s <= fuel1)%nat -> (List.length s <= fuel2)%nat ->
             UTF8.rangeString fuel1 s = UTF8.rangeString fuel2 s);
    [|intros; apply H; lia].
  clear. induction fuel1 as [|fuel1 IH]; intros fuel2 s H1 H2.
  - destruct s; [|simpl in H1; lia]. destruct fuel2; reflexivity.
  - destruct s as [|c0 rest]; [destruct fuel2; reflexivity|].
    destruct fuel2 as [|fuel2]; [simpl in H2; lia|].
    cbn [UTF8.rangeString].
    pose proof (DecodeRuneInString_width c0 rest) as Hw.
    destruct (UTF8.DecodeRuneInString (c0 :: rest)) as [c width]. cbn [snd] in Hw.
    f_equal. simpl in H1, H2.
    apply IH; rewrite length_skipn; simpl; lia.
Qed.

(** Nor does the output of the first loop of [strings.Map]. *)
Lemma mapFirst_fuel (fuel : nat) (mapping : Z -> Z) (s : list ascii) :
  (List.length s <= fuel)%nat ->
  GoStrings.mapFirst fuel mapping s = GoStrings.mapFirst (List.length s) mapping s.
Proof.
  assert (H : forall fuel1 fuel2 s,
             (List.length s <= fuel1)%nat -> (List.length s <= fuel2)%nat ->
             GoStrings.mapFirst fuel1 mapping s = GoStrings.mapFirst fuel2 mapping s);
    [|intros; apply H; lia].
  clear. induction fuel1 as [|fuel1 IH]; intros fuel2 s H1 H2.
  - destruct s; [|simpl in H1; lia]. destruct fuel2; reflexivity.
  - destruct s as [|c0 rest]; [destruct fuel2; reflexivity|].
    destruct fuel2 as [|fuel2]; [simpl in H2; lia|].
    cbn [GoStrings.mapFirst].
    pose proof (DecodeRuneInString_width c0 rest) as Hw.
    destruct (UTF8.DecodeRuneInString (c0 :: rest)) as [c width]. cbn [snd] in Hw.
    simpl in H1, H2.
    assert (Hrec : GoStrings.mapFirst fuel1 mapping (skipn width (c0 :: rest))
                   = GoStrings.mapFirst fuel2 mapping (skipn width (c0 :: rest))).
    { apply IH; rewrite length_skipn; simpl; lia. }
    cbv zeta. rewrite Hrec. reflexivity.
Qed.

Lemma lowerASCII_noUpper (s : string) :
  GoStrings.hasUpper s = false -> GoStrings.lowerASCII s = s.
Proof.
  unfold GoStrings.hasUpper. induction s as [|c s IH]; simpl; [reflexivity|].
  intros [Hc Hs]%orb_false_iff. unfold Bytes.toLower. rewrite Hc, (IH Hs). reflexivity.
Qed.

Section LowerCase.

Context {tables : Unicode.Tables}.

(** On a string of ASCII bytes [strings.ToLower] is the loop of its ASCII
    path, whatever the Unicode table. *)
Lemma ToLower_ASCII (s : string) :
  GoStrings.isASCII s = true -> GoStrings.ToLower s = GoStrings.lowerASCII s.
Proof.
  intros Hs. unfold GoStrings.ToLower. rewrite Hs.
  destruct (GoStrings.hasUpper s) eqn:Hu; [reflexivity|].
  symmetry. apply lowerASCII_noUpper, Hu.
Qed.

Lemma HasPrefix_app (s prefix : string) :
  GoStrings.HasPrefix s prefix = true <-> exists rest, s = (prefix ++ rest)%string.
Proof.
  revert s. induction prefix as [|p prefix IH]; intros s.
  - split; [intros _; exists s; reflexivity|intros _; destruct s; reflexivity].
  - destruct s as [|c s]; simpl.
    + split; [discriminate|intros (rest & Hrest); discriminate].
    + rewrite andb_true_iff, IH. unfold Bytes.eqb. rewrite Ascii.eqb_eq. split.
      * intros (-> & rest & ->). exists rest. reflexivity.
      * intros (rest & [= -> ->]). split; [reflexivity|exists rest; reflexivity].
Qed.

(** The test of [validateResponse] on one prefix. *)
Lemma LowerPrefix_HasPrefix (prefix s : string) :
  LowerPrefix prefix s <->
  GoStrings.HasPrefix (GoStrings.ToLower s) (GoStrings.ToLower prefix) = true.
Proof. unfold LowerPrefix. rewrite HasPrefix_app. reflexivity. Qed.

(** Between texts of ASCII bytes it is the prefix relation up to the case
    of letters. *)
Lemma LowerPrefix_ASCII (prefix s : string) :
  GoStrings.isASCII prefix = true -> GoStrings.isASCII s = true ->
  LowerPrefix prefix s <-> CasePrefix prefix s.
Proof.
  intros Hp Hs.
  rewrite LowerPrefix_HasPrefix, (ToLower_ASCII _ Hp), (ToLower_ASCII _ Hs).
  symmetry. apply CasePrefix_HasPrefix.
Qed.

Lemma LowerPrefix_refl (s : string) : LowerPrefix s s.
Proof. apply LowerPrefix_HasPrefix, HasPrefix_app. exists EmptyString.
  induction (GoStrings.ToLower s) as [|c t IH]; [reflexivity|].
  change (String c t = String c (t ++ EmptyString)%string). f_equal. exact IH.
Qed.

End LowerCase.

(** ** Canonical header keys *)

Lemma canonicalByte_sameLetter (upper : bool) (a b : ascii) :
  sameLetter a b = true ->
  Textproto.canonicalByte upper a = Textproto.canonicalByte upper b.
Proof.
  intros Hab.
  pose proof (forall_bytes2 (fun a b => implb (sameLetter a b)
    (Bytes.eqb (Textproto.canonicalByte true a) (Textproto.canonicalByte true b)
     && Bytes.eqb (Textproto.canonicalByte false a) (Textproto.canonicalByte false b))))
    as Hall.
  specialize (Hall ltac:(vm_compute; reflexivity) a b). cbv beta in Hall.
  rewrite Hab in Hall. simpl in Hall. apply andb_true_iff in Hall as [Ht Hf].
  destruct upper; apply Ascii.eqb_eq; assumption.
Qed.

Lemma canonicalByte_same (upper : bool) (a : ascii) :
  sameLetter (Textproto.canonicalByte upper a) a = true.
Proof.
  pose proof (forall_bytes (fun a =>
    sameLetter (Textproto.canonicalByte true a) a
    && sameLetter (Textproto.canonicalByte false a) a)) as Hall.
  specialize (Hall ltac:(vm_compute; reflexivity) a). cbv beta in Hall.
  apply andb_true_iff in Hall as [Ht Hf]. destruct upper; assumption.
Qed.

Lemma validHeaderFieldByte_sameLetter (a b : ascii) :
  sameLetter a b = true ->
  Textproto.validHeaderFieldByte a = Textproto.validHeaderFieldByte b.
Proof.
  intros Hab.
  pose proof (forall_bytes2 (fun a b => implb (sameLetter a b)
    (Bool.eqb (Textproto.validHeaderFieldByte a) (Textproto.validHeaderFieldByte b))))
    as Hall.
  specialize (Hall ltac:(vm_compute; reflexivity) a b). cbv beta in Hall.
  rewrite Hab in Hall. simpl in Hall. apply Bool.eqb_prop in Hall. assumption.
Qed.

Lemma canonicalize_EqualFold (upper : bool) (s t : string) :
  EqualFold s t = true ->
  Textproto.canonicalize upper s = Textproto.canonicalize upper t.
Proof.
  revert upper t. induction s as [|a s IH]; intros upper [|b t]; simpl; try discriminate.
  - reflexivity.
  - intros [Hab Hst]%andb_true_iff.
    rewrite (canonicalByte_sameLetter upper a b Hab). f_equal. apply IH, Hst.
Qed.

Lemma canonicalize_same (upper : bool) (s : string) :
  EqualFold (Textproto.canonicalize upper s) s = true.
Proof.
  revert upper. induction s as [|a s IH]; intros upper; simpl; [reflexivity|].
  rewrite canonicalByte_same, IH. reflexivity.
Qed.

Lemma validHeaderFieldName_EqualFold (s t : string) :
  EqualFold s t = true -> validHeaderFieldName s = validHeaderFieldName t.
Proof.
  unfold validHeaderFieldName.
  revert t. induction s as [|a s IH]; intros [|b t]; simpl; try discriminate.
  - reflexivity.
  - intros [Hab Hst]%andb_true_iff.
    rewrite (validHeaderFieldByte_sameLetter a b Hab). f_equal. apply IH, Hst.
Qed.

Lemma scanKey_valid (a : string) :
  validHeaderFieldName a = true -> Textproto.scanKey false a = Some false.
Proof.
  unfold validHeaderFieldName.
  induction a as [|c a IH]; simpl; [reflexivity|].
  intros [Hc Ha]%andb_true_iff. rewrite Hc. apply IH, Ha.
Qed.

Lemma scanKey_invalid (noCanon : bool) (a : string) :
  validHeaderFieldName a = false -> Textproto.scanKey noCanon a <> Some false.
Proof.
  unfold validHeaderFieldName.
  revert noCanon. induction a as [|c a IH]; simpl; intros noCanon; [discriminate|].
  destruct (Textproto.validHeaderFieldByte c) eqn:Hc; simpl.
  - apply IH.
  - intros _. destruct (Bytes.eqb c " "); [|discriminate].
    clear IH. generalize dependent a. intros a. clear Hc.
    induction a as [|d a IHa]; simpl; [discriminate|].
    destruct (Textproto.validHeaderFieldByte d); [assumption|].
    destruct (Bytes.eqb d " "); [assumption|discriminate].
Qed.

Lemma canonicalMIMEHeaderKey_fst (s : string) :
  fst (Textproto.canonicalMIMEHeaderKey s)
  = if validHeaderFieldName s then Textproto.canonicalize true s else s.
Proof.
  destruct s as [|c s]; [reflexivity|].
  unfold Textproto.canonicalMIMEHeaderKey.
  destruct (validHeaderFieldName (String c s)) eqn:Hv.
  - rewrite (scanKey_valid _ Hv). reflexivity.
  - pose proof (scanKey_invalid false _ Hv) as Hs.
    destruct (Textproto.scanKey false (String c s)) as [[|]|]; try reflexivity.
    contradiction Hs. reflexivity.
Qed.

Lemma quickCheck_cases (rest : string) (upper : bool) (s : string) :
  (validHeaderFieldName rest = true
   /\ Textproto.quickCheck upper rest s = s
   /\ Textproto.canonicalize upper rest = rest)
  \/ (validHeaderFieldName rest = false /\ Textproto.quickCheck upper rest s = s)
  \/ Textproto.quickCheck upper rest s = fst (Textproto.canonicalMIMEHeaderKey s).
Proof.
  revert upper. induction rest as [|c rest IH]; intros upper.
  - left. repeat split.
  - unfold validHeaderFieldName. simpl.
    destruct (Textproto.validHeaderFieldByte c) eqn:Hc; simpl.
    + destruct (upper && Bytes.isLower c) eqn:H1; [right; right; reflexivity|].
      destruct (negb upper && Bytes.isUpper c) eqn:H2; [right; right; reflexivity|].
      assert (Hb : Textproto.canonicalByte upper c = c).
      { unfold Textproto.canonicalByte. rewrite H1, H2. reflexivity. }
      rewrite Hb.
      destruct (IH (Bytes.eqb c "-")) as [(Hv & Hq & Hk)|[(Hv & Hq)|Hq]].
      * left. repeat split; [exact Hv|exact Hq|]. rewrite Hk. reflexivity.
      * right; left. split; [exact Hv|exact Hq].
      * right; right. exact Hq.
    + right; left. split; reflexivity.
Qed.

Lemma CanonicalMIMEHeaderKey_valid (s : string) :
  validHeaderFieldName s = true ->
  Textproto.CanonicalMIMEHeaderKey s = Textproto.canonicalize true s.
Proof.
  intros Hv. unfold Textproto.CanonicalMIMEHeaderKey.
  pose proof (canonicalMIMEHeaderKey_fst s) as Hf. rewrite Hv in Hf.
  destruct (quickCheck_cases s true s) as [(_ & Hq & Hk)|[(Hn & _)|Hq]];
    congruence.
Qed.

Lemma CanonicalMIMEHeaderKey_invalid (s : string) :
  validHeaderFieldName s = false -> Textproto.CanonicalMIMEHeaderKey s = s.
Proof.
  intros Hv. unfold Textproto.CanonicalMIMEHeaderKey.
  pose proof (canonicalMIMEHeaderKey_fst s) as Hf. rewrite Hv in Hf.
  destruct (quickCheck_cases s true s) as [(Hn & _)|[(_ & Hq)|Hq]];
    congruence.
Qed.

Lemma CanonicalMIMEHeaderKey_same (s : string) :
  EqualFold (Textproto.CanonicalMIMEHeaderKey s) s = true.
Proof.
  destruct (validHeaderFieldName s) eqn:Hv.
  - rewrite (CanonicalMIMEHeaderKey_valid _ Hv). apply canonicalize_same.
  - rewrite (CanonicalMIMEHeaderKey_invalid _ Hv). apply EqualFold_refl.
Qed.

(** Case-insensitive duplicates of a valid header name are exactly the keys
    with its canonical form. *)
Lemma CanonicalMIMEHeaderKey_eq_iff (k k' : string) :
  validHeaderFieldName k = true ->
  Textproto.CanonicalMIMEHeaderKey k' = Textproto.CanonicalMIMEHeaderKey k
  <-> EqualFold k' k = true.
Proof.
  intros Hv. split.
  - intros Heq.
    apply EqualFold_trans with (Textproto.CanonicalMIMEHeaderKey k').
    + apply EqualFold_sym, CanonicalMIMEHeaderKey_same.
    + rewrite Heq. apply CanonicalMIMEHeaderKey_same.
  - intros Hf.
    assert (Hv' : validHeaderFieldName k' = true).
    { rewrite (validHeaderFieldName_EqualFold _ _ Hf). exact Hv. }
    rewrite (CanonicalMIMEHeaderKey_valid _ Hv), (CanonicalMIMEHeaderKey_valid _ Hv').
    apply canonicalize_EqualFold, Hf.
Qed.

Lemma CanonicalMIMEHeaderKey_idempotent (s : string) :
  Textproto.CanonicalMIMEHeaderKey (Textproto.CanonicalMIMEHeaderKey s)
  = Textproto.CanonicalMIMEHeaderKey s.
Proof.
  destruct (validHeaderFieldName s) eqn:Hv.
  - apply CanonicalMIMEHeaderKey_eq_iff; [exact Hv|].
    apply CanonicalMIMEHeaderKey_same.
  - rewrite (CanonicalMIMEHeaderKey_invalid _ Hv).
    apply (CanonicalMIMEHeaderKey_invalid _ Hv).
Qed.

(** ** The header loops of [buildHTTPRequest] *)

Lemma appendTo_app (o : option (list string)) (v1 v2 : list string) :
  appendTo (appendTo o v1) v2 = appendTo o (v1 ++ v2).
Proof.
  destruct v1 as [|x v1]; [reflexivity|].
  destruct v2 as [|y v2]; simpl.
  - rewrite app_nil_r. reflexivity.
  - rewrite <- app_assoc. reflexivity.
Qed.

Lemma Add_lookup (h : gmap string (list string)) (key value K : string) :
  HTTPHeader.Add h key value !! K
  = if String.eqb (Textproto.CanonicalMIMEHeaderKey key) K
    then appendTo (h !! K) [value] else h !! K.
Proof.
  unfold HTTPHeader.Add.
  destruct (String.eqb_spec (Textproto.CanonicalMIMEHeaderKey key) K) as [->|Hne].
  - rewrite lookup_insert_eq. reflexivity.
  - rewrite lookup_insert_ne by exact Hne. reflexivity.
Qed.

Lemma addValues_lookup (values : list string) (h : gmap string (list string))
    (key K : string) :
  addValues h key values !! K
  = if String.eqb (Textproto.CanonicalMIMEHeaderKey key) K
    then appendTo (h !! K) values else h !! K.
Proof.
  unfold addValues.
  revert h. induction values as [|value values IH]; intros h; simpl.
  - destruct (String.eqb _ _); reflexivity.
  - rewrite IH, Add_lookup.
    destruct (String.eqb _ _); [|reflexivity].
    apply (appendTo_app (h !! K) [value] values).
Qed.

Lemma addHeaders_lookup (entries : list (string * list string))
    (h : gmap string (list string)) (K : string) :
  addHeaders h entries !! K = appendTo (h !! K) (valuesOf (entriesFor K entries)).
Proof.
  unfold addHeaders, valuesOf, entriesFor.
  revert h. induction entries as [|[key values] entries IH]; intros h; simpl.
  - reflexivity.
  - rewrite IH, addValues_lookup.
    destruct (String.eqb _ _); simpl; [|reflexivity].
    apply appendTo_app.
Qed.

(** The loop of the later revision of [client.go], which calls
    [http.CanonicalHeaderKey(key)] itself before [Header.Add], fills the
    header in the same way. *)
Lemma addValues_normalizedKey (values : list string) (h : gmap string (list string))
    (key : string) :
  addValues h (NetHTTP.CanonicalHeaderKey key) values = addValues h key values.
Proof.
  unfold addValues, NetHTTP.CanonicalHeaderKey.
  revert h. induction values as [|value values IH]; intros h; simpl; [reflexivity|].
  rewrite IH. f_equal. unfold HTTPHeader.Add.
  rewrite CanonicalMIMEHeaderKey_idempotent. reflexivity.
Qed.

Lemma entriesFor_entriesFold (k : string) (entries : list (string * list string)) :
  validHeaderFieldName k = true ->
  entriesFor (Textproto.CanonicalMIMEHeaderKey k) entries = entriesFold k entries.
Proof.
  intros Hv. apply List.filter_ext. intros [k' vs]. simpl.
  destruct (String.eqb_spec (Textproto.CanonicalMIMEHeaderKey k')
              (Textproto.CanonicalMIMEHeaderKey k)) as [Heq|Hne].
  - symmetry. apply (CanonicalMIMEHeaderKey_eq_iff k k' Hv), Heq.
  - destruct (EqualFold k' k) eqn:Hf; [|reflexivity].
    contradiction Hne. apply (CanonicalMIMEHeaderKey_eq_iff k k' Hv), Hf.
Qed.

(** ** The request builder, field by field *)

Section Builder.

Context {urlImpl : NetURL.Impl} {mapRange : MapRange} {tables : Unicode.Tables}.

(** The body handed to [http.NewRequestWithContext]. *)
Lemma buildHTTPRequest_Body (c : ClientImpl) (request : Request.t)
    (httpRequest : HTTPRequest.t) :
  buildHTTPRequest c request = Ok httpRequest ->
  HTTPRequest.Body httpRequest
  = match (if negb (String.eqb (Request.Method request) NetHTTP.MethodGet)
              && notNil (Request.Body request)
           then Request.Body request else None) with
    | None => HTTPRequest.nilBody
    | Some b => if Nat.eqb (List.length b) 0 then HTTPRequest.NoBody
                else HTTPRequest.NopCloser b
    end.
Proof.
  unfold buildHTTPRequest, NetURL.URL_Parse, NetHTTP.NewRequestWithContext.
  destruct (NetURL.Parse (baseURL c)); [|discriminate].
  destruct (NetURL.Parse (Request.Path request)); [|discriminate].
  destruct (negb (NetHTTP.validMethod _)); [discriminate|].
  destruct (NetURL.Parse (NetURL.String _)); [|discriminate].
  destruct (if negb (String.eqb (Request.Method request) NetHTTP.MethodGet)
               && notNil (Request.Body request)
            then Request.Body request else None) as [b|].
  - destruct (Nat.eqb (List.length b) 0); intros [= <-]; reflexivity.
  - intros [= <-]; reflexivity.
Qed.

(** The header of the built request holds what the loops added to an empty
    header. *)
Lemma buildHTTPRequest_Header (c : ClientImpl) (request : Request.t)
    (httpRequest : HTTPRequest.t) :
  buildHTTPRequest c request = Ok httpRequest ->
  HTTPRequest.Header httpRequest = addHeaders ∅ (rangeMap (Request.Headers request)).
Proof.
  unfold buildHTTPRequest, NetURL.URL_Parse, NetHTTP.NewRequestWithContext.
  destruct (NetURL.Parse (baseURL c)); [|discriminate].
  destruct (NetURL.Parse (Request.Path request)); [|discriminate].
  destruct (negb (NetHTTP.validMethod _)); [discriminate|].
  destruct (NetURL.Parse (NetURL.String _)); [|discriminate].
  destruct (match _ with Some _ => _ | None => _ end) as [rc contentLength].
  intros [= <-]; reflexivity.
Qed.

(** The address of the built request: the base and the path are parsed, the
    path is resolved against the base, and the text of the result is parsed
    again by [http.NewRequestWithContext]. *)
Lemma buildHTTPRequest_URL (c : ClientImpl) (request : Request.t)
    (httpRequest : HTTPRequest.t) :
  buildHTTPRequest c request = Ok httpRequest ->
  exists base ref u,
    NetURL.Parse (baseURL c) = Ok base
    /\ NetURL.Parse (Request.Path request) = Ok ref
    /\ NetURL.Parse (NetURL.String (NetURL.ResolveReference base ref)) = Ok u
    /\ HTTPRequest.URL httpRequest
       = NetHTTP.withHost u (NetHTTP.removeEmptyPort (NetURL.Host u)).
Proof.
  unfold buildHTTPRequest, NetURL.URL_Parse, NetHTTP.NewRequestWithContext.
  destruct (NetURL.Parse (baseURL c)) as [base|]; [|discriminate].
  destruct (NetURL.Parse (Request.Path request)) as [ref|]; [|discriminate].
  destruct (negb (NetHTTP.validMethod _)); [discriminate|].
  destruct (NetURL.Parse (NetURL.String _)) as [u|] eqn:Hu; [|discriminate].
  destruct (match _ with Some _ => _ | None => _ end) as [rc contentLength].
  intros [= <-]. exists base, ref, u. repeat split. exact Hu.
Qed.

(** The builder succeeds as soon as the three texts parse and the method is
    a token (or empty). *)
Lemma buildHTTPRequest_succeeds (c : ClientImpl) (request : Request.t)
    (base ref u : NetURL.URL) :
  NetURL.Parse (baseURL c) = Ok base ->
  NetURL.Parse (Request.Path request) = Ok ref ->
  NetURL.Parse (NetURL.String (NetURL.ResolveReference base ref)) = Ok u ->
  NetHTTP.validMethod (if String.eqb (Request.Method request) EmptyString
                       then "GET" else Request.Method request) = true ->
  exists httpRequest, buildHTTPRequest c request = Ok httpRequest.
Proof.
  intros Hbase Href Hu Hm.
  unfold buildHTTPRequest, NetURL.URL_Parse, NetHTTP.NewRequestWithContext.
  rewrite Hbase, Href, Hm, Hu. simpl.
  destruct (match _ with Some _ => _ | None => _ end) as [rc contentLength].
  eexists. reflexivity.
Qed.

End Builder.

(** ** The paths through [Do] *)

Section Paths.

Context {urlImpl : NetURL.Impl} {mapRange : MapRange} {tables : Unicode.Tables}.

Lemma Do_build_error (c : ClientImpl) (request : Request.t)
    (edit : option EditRequestFunc) (err : error) :
  buildHTTPRequest c request = Err err ->
  Do c request edit = ((None, Some err), []).
Proof. intros Hb. unfold Do. rewrite Hb. reflexivity. Qed.

Lemma Do_edit_error (c : ClientImpl) (request : Request.t)
    (edit : option EditRequestFunc) (built sent : HTTPRequest.t) (err : error) :
  buildHTTPRequest c request = Ok built ->
  applyEdit edit built = (sent, Some err) ->
  Do c request edit = ((None, Some (WithStack err)), [CallEdit built]).
Proof.
  intros Hb He. unfold Do. rewrite Hb.
  destruct edit as [f|]; simpl in He; [|discriminate].
  unfold callEdit. simpl. rewrite He. reflexivity.
Qed.

Lemma Do_transport_error (c : ClientImpl) (request : Request.t)
    (edit : option EditRequestFunc) (built sent : HTTPRequest.t) (err : error) :
  buildHTTPRequest c request = Ok built ->
  applyEdit edit built = (sent, None) ->
  do c sent = Err err ->
  Do c request edit = ((None, Some (WithStack err)), callsUntilDo edit built sent).
Proof.
  intros Hb He Hd. unfold Do. rewrite Hb.
  destruct edit as [f|]; simpl in He.
  - unfold callEdit, callDo. simpl. rewrite He. simpl. rewrite Hd. reflexivity.
  - injection He as <-. unfold callDo. simpl. rewrite Hd. reflexivity.
Qed.

Lemma Do_invalid (c : ClientImpl) (request : Request.t)
    (edit : option EditRequestFunc) (built sent : HTTPRequest.t)
    (httpResponse : HTTPResponse.t) (err : error) :
  buildHTTPRequest c request = Ok built ->
  applyEdit edit built = (sent, None) ->
  do c sent = Ok httpResponse ->
  validateResponse httpResponse request = Some err ->
  Do c request edit = ((None, Some err), callsUntilDo edit built sent ++ [Close]).
Proof.
  intros Hb He Hd Hv. unfold Do. rewrite Hb.
  destruct edit as [f|]; simpl in He.
  - unfold callEdit, callDo, defer. simpl. rewrite He. simpl. rewrite Hd. simpl.
    rewrite Hv. reflexivity.
  - injection He as <-. unfold callDo, defer. simpl. rewrite Hd. simpl.
    rewrite Hv. reflexivity.
Qed.

Lemma Do_valid (c : ClientImpl) (request : Request.t)
    (edit : option EditRequestFunc) (built sent : HTTPRequest.t)
    (httpResponse : HTTPResponse.t) :
  buildHTTPRequest c request = Ok built ->
  applyEdit edit built = (sent, None) ->
  do c sent = Ok httpResponse ->
  validateResponse httpResponse request = None ->
  Do c request edit
  = (fst (readResponse httpResponse),
     callsUntilDo edit built sent ++ [ReadAll; Close]).
Proof.
  intros Hb He Hd Hv. unfold Do. rewrite Hb.
  destruct edit as [f|]; simpl in He.
  - unfold callEdit, callDo, defer, readResponse, io_ReadAll. simpl.
    rewrite He. simpl. rewrite Hd. simpl. rewrite Hv. simpl.
    destruct (HTTPResponse.readErr _); reflexivity.
  - injection He as <-.
    unfold callDo, defer, readResponse, io_ReadAll. simpl. rewrite Hd. simpl.
    rewrite Hv. simpl. destruct (HTTPResponse.readErr _); reflexivity.
Qed.

End Paths.

(** ** Validation *)

Section Validation.

Context {tables : Unicode.Tables}.

Lemma Contains_In (s : list Z) (v : Z) : GoSlices.Contains s v = true <-> In v s.
Proof.
  unfold GoSlices.Contains. rewrite existsb_exists. split.
  - intros (x & Hx & Heq). apply Z.eqb_eq in Heq. subst. exact Hx.
  - intros Hv. exists v. split; [exact Hv|apply Z.eqb_refl].
Qed.

Lemma statusAccepted_test (request : Request.t) (httpResponse : HTTPResponse.t) :
  statusAccepted request httpResponse <->
  (0 <? List.length (Request.ExpectedStatusCodes request))%nat
  && negb (GoSlices.Contains (Request.ExpectedStatusCodes request)
             (HTTPResponse.StatusCode httpResponse)) = false.
Proof.
  unfold statusAccepted.
  destruct (Request.ExpectedStatusCodes request) as [|x codes] eqn:Hc.
  - simpl. split; [reflexivity|]. intros _. left. reflexivity.
  - cbn [List.length Nat.ltb Nat.leb andb].
    rewrite negb_false_iff, Contains_In. split.
    + intros [Hnil|Hin]; [discriminate|exact Hin].
    + intros Hin. right. exact Hin.
Qed.

Lemma contentTypeAccepted_test (request : Request.t) (httpResponse : HTTPResponse.t) :
  contentTypeAccepted request httpResponse <->
  (0 <? List.length (Request.ExpectedContentTypes request))%nat
  && negb (GoSlices.ContainsFunc (Request.ExpectedContentTypes request)
             (fun prefix =>
                GoStrings.HasPrefix
                  (GoStrings.ToLower
                     (HTTPHeader.Get (HTTPResponse.Header httpResponse) "Content-Type"))
                  (GoStrings.ToLower prefix))) = false.
Proof.
  unfold contentTypeAccepted, GoSlices.ContainsFunc.
  destruct (Request.ExpectedContentTypes request) as [|x prefixes] eqn:Hc.
  - simpl. split; [reflexivity|]. intros _. left. reflexivity.
  - cbn [List.length Nat.ltb Nat.leb andb].
    rewrite negb_false_iff, existsb_exists. split.
    + intros [Hnil|(prefix & Hin & Hp)]; [discriminate|].
      exists prefix. split; [exact Hin|]. apply LowerPrefix_HasPrefix, Hp.
    + intros (prefix & Hin & Hp). right.
      exists prefix. split; [exact Hin|]. apply LowerPrefix_HasPrefix, Hp.
Qed.

Lemma validateResponse_status (request : Request.t) (httpResponse : HTTPResponse.t) :
  ~ statusAccepted request httpResponse ->
  validateResponse httpResponse request
  = Some (Errorf ("unexpected status code: "
                  ++ formatInt (HTTPResponse.StatusCode httpResponse))%string).
Proof.
  intros Hs. rewrite statusAccepted_test in Hs. apply not_false_is_true in Hs.
  unfold validateResponse. rewrite Hs. reflexivity.
Qed.

Lemma validateResponse_contentType (request : Request.t) (httpResponse : HTTPResponse.t) :
  statusAccepted request httpResponse ->
  ~ contentTypeAccepted request httpResponse ->
  validateResponse httpResponse request
  = Some (Errorf ("unexpected content type: "
                  ++ HTTPHeader.Get (HTTPResponse.Header httpResponse) "Content-Type")%string).
Proof.
  intros Hs Hc. rewrite statusAccepted_test in Hs.
  rewrite contentTypeAccepted_test in Hc. apply not_false_is_true in Hc.
  unfold validateResponse. rewrite Hs, Hc. reflexivity.
Qed.

Lemma validateResponse_None (request : Request.t) (httpResponse : HTTPResponse.t) :
  validateResponse httpResponse request = None <->
  statusAccepted request httpResponse /\ contentTypeAccepted request httpResponse.
Proof.
  rewrite statusAccepted_test, contentTypeAccepted_test. unfold validateResponse.
  destruct (_ && negb (GoSlices.Contains _ _)); [split; [discriminate|intros [? _]; discriminate]|].
  destruct (_ && negb (GoSlices.ContainsFunc _ _)); split; try discriminate; auto.
  intros [_ ?]; discriminate.
Qed.

Lemma statusAccepted_dec (request : Request.t) (httpResponse : HTTPResponse.t) :
  statusAccepted request httpResponse \/ ~ statusAccepted request httpResponse.
Proof.
  rewrite statusAccepted_test. destruct (_ && _); [right|left]; congruence.
Qed.

Lemma contentTypeAccepted_dec (request : Request.t) (httpResponse : HTTPResponse.t) :
  contentTypeAccepted request httpResponse \/ ~ contentTypeAccepted request httpResponse.
Proof.
  rewrite contentTypeAccepted_test. destruct (_ && _); [right|left]; congruence.
Qed.

End Validation.

(** ** Every call follows one of five paths *)

Section Calls.

Context {urlImpl : NetURL.Impl} {mapRange : MapRange} {tables : Unicode.Tables}.

Lemma Do_path (c : ClientImpl) (request : Request.t) (edit : option EditRequestFunc) :
  DoPath c request edit.
Proof.
  destruct (buildHTTPRequest c request) as [built|err] eqn:Hb.
  - destruct (applyEdit edit built) as [sent [err|]] eqn:He.
    + eapply EditFails; eauto using Do_edit_error.
    + destruct (do c sent) as [httpResponse|err] eqn:Hd.
      * destruct (validateResponse httpResponse request) as [err|] eqn:Hv.
        -- eapply ValidationFails; eauto using Do_invalid.
        -- eapply BodyRead; eauto using Do_valid.
      * eapply TransportFails; eauto using Do_transport_error.
  - eapply BuildFails; eauto using Do_build_error.
Qed.

Lemma readResponse_result (httpResponse : HTTPResponse.t) :
  (exists response, fst (readResponse httpResponse) = (Some response, None))
  \/ (exists err, fst (readResponse httpResponse) = (None, Some err)).
Proof.
  unfold readResponse, io_ReadAll. simpl.
  destruct (HTTPResponse.readErr _) as [err|]; simpl; eauto.
Qed.

Lemma callsUntilDo_no_ReadAll (edit : option EditRequestFunc)
    (built sent : HTTPRequest.t) :
  ~ In ReadAll (callsUntilDo edit built sent).
Proof. destruct edit; simpl; intuition discriminate. Qed.

Lemma callsUntilDo_no_Close (edit : option EditRequestFunc)
    (built sent : HTTPRequest.t) :
  List.filter isClose (callsUntilDo edit built sent) = [].
Proof. destruct edit; reflexivity. Qed.

End Calls.

(** ** The executor *)

Section Executor.

Context {urlImpl : NetURL.Impl} {mapRange : MapRange} {tables : Unicode.Tables}.

(** A trace that is one of those of [Do] and holds a transport call has the
    calls before it and the request sent determined. *)
Lemma callsUntilDo_split (edit : EditRequestFunc) (built sent sent' : HTTPRequest.t)
    (tail before after : list event) :
  (forall r, ~ In (CallDo r) tail) ->
  callsUntilDo (Some edit) built sent ++ tail = before ++ CallDo sent' :: after ->
  before = [CallEdit built] /\ sent' = sent.
Proof.
  intros Htail. simpl.
  destruct before as [|e1 [|e2 before]]; simpl.
  - discriminate.
  - intros [= <- <- _]. split; reflexivity.
  - intros [= _ _ Heq]. exfalso. apply (Htail sent').
    rewrite Heq. apply in_elt.
Qed.

(** C2: with an edit hook, an error of the hook is what [Do] returns (wrapped
    by [WithStack]) and the only call made is the one to the hook; and in any
    call, the transport is called only after the hook was called with the
    built request and returned no error, and it gets the request as the hook
    left it. *)
Theorem edit_hook_runs_before_transport (c : ClientImpl) (request : Request.t)
    (edit : EditRequestFunc) :
  (forall built sent err,
      buildHTTPRequest c request = Ok built ->
      edit built = (sent, Some err) ->
      Do c request (Some edit) = ((None, Some (WithStack err)), [CallEdit built]))
  /\ (forall before sent after,
      snd (Do c request (Some edit)) = before ++ CallDo sent :: after ->
      exists built,
        buildHTTPRequest c request = Ok built
        /\ before = [CallEdit built]
        /\ edit built = (sent, None)).
Proof.
  split.
  - intros built sent err Hb He. eapply Do_edit_error; eauto.
  - intros before sent' after Htrace.
    destruct (Do_path c request (Some edit))
      as [err Hb HDo|built sent err Hb He HDo|built sent err Hb He Hd HDo
         |built sent resp err Hb He Hd Hv HDo|built sent resp Hb He Hd Hv HDo];
      rewrite HDo in Htrace; cbn [snd] in Htrace.
    + destruct before; discriminate.
    + destruct before as [|e1 [|e2 before]]; discriminate.
    + rewrite <- (app_nil_r (callsUntilDo _ _ _)) in Htrace.
      apply callsUntilDo_split in Htrace as [-> ->]; [|intros r []].
      exists built. auto.
    + apply callsUntilDo_split in Htrace as [-> ->].
      * exists built. auto.
      * intros r [|[]]; discriminate.
    + apply callsUntilDo_split in Htrace as [-> ->].
      * exists built. auto.
      * intros r [|[|[]]]; discriminate.
Qed.

(** C8: once the transport has returned a response, [Do] closes its body
    exactly once, as the last thing it does, whether validation fails, the
    body cannot be read, or the call succeeds. *)
Theorem response_body_closed_once (c : ClientImpl) (request : Request.t)
    (edit : option EditRequestFunc) (built sent : HTTPRequest.t)
    (httpResponse : HTTPResponse.t) :
  buildHTTPRequest c request = Ok built ->
  applyEdit edit built = (sent, None) ->
  do c sent = Ok httpResponse ->
  List.length (List.filter isClose (snd (Do c request edit))) = 1%nat
  /\ exists before, snd (Do c request edit) = before ++ [Close]
                    /\ List.filter isClose before = [].
Proof.
  intros Hb He Hd.
  destruct (validateResponse httpResponse request) as [err|] eqn:Hv.
  - rewrite (Do_invalid _ _ _ _ _ _ _ Hb He Hd Hv). cbn [snd].
    rewrite List.filter_app, callsUntilDo_no_Close. split; [reflexivity|].
    eexists. split; [reflexivity|]. apply callsUntilDo_no_Close.
  - rewrite (Do_valid _ _ _ _ _ _ Hb He Hd Hv). cbn [snd].
    rewrite List.filter_app, callsUntilDo_no_Close. split; [reflexivity|].
    exists (callsUntilDo edit built sent ++ [ReadAll]). split.
    + rewrite <- app_assoc. reflexivity.
    + rewrite List.filter_app, callsUntilDo_no_Close. reflexivity.
Qed.

(** C10: every call to [Do] returns either a response and no error, or no
    response and an error. *)
Theorem Do_returns_response_or_error (c : ClientImpl) (request : Request.t)
    (edit : option EditRequestFunc) :
  (exists response, fst (Do c request edit) = (Some response, None))
  \/ (exists err, fst (Do c request edit) = (None, Some err)).
Proof.
  destruct (Do_path c request edit)
    as [err Hb HDo|built sent err Hb He HDo|built sent err Hb He Hd HDo
       |built sent resp err Hb He Hd Hv HDo|built sent resp Hb He Hd Hv HDo];
    rewrite HDo; cbn [fst]; eauto.
  apply readResponse_result.
Qed.

End Executor.

(** ** The validator *)

Section Validator.

Context {urlImpl : NetURL.Impl} {mapRange : MapRange} {tables : Unicode.Tables}.

Lemma In_ReadAll_calls (edit : option EditRequestFunc) (built sent : HTTPRequest.t)
    (tail : list event) :
  In ReadAll (callsUntilDo edit built sent ++ tail) <-> In ReadAll tail.
Proof.
  rewrite in_app_iff. pose proof (callsUntilDo_no_ReadAll edit built sent). tauto.
Qed.

(** What [Do] does with a response, by the outcome of the two checks. *)
Lemma Do_on_response (c : ClientImpl) (request : Request.t)
    (edit : option EditRequestFunc) (built sent : HTTPRequest.t)
    (httpResponse : HTTPResponse.t) :
  buildHTTPRequest c request = Ok built ->
  applyEdit edit built = (sent, None) ->
  do c sent = Ok httpResponse ->
  (~ statusAccepted request httpResponse ->
   fst (Do c request edit)
   = (None, Some (Errorf ("unexpected status code: "
                          ++ formatInt (HTTPResponse.StatusCode httpResponse))%string))
   /\ ~ In ReadAll (snd (Do c request edit)))
  /\ (statusAccepted request httpResponse ->
      ~ contentTypeAccepted request httpResponse ->
      fst (Do c request edit)
      = (None, Some (Errorf ("unexpected content type: "
            ++ HTTPHeader.Get (HTTPResponse.Header httpResponse) "Content-Type")%string))
      /\ ~ In ReadAll (snd (Do c request edit)))
  /\ (statusAccepted request httpResponse ->
      contentTypeAccepted request httpResponse ->
      Do c request edit
      = (fst (readResponse httpResponse),
         callsUntilDo edit built sent ++ [ReadAll; Close])).
Proof.
  intros Hb He Hd. split; [|split].
  - intros Hs.
    rewrite (Do_invalid _ _ _ _ _ _ _ Hb He Hd (validateResponse_status _ _ Hs)).
    split; [reflexivity|].
    cbn [snd]. rewrite In_ReadAll_calls. intros [|[]]; discriminate.
  - intros Hs Hc.
    rewrite (Do_invalid _ _ _ _ _ _ _ Hb He Hd (validateResponse_contentType _ _ Hs Hc)).
    split; [reflexivity|].
    cbn [snd]. rewrite In_ReadAll_calls. intros [|[]]; discriminate.
  - intros Hs Hc. apply Do_valid; auto. apply validateResponse_None. auto.
Qed.

(** C3: when the request lists expected status codes and the status code of
    the response is not one of them, [Do] returns no response and the error
    "unexpected status code: <code>", after closing the body; the message
    names the code received in decimal and no other code. When the request
    lists none, [Do] never returns that error, whatever the code, and the
    validation depends on the content type alone. *)
Theorem status_validation (c : ClientImpl) (request : Request.t)
    (edit : option EditRequestFunc) :
  (forall built sent httpResponse,
      buildHTTPRequest c request = Ok built ->
      applyEdit edit built = (sent, None) ->
      do c sent = Ok httpResponse ->
      Request.ExpectedStatusCodes request <> [] ->
      ~ In (HTTPResponse.StatusCode httpResponse) (Request.ExpectedStatusCodes request) ->
      Do c request edit
      = ((None, Some (Errorf ("unexpected status code: "
                              ++ formatInt (HTTPResponse.StatusCode httpResponse))%string)),
         callsUntilDo edit built sent ++ [Close])
      /\ (forall code,
          snd (fst (Do c request edit))
          = Some (Errorf ("unexpected status code: " ++ formatInt code)%string) ->
          code = HTTPResponse.StatusCode httpResponse)
      /\ (HTTPResponse.StatusCode httpResponse = 500%Z ->
          snd (fst (Do c request edit))
          = Some (Errorf "unexpected status code: 500")))
  /\ (Request.ExpectedStatusCodes request = [] ->
      (forall code,
          snd (fst (Do c request edit))
          <> Some (Errorf ("unexpected status code: " ++ formatInt code)%string))
      /\ (forall httpResponse,
          validateResponse httpResponse request = None
          <-> contentTypeAccepted request httpResponse)).
Proof.
  split.
  - intros built sent httpResponse Hb He Hd Hne Hnin.
    assert (HDo : Do c request edit
                  = ((None, Some (Errorf ("unexpected status code: "
                        ++ formatInt (HTTPResponse.StatusCode httpResponse))%string)),
                     callsUntilDo edit built sent ++ [Close])).
    { eapply Do_invalid; eauto. apply validateResponse_status.
      intros [Hnil|Hin]; contradiction. }
    split; [exact HDo|]. rewrite HDo. cbn [fst snd]. split.
    + intros code [= Heq]. apply String.app_inj in Heq.
      symmetry. apply (inj pretty), Heq.
    + intros ->. reflexivity.
  - intros Hnil. split.
    + intros code.
      destruct (Do_path c request edit)
        as [err Hb HDo|built sent err Hb He HDo|built sent err Hb He Hd HDo
           |built sent resp err Hb He Hd Hv HDo|built sent resp Hb He Hd Hv HDo];
        rewrite HDo; cbn [fst snd]; try discriminate.
      * unfold buildHTTPRequest, NetURL.URL_Parse in Hb.
        destruct (NetURL.Parse (baseURL c)); [|injection Hb as <-; discriminate].
        destruct (NetURL.Parse (Request.Path request)); [|injection Hb as <-; discriminate].
        destruct (NetHTTP.NewRequestWithContext _ _ _); [discriminate|].
        injection Hb as <-. discriminate.
      * destruct (contentTypeAccepted_dec request resp) as [Hc|Hc].
        -- assert (Hnone : validateResponse resp request = None).
           { apply validateResponse_None. split; [left; exact Hnil|exact Hc]. }
           congruence.
        -- rewrite validateResponse_contentType in Hv; [|left; exact Hnil|exact Hc].
           injection Hv as <-. intros [= Heq].
      * destruct (readResponse_result resp) as [(r & Hr)|(err & Hr)].
        -- rewrite Hr. discriminate.
        -- unfold readResponse, io_ReadAll in *. simpl in *.
           destruct (HTTPResponse.readErr _); simpl in *; [|discriminate].
           injection Hr as <-. discriminate.
    + intros httpResponse. rewrite validateResponse_None.
      split; [tauto|]. intros Hc. split; [left; exact Hnil|exact Hc].
Qed.

(** C9: the body is read only when the status code and then the content type
    have been accepted; a status code that is not accepted gives the
    unexpected-status error whatever the content type, a content type that is
    not accepted gives the unexpected-content-type error once the status code
    is accepted, and in both cases the body is not read. *)
Theorem validation_precedes_body_read (c : ClientImpl) (request : Request.t)
    (edit : option EditRequestFunc) :
  (In ReadAll (snd (Do c request edit)) ->
   exists built sent httpResponse,
     buildHTTPRequest c request = Ok built
     /\ applyEdit edit built = (sent, None)
     /\ do c sent = Ok httpResponse
     /\ statusAccepted request httpResponse
     /\ contentTypeAccepted request httpResponse
     /\ snd (Do c request edit) = callsUntilDo edit built sent ++ [ReadAll; Close])
  /\ (forall built sent httpResponse,
      buildHTTPRequest c request = Ok built ->
      applyEdit edit built = (sent, None) ->
      do c sent = Ok httpResponse ->
      (~ statusAccepted request httpResponse ->
       fst (Do c request edit)
       = (None, Some (Errorf ("unexpected status code: "
                              ++ formatInt (HTTPResponse.StatusCode httpResponse))%string))
       /\ ~ In ReadAll (snd (Do c request edit)))
      /\ (statusAccepted request httpResponse ->
          ~ contentTypeAccepted request httpResponse ->
          fst (Do c request edit)
          = (None, Some (Errorf ("unexpected content type: "
                ++ HTTPHeader.Get (HTTPResponse.Header httpResponse) "Content-Type")%string))
          /\ ~ In ReadAll (snd (Do c request edit)))
      /\ (statusAccepted request httpResponse ->
          contentTypeAccepted request httpResponse ->
          Do c request edit
          = (fst (readResponse httpResponse),
             callsUntilDo edit built sent ++ [ReadAll; Close]))).
Proof.
  split.
  - intros Hin.
    destruct (Do_path c request edit)
      as [err Hb HDo|built sent err Hb He HDo|built sent err Hb He Hd HDo
         |built sent resp err Hb He Hd Hv HDo|built sent resp Hb He Hd Hv HDo];
      rewrite HDo in Hin; cbn [snd] in Hin.
    + destruct Hin.
    + destruct Hin as [|[]]; discriminate.
    + exfalso. eapply callsUntilDo_no_ReadAll; eauto.
    + apply In_ReadAll_calls in Hin. destruct Hin as [|[]]; discriminate.
    + apply validateResponse_None in Hv as [Hs Hc].
      exists built, sent, resp. rewrite HDo. auto 10.
  - intros built sent httpResponse Hb He Hd.
    exact (Do_on_response c request edit built sent httpResponse Hb He Hd).
Qed.

End Validator.

Section ContentType.

Context {urlImpl : NetURL.Impl} {mapRange : MapRange} {tables : Unicode.Tables}.

(** C1: for a request that lists expected content types, a call that has
    reached content-type validation (the transport returned a response whose
    status code is accepted) goes on to read the body, and returns what the
    read gives, if and only if one of the listed prefixes is a prefix of the
    value of the Content-Type header of the response once both are in lower
    case; otherwise [Do] returns the error "unexpected content type: <value>"
    with the value as received. When the value and the listed prefixes are
    made of ASCII bytes, that is: one of the prefixes is a prefix of the value
    up to the case of letters. *)
Theorem content_type_validation (c : ClientImpl) (request : Request.t)
    (edit : option EditRequestFunc) (built sent : HTTPRequest.t)
    (httpResponse : HTTPResponse.t) :
  buildHTTPRequest c request = Ok built ->
  applyEdit edit built = (sent, None) ->
  do c sent = Ok httpResponse ->
  statusAccepted request httpResponse ->
  Request.ExpectedContentTypes request <> [] ->
  let contentType := HTTPHeader.Get (HTTPResponse.Header httpResponse) "Content-Type" in
  let matches := exists prefix, In prefix (Request.ExpectedContentTypes request)
                                /\ LowerPrefix prefix contentType in
  (In ReadAll (snd (Do c request edit)) <-> matches)
  /\ (matches -> fst (Do c request edit) = fst (readResponse httpResponse))
  /\ (~ matches ->
      fst (Do c request edit)
      = (None, Some (Errorf ("unexpected content type: " ++ contentType)%string)))
  /\ (GoStrings.isASCII contentType = true ->
      (forall prefix, In prefix (Request.ExpectedContentTypes request) ->
                      GoStrings.isASCII prefix = true) ->
      (matches <-> exists prefix, In prefix (Request.ExpectedContentTypes request)
                                  /\ CasePrefix prefix contentType)).
Proof.
  intros Hb He Hd Hs Hne contentType matches.
  assert (Hiff : contentTypeAccepted request httpResponse <-> matches).
  { unfold contentTypeAccepted. split; [|auto]. intros [Hnil|Hm]; [contradiction|exact Hm]. }
  destruct (Do_on_response c request edit built sent httpResponse Hb He Hd)
    as (_ & Hbad & Hgood).
  split; [split|split; [|split]].
  - intros Hin. destruct (contentTypeAccepted_dec request httpResponse) as [Hc|Hc].
    + apply Hiff, Hc.
    + exfalso. apply (Hbad Hs Hc). exact Hin.
  - intros Hm. rewrite (Hgood Hs (proj2 Hiff Hm)). cbn [snd].
    apply in_app_iff. right. left. reflexivity.
  - intros Hm. rewrite (Hgood Hs (proj2 Hiff Hm)). reflexivity.
  - intros Hm. apply Hbad; [exact Hs|]. rewrite Hiff. exact Hm.
  - intros Hct Hps.
    split; intros (prefix & Hin & Hp); exists prefix; (split; [exact Hin|]);
      apply (LowerPrefix_ASCII prefix contentType (Hps prefix Hin) Hct); exact Hp.
Qed.

End ContentType.

(** ** The request builder *)

Section RequestBody.

Context {urlImpl : NetURL.Impl} {mapRange : MapRange} {tables : Unicode.Tables}.

(** C4: for a request whose method is GET the built request has no body
    ([Body] is [nil]), whatever the [Body] of the request; and when there is
    no edit hook, the request the transport is called with has none. *)
Theorem get_request_has_no_body (c : ClientImpl) (request : Request.t) :
  Request.Method request = "GET" ->
  (forall built,
      buildHTTPRequest c request = Ok built ->
      HTTPRequest.Body built = HTTPRequest.nilBody)
  /\ (forall sent,
      In (CallDo sent) (snd (Do c request None)) ->
      HTTPRequest.Body sent = HTTPRequest.nilBody).
Proof.
  intros Hm.
  assert (Hbody : forall built, buildHTTPRequest c request = Ok built ->
                                HTTPRequest.Body built = HTTPRequest.nilBody).
  { intros built Hb. rewrite (buildHTTPRequest_Body c request built Hb), Hm.
    reflexivity. }
  split; [exact Hbody|].
  intros sent' Hin.
  destruct (Do_path c request None)
    as [err Hb HDo|built sent err Hb He HDo|built sent err Hb He Hd HDo
       |built sent resp err Hb He Hd Hv HDo|built sent resp Hb He Hd Hv HDo];
    rewrite HDo in Hin; cbn [snd callsUntilDo app] in Hin.
  - destruct Hin.
  - discriminate He.
  - injection He as <-. destruct Hin as [[= <-]|[]]. apply Hbody, Hb.
  - injection He as <-.
    destruct Hin as [[= <-]|[|[]]]; try discriminate. apply Hbody, Hb.
  - injection He as <-.
    destruct Hin as [[= <-]|[|[|[]]]]; try discriminate. apply Hbody, Hb.
Qed.

(** C5: for a request whose method is not GET and whose [Body] is not empty,
    the body of the built request is a reader over the bytes of [Body], so
    the bytes sent are those bytes, and as many. *)
Theorem body_attached_unchanged (c : ClientImpl) (request : Request.t)
    (b : list Byte.byte) (built : HTTPRequest.t) :
  Request.Method request <> "GET" ->
  Request.Body request = Some b ->
  b <> [] ->
  buildHTTPRequest c request = Ok built ->
  HTTPRequest.Body built = HTTPRequest.NopCloser b
  /\ HTTPRequest.bodyBytes (HTTPRequest.Body built) = b.
Proof.
  intros Hm Hbody Hne Hb.
  rewrite (buildHTTPRequest_Body c request built Hb), Hbody.
  apply String.eqb_neq in Hm. unfold NetHTTP.MethodGet. rewrite Hm. simpl.
  destruct b as [|x b]; [contradiction|]. simpl. split; reflexivity.
Qed.

End RequestBody.

(** ** Path resolution *)

Lemma validMethod_default (method : string) :
  NetHTTP.validMethod method = true ->
  NetHTTP.validMethod (if String.eqb method EmptyString then "GET" else method) = true.
Proof.
  intros Hv. destruct (String.eqb_spec method EmptyString) as [->|_]; [reflexivity|exact Hv].
Qed.

(** The built address, from the texts of the base and of the path. *)
Lemma buildHTTPRequest_resolves {urlImpl : NetURL.Impl} {mapRange : MapRange}
    (c : ClientImpl) (request : Request.t) (base ref u : NetURL.URL) :
  NetURL.Parse (baseURL c) = Ok base ->
  NetURL.Parse (Request.Path request) = Ok ref ->
  NetURL.Parse (NetURL.String (NetURL.ResolveReference base ref)) = Ok u ->
  NetHTTP.validMethod (Request.Method request) = true ->
  exists built,
    buildHTTPRequest c request = Ok built
    /\ HTTPRequest.URL built = NetHTTP.withHost u (NetHTTP.removeEmptyPort (NetURL.Host u)).
Proof.
  intros Hbase Href Hu Hm.
  destruct (buildHTTPRequest_succeeds c request base ref u Hbase Href Hu
              (validMethod_default _ Hm)) as [built Hb].
  exists built. split; [exact Hb|].
  destruct (buildHTTPRequest_URL c request built Hb) as (base' & ref' & u' & H1 & H2 & H3 & H4).
  congruence.
Qed.

(** C6: the address of the built request is obtained by parsing the base and
    the path, resolving the path as a reference against the base
    ([URL.ResolveReference], RFC 3986 section 5.2) and parsing the text of
    the result; with the base "http://example.com" and the path "/test" it is
    "http://example.com/test"; and it is not the concatenation of the two
    texts: against the base "http://example.com/api/v1" the path "users/1"
    replaces the last segment and the path "/test" replaces the whole path. *)
Theorem path_resolved_against_base :
  (forall (urlImpl : NetURL.Impl) (mapRange : MapRange) (c : ClientImpl)
          (request : Request.t) (built : HTTPRequest.t),
      buildHTTPRequest c request = Ok built ->
      exists base ref u,
        NetURL.Parse (baseURL c) = Ok base
        /\ NetURL.Parse (Request.Path request) = Ok ref
        /\ NetURL.Parse (NetURL.String (NetURL.ResolveReference base ref)) = Ok u
        /\ HTTPRequest.URL built
           = NetHTTP.withHost u (NetHTTP.removeEmptyPort (NetURL.Host u)))
  /\ (forall (mapRange : MapRange) (c : ClientImpl) (request : Request.t),
      NetHTTP.validMethod (Request.Method request) = true ->
      (baseURL c = "http://example.com" -> Request.Path request = "/test" ->
       exists built,
         @buildHTTPRequest RFC3986.impl mapRange c request = Ok built
         /\ RFC3986.URLString (HTTPRequest.URL built) = "http://example.com/test")
      /\ (baseURL c = "http://example.com/api/v1" -> Request.Path request = "users/1" ->
          exists built,
            @buildHTTPRequest RFC3986.impl mapRange c request = Ok built
            /\ RFC3986.URLString (HTTPRequest.URL built) = "http://example.com/api/users/1"
            /\ RFC3986.URLString (HTTPRequest.URL built)
               <> (baseURL c ++ Request.Path request)%string)
      /\ (baseURL c = "http://example.com/api/v1" -> Request.Path request = "/test" ->
          exists built,
            @buildHTTPRequest RFC3986.impl mapRange c request = Ok built
            /\ RFC3986.URLString (HTTPRequest.URL built) = "http://example.com/test"
            /\ RFC3986.URLString (HTTPRequest.URL built)
               <> (baseURL c ++ Request.Path request)%string)).
Proof.
  split; [intros; eapply buildHTTPRequest_URL; eassumption|].
  intros mapRange c request Hm. split; [|split]; intros Hbase Hpath.
  - destruct (@buildHTTPRequest_resolves RFC3986.impl mapRange c request
                _ _ _
                ltac:(rewrite Hbase; vm_compute; reflexivity)
                ltac:(rewrite Hpath; vm_compute; reflexivity)
                ltac:(vm_compute; reflexivity) Hm) as (built & Hb & Hu).
    exists built. split; [exact Hb|]. rewrite Hu. vm_compute. reflexivity.
  - destruct (@buildHTTPRequest_resolves RFC3986.impl mapRange c request
                _ _ _
                ltac:(rewrite Hbase; vm_compute; reflexivity)
                ltac:(rewrite Hpath; vm_compute; reflexivity)
                ltac:(vm_compute; reflexivity) Hm) as (built & Hb & Hu).
    exists built. split; [exact Hb|]. rewrite Hu, Hbase, Hpath.
    split; [vm_compute; reflexivity|vm_compute; discriminate].
  - destruct (@buildHTTPRequest_resolves RFC3986.impl mapRange c request
                _ _ _
                ltac:(rewrite Hbase; vm_compute; reflexivity)
                ltac:(rewrite Hpath; vm_compute; reflexivity)
                ltac:(vm_compute; reflexivity) Hm) as (built & Hb & Hu).
    exists built. split; [exact Hb|]. rewrite Hu, Hbase, Hpath.
    split; [vm_compute; reflexivity|vm_compute; discriminate].
Qed.

(** ** Header names *)

Lemma NoDup_fst_filter {A B : Type} (f : A * B -> bool) (l : list (A * B)) :
  NoDup (map fst l) -> NoDup (map fst (List.filter f l)).
Proof.
  induction l as [|x l IH]; simpl; [auto|].
  intros Hnd. apply NoDup_cons in Hnd as [Hx Hl].
  destruct (f x); simpl; [|auto].
  apply NoDup_cons. split; [|auto].
  intros Hin. apply Hx. apply list_elem_of_In in Hin. apply list_elem_of_In.
  apply in_map_iff in Hin as (y & Hy & Hin). apply List.filter_In in Hin as [Hin _].
  apply in_map_iff. exists y. auto.
Qed.

Lemma unique_entry {A B : Type} (l : list (A * B)) (k : A) (v : B) :
  NoDup (map fst l) -> In (k, v) l ->
  (forall k' v', In (k', v') l -> k' = k) ->
  l = [(k, v)].
Proof.
  intros Hnd Hin Hall.
  destruct l as [|[k1 v1] l]; [destruct Hin|].
  assert (Hk1 : k1 = k) by (apply (Hall k1 v1); left; reflexivity). subst k1.
  destruct l as [|[k2 v2] l].
  - destruct Hin as [[= <-]|[]]. reflexivity.
  - assert (Hk2 : k2 = k) by (apply (Hall k2 v2); right; left; reflexivity).
    subst k2. simpl in Hnd. apply NoDup_cons in Hnd as [Hnotin _].
    contradiction Hnotin. apply list_elem_of_In. left. reflexivity.
Qed.

Section HeaderNames.

Context {urlImpl : NetURL.Impl} {mapRange : MapRange} {tables : Unicode.Tables}.

Lemma In_rangeMap (m : gmap string (list string)) (key : string) (values : list string) :
  In (key, values) (rangeMap m) <-> m !! key = Some values.
Proof.
  rewrite <- list_elem_of_In, (rangeMap_perm m). apply elem_of_map_to_list.
Qed.

Lemma NoDup_rangeMap (m : gmap string (list string)) :
  NoDup (map fst (rangeMap m)).
Proof.
  pose proof (rangeMap_perm m) as Hp.
  apply (Permutation_map fst) in Hp. rewrite Hp.
  apply NoDup_fst_map_to_list.
Qed.

(** A key that holds a byte that is no token byte is the canonical form of
    no other key. *)
Lemma CanonicalMIMEHeaderKey_eq_invalid (k k' : string) :
  validHeaderFieldName k = false ->
  Textproto.CanonicalMIMEHeaderKey k' = k <-> k' = k.
Proof.
  intros Hv. split.
  - intros Heq. destruct (validHeaderFieldName k') eqn:Hv'.
    + exfalso. pose proof (CanonicalMIMEHeaderKey_same k') as Hf. rewrite Heq in Hf.
      rewrite (validHeaderFieldName_EqualFold _ _ Hf) in Hv. congruence.
    + rewrite (CanonicalMIMEHeaderKey_invalid _ Hv') in Heq. exact Heq.
  - intros ->. apply CanonicalMIMEHeaderKey_invalid, Hv.
Qed.

(** The entries added under such a key are those of the key itself. *)
Lemma valuesOf_entriesFor_invalid (m : gmap string (list string)) (key : string) :
  validHeaderFieldName key = false ->
  valuesOf (entriesFor key (rangeMap m)) = default [] (m !! key).
Proof.
  intros Hv.
  assert (Hkeys : forall k' v', In (k', v') (entriesFor key (rangeMap m)) -> k' = key).
  { intros k' v' [_ Hk]%List.filter_In. simpl in Hk. apply String.eqb_eq in Hk.
    apply (CanonicalMIMEHeaderKey_eq_invalid key k' Hv), Hk. }
  assert (Hnd : NoDup (map fst (entriesFor key (rangeMap m))))
    by apply NoDup_fst_filter, NoDup_rangeMap.
  destruct (m !! key) as [vs|] eqn:Hlookup; simpl.
  - assert (Hin : In (key, vs) (entriesFor key (rangeMap m))).
    { apply List.filter_In. split; [apply In_rangeMap, Hlookup|]. simpl.
      apply String.eqb_eq, CanonicalMIMEHeaderKey_invalid, Hv. }
    rewrite (unique_entry _ key vs Hnd Hin Hkeys).
    unfold valuesOf. simpl. apply app_nil_r.
  - destruct (entriesFor key (rangeMap m)) as [|[k' v'] l] eqn:Hentries; [reflexivity|].
    exfalso.
    assert (Hin : In (k', v') (entriesFor key (rangeMap m)))
      by (rewrite Hentries; left; reflexivity).
    pose proof (Hkeys k' v' (or_introl eq_refl)) as ->.
    apply List.filter_In in Hin as [Hin _]. apply In_rangeMap in Hin. congruence.
Qed.

(** C7, as amended: for a key of [Headers] made of token bytes, the built
    request has one entry for all the keys equal to it up to case, under the
    canonical form of the key: the entry holds the values of each such key,
    in their order, the keys following one another in the order in which
    [range] visits the map; no other name equal to the key up to case has an
    entry. A key that holds a byte that is no token byte is its own
    canonical form, and the entry under it holds the values given under that
    very key and no other: such keys do not merge. *)
Theorem header_names_merge (c : ClientImpl) (request : Request.t)
    (built : HTTPRequest.t) (key : string) :
  buildHTTPRequest c request = Ok built ->
  let K := Textproto.CanonicalMIMEHeaderKey key in
  let entries := entriesFold key (rangeMap (Request.Headers request)) in
  (validHeaderFieldName key = true ->
   EqualFold K key = true
   /\ HTTPRequest.Header built !! K = entryOf (valuesOf entries)
   /\ (forall K', EqualFold K' key = true -> K' <> K ->
       HTTPRequest.Header built !! K' = None)
   /\ (forall key' values,
       In (key', values) entries
       <-> Request.Headers request !! key' = Some values /\ EqualFold key' key = true)
   /\ NoDup (map fst entries))
  /\ (validHeaderFieldName key = false ->
      K = key
      /\ HTTPRequest.Header built !! key
         = entryOf (default [] (Request.Headers request !! key))).
Proof.
  intros Hb K entries.
  pose proof (buildHTTPRequest_Header c request built Hb) as Hh.
  split; intros Hv.
  - split; [apply CanonicalMIMEHeaderKey_same|].
    split; [|split; [|split]].
    + rewrite Hh, addHeaders_lookup, lookup_empty.
      unfold K. rewrite (entriesFor_entriesFold _ _ Hv).
      fold entries. destruct (valuesOf entries); reflexivity.
    + intros K' Hf Hne. rewrite Hh, addHeaders_lookup, lookup_empty.
      assert (Hnil : entriesFor K' (rangeMap (Request.Headers request)) = []).
      { unfold entriesFor.
        destruct (List.filter _ _) as [|[k vs] l] eqn:Hfilter; [reflexivity|].
        exfalso. apply Hne.
        assert (Hin : In (k, vs) (List.filter
                  (fun kv => String.eqb (Textproto.CanonicalMIMEHeaderKey (fst kv)) K')
                  (rangeMap (Request.Headers request)))).
        { rewrite Hfilter. left. reflexivity. }
        apply List.filter_In in Hin as [_ Hk]. simpl in Hk.
        apply String.eqb_eq in Hk. rewrite <- Hk.
        apply (CanonicalMIMEHeaderKey_eq_iff key k Hv).
        apply EqualFold_trans with K'; [|exact Hf].
        rewrite <- Hk. apply EqualFold_sym, CanonicalMIMEHeaderKey_same. }
      rewrite Hnil. reflexivity.
    + intros key' values. unfold entries, entriesFold.
      rewrite List.filter_In, In_rangeMap. reflexivity.
    + apply NoDup_fst_filter, NoDup_rangeMap.
  - split; [apply CanonicalMIMEHeaderKey_invalid, Hv|].
    rewrite Hh, addHeaders_lookup, lookup_empty, (valuesOf_entriesFor_invalid _ _ Hv).
    destruct (default [] (Request.Headers request !! key)); reflexivity.
Qed.

End HeaderNames.

(** ** More on the executor *)

Section ExecutorMore.

Context {urlImpl : NetURL.Impl} {mapRange : MapRange} {tables : Unicode.Tables}.

Lemma callsUntilDo_no_Close_In (edit : option EditRequestFunc)
    (built sent : HTTPRequest.t) :
  ~ In Close (callsUntilDo edit built sent).
Proof. destruct edit; simpl; intuition discriminate. Qed.

(** X1: in every call to [Do] the hook, the transport, the read of the body
    and the close of the body are each called at most once, and in that
    order: there is no retry and the body is never read twice. *)
Theorem calls_once_in_order (c : ClientImpl) (request : Request.t)
    (edit : option EditRequestFunc) :
  sublist (map callOf (snd (Do c request edit)))
    [HookCall; TransportCall; ReadCall; CloseCall].
Proof.
  destruct (Do_path c request edit)
    as [err Hb HDo|built sent err Hb He HDo|built sent err Hb He Hd HDo
       |built sent resp err Hb He Hd Hv HDo|built sent resp Hb He Hd Hv HDo];
    rewrite HDo; cbn [snd]; destruct edit; simpl; repeat constructor.
Qed.

(** X2: the body of a response is closed exactly in the calls in which the
    transport returned a response: [Do] closes nothing when the request could
    not be built, when the hook failed or when the transport failed; and a
    body that was read is closed. *)
Theorem closes_iff_response (c : ClientImpl) (request : Request.t)
    (edit : option EditRequestFunc) :
  (In Close (snd (Do c request edit))
   <-> exists built sent httpResponse,
         buildHTTPRequest c request = Ok built
         /\ applyEdit edit built = (sent, None)
         /\ do c sent = Ok httpResponse)
  /\ (In ReadAll (snd (Do c request edit)) -> In Close (snd (Do c request edit))).
Proof.
  destruct (Do_path c request edit)
    as [err Hb HDo|built sent err Hb He HDo|built sent err Hb He Hd HDo
       |built sent resp err Hb He Hd Hv HDo|built sent resp Hb He Hd Hv HDo];
    rewrite HDo; cbn [snd].
  - split; [split|intros []]; [intros []|].
    intros (b & s & r & Hb' & _). congruence.
  - split; [split|intros [|[]]; discriminate]; [intros [|[]]; discriminate|].
    intros (b & s & r & Hb' & He' & _). congruence.
  - split; [split|].
    + intros Hin. exfalso. eapply callsUntilDo_no_Close_In; eauto.
    + intros (b & s & r & Hb' & He' & Hd'). congruence.
    + intros Hin. exfalso. eapply callsUntilDo_no_ReadAll; eauto.
  - split; [split|].
    + intros _. exists built, sent, resp. auto.
    + intros _. apply in_app_iff. right. left. reflexivity.
    + intros _. apply in_app_iff. right. left. reflexivity.
  - split; [split|].
    + intros _. exists built, sent, resp. auto.
    + intros _. apply in_app_iff. right. right. left. reflexivity.
    + intros _. apply in_app_iff. right. right. left. reflexivity.
Qed.

(** X3: [Do] returns a response exactly when the request was built, the hook
    (if any) and the transport returned no error, the response passed
    validation and its body was read to the end; the response returned then
    holds the status code and the header of the transport's response and all
    the bytes its body yielded. *)
Theorem Do_succeeds_iff (c : ClientImpl) (request : Request.t)
    (edit : option EditRequestFunc) (response : Response.t) :
  fst (Do c request edit) = (Some response, None)
  <-> exists built sent httpResponse,
        buildHTTPRequest c request = Ok built
        /\ applyEdit edit built = (sent, None)
        /\ do c sent = Ok httpResponse
        /\ validateResponse httpResponse request = None
        /\ HTTPResponse.readErr (HTTPResponse.Body httpResponse) = None
        /\ response
           = Response.mk (HTTPResponse.StatusCode httpResponse)
               (HTTPHeader.Clone (HTTPResponse.Header httpResponse))
               (HTTPResponse.data (HTTPResponse.Body httpResponse)).
Proof.
  split.
  - destruct (Do_path c request edit)
      as [err Hb HDo|built sent err Hb He HDo|built sent err Hb He Hd HDo
         |built sent resp err Hb He Hd Hv HDo|built sent resp Hb He Hd Hv HDo];
      rewrite HDo; cbn [fst]; try discriminate.
    unfold readResponse, io_ReadAll. simpl.
    destruct (HTTPResponse.readErr (HTTPResponse.Body resp)) eqn:Hr; simpl;
      [discriminate|].
    intros [= <-]. exists built, sent, resp. auto 10.
  - intros (built & sent & resp & Hb & He & Hd & Hv & Hr & ->).
    rewrite (Do_valid c request edit built sent resp Hb He Hd Hv). cbn [fst].
    unfold readResponse, io_ReadAll. simpl. rewrite Hr. reflexivity.
Qed.

(** X4: the error returned by [Close] is dropped: a transport whose
    responses differ only in what [Close] returns gives the same result and
    the same calls. *)
Theorem close_error_is_dropped (c : ClientImpl) (request : Request.t)
    (edit : option EditRequestFunc) (err : option error) :
  Do (NewClient (closingWith err (do c)) (baseURL c)) request edit
  = Do c request edit.
Proof.
  set (c' := NewClient (closingWith err (do c)) (baseURL c)).
  assert (Hbuild : buildHTTPRequest c' request = buildHTTPRequest c request)
    by reflexivity.
  destruct (Do_path c request edit)
    as [e Hb HDo|built sent e Hb He HDo|built sent e Hb He Hd HDo
       |built sent resp e Hb He Hd Hv HDo|built sent resp Hb He Hd Hv HDo];
    rewrite HDo; rewrite <- Hbuild in Hb.
  - apply Do_build_error, Hb.
  - eapply Do_edit_error; eauto.
  - eapply Do_transport_error; eauto.
    unfold c', closingWith. simpl. rewrite Hd. reflexivity.
  - eapply (Do_invalid c' request edit built sent (setCloseErr err resp)); eauto.
    unfold c', closingWith. simpl. rewrite Hd. reflexivity.
  - assert (Hr : fst (readResponse resp) = fst (readResponse (setCloseErr err resp)))
      by reflexivity.
    rewrite Hr.
    eapply (Do_valid c' request edit built sent (setCloseErr err resp)); eauto.
    unfold c', closingWith. simpl. rewrite Hd. reflexivity.
Qed.

Lemma buildHTTPRequest_Err (c : ClientImpl) (request : Request.t) (err : error) :
  buildHTTPRequest c request = Err err -> exists cause, err = WithStack cause.
Proof.
  unfold buildHTTPRequest, NetURL.URL_Parse.
  destruct (NetURL.Parse (baseURL c)); [|intros [= <-]; eauto].
  destruct (NetURL.Parse (Request.Path request)); [|intros [= <-]; eauto].
  destruct (NetHTTP.NewRequestWithContext _ _ _); [discriminate|].
  intros [= <-]. eauto.
Qed.

(** X5: every error [Do] returns is either an error of the hook, of the
    transport or of the read of the body, wrapped once by [WithStack], or an
    error of the builder (wrapped by [WithStack] there), or the error of
    [validateResponse] on the response received. *)
Theorem Do_error_origin (c : ClientImpl) (request : Request.t)
    (edit : option EditRequestFunc) (err : error) :
  snd (fst (Do c request edit)) = Some err ->
  (buildHTTPRequest c request = Err err /\ exists cause, err = WithStack cause)
  \/ exists built sent,
       buildHTTPRequest c request = Ok built
       /\ ((exists cause, applyEdit edit built = (sent, Some cause)
                          /\ err = WithStack cause)
           \/ (applyEdit edit built = (sent, None)
               /\ ((exists cause, do c sent = Err cause /\ err = WithStack cause)
                   \/ exists httpResponse,
                        do c sent = Ok httpResponse
                        /\ (validateResponse httpResponse request = Some err
                            \/ (validateResponse httpResponse request = None
                                /\ exists cause,
                                     HTTPResponse.readErr (HTTPResponse.Body httpResponse)
                                     = Some cause
                                     /\ err = WithStack cause))))).
Proof.
  destruct (Do_path c request edit)
    as [e Hb HDo|built sent e Hb He HDo|built sent e Hb He Hd HDo
       |built sent resp e Hb He Hd Hv HDo|built sent resp Hb He Hd Hv HDo];
    rewrite HDo; cbn [fst snd].
  - intros [= <-]. left. split; [exact Hb|]. eapply buildHTTPRequest_Err, Hb.
  - intros [= <-]. right. exists built, sent. split; [exact Hb|]. left. eauto.
  - intros [= <-]. right. exists built, sent. split; [exact Hb|]. right.
    split; [exact He|]. left. eauto.
  - intros [= <-]. right. exists built, sent. split; [exact Hb|]. right.
    split; [exact He|]. right. exists resp. auto.
  - unfold readResponse, io_ReadAll. simpl.
    destruct (HTTPResponse.readErr (HTTPResponse.Body resp)) as [cause|] eqn:Hr;
      simpl; [|discriminate].
    intros [= <-]. right. exists built, sent. split; [exact Hb|]. right.
    split; [exact He|]. right. exists resp. split; [exact Hd|]. right. eauto.
Qed.

(** X6: without a hook, no hook call is made and the transport is called
    with the request exactly as [buildHTTPRequest] returned it. *)
Theorem nil_hook_sends_built_request (c : ClientImpl) (request : Request.t) :
  (forall r, ~ In (CallEdit r) (snd (Do c request None)))
  /\ (forall sent,
      In (CallDo sent) (snd (Do c request None)) ->
      buildHTTPRequest c request = Ok sent).
Proof.
  destruct (Do_path c request None)
    as [e Hb HDo|built sent e Hb He HDo|built sent e Hb He Hd HDo
       |built sent resp e Hb He Hd Hv HDo|built sent resp Hb He Hd Hv HDo];
    rewrite HDo; cbn [snd callsUntilDo app]; try discriminate He;
    try (injection He as <-).
  - split; intros ? [].
  - split; [intros r [|[]]; discriminate|].
    intros s [[= <-]|[]]. exact Hb.
  - split; [intros r [|[|[]]]; discriminate|].
    intros s [[= <-]|[|[]]]; [exact Hb|discriminate].
  - split; [intros r [|[|[|[]]]]; discriminate|].
    intros s [[= <-]|[|[|[]]]]; [exact Hb|discriminate|discriminate].
Qed.

End ExecutorMore.


(** ** More on validation *)

Lemma same_elements_nil {A : Type} (l1 l2 : list A) :
  (forall x, In x l1 <-> In x l2) -> l1 = [] <-> l2 = [].
Proof.
  intros Hsame. split; intros ->.
  - destruct l2 as [|x l2]; [reflexivity|].
    destruct (proj2 (Hsame x) (or_introl eq_refl)).
  - destruct l1 as [|x l1]; [reflexivity|].
    destruct (proj1 (Hsame x) (or_introl eq_refl)).
Qed.

Section ValidatorMore.

Context {tables : Unicode.Tables}.

(** X7: [validateResponse] uses the two lists of expectations as sets: two
    requests that expect the same status codes and the same content-type
    prefixes, in any order and with any repetition, validate every response
    alike. *)
Theorem validation_uses_sets (httpResponse : HTTPResponse.t) (r1 r2 : Request.t) :
  (forall code, In code (Request.ExpectedStatusCodes r1)
                <-> In code (Request.ExpectedStatusCodes r2)) ->
  (forall prefix, In prefix (Request.ExpectedContentTypes r1)
                  <-> In prefix (Request.ExpectedContentTypes r2)) ->
  validateResponse httpResponse r1 = validateResponse httpResponse r2.
Proof.
  intros Hcodes Hprefixes.
  assert (Hs : statusAccepted r1 httpResponse <-> statusAccepted r2 httpResponse).
  { unfold statusAccepted. rewrite (same_elements_nil _ _ Hcodes), Hcodes. reflexivity. }
  assert (Hc : contentTypeAccepted r1 httpResponse <-> contentTypeAccepted r2 httpResponse).
  { unfold contentTypeAccepted. rewrite (same_elements_nil _ _ Hprefixes).
    split; (intros [Hnil|(prefix & Hin & Hp)]; [left; exact Hnil|right]);
      exists prefix; (split; [apply Hprefixes, Hin|exact Hp]). }
  destruct (statusAccepted_dec r1 httpResponse) as [Hs1|Hs1].
  - destruct (contentTypeAccepted_dec r1 httpResponse) as [Hc1|Hc1].
    + rewrite (proj2 (validateResponse_None r1 httpResponse) (conj Hs1 Hc1)).
      symmetry. apply validateResponse_None. tauto.
    + rewrite (validateResponse_contentType r1 httpResponse Hs1 Hc1).
      symmetry. apply validateResponse_contentType; tauto.
  - rewrite (validateResponse_status r1 httpResponse Hs1).
    symmetry. apply validateResponse_status. tauto.
Qed.

Lemma CasePrefix_of_empty (prefix : string) :
  CasePrefix prefix EmptyString <-> prefix = EmptyString.
Proof.
  split.
  - inversion 1. reflexivity.
  - intros ->. constructor.
Qed.

(** X8: a response with no value under the header name Content-Type is
    validated as if its content type were the empty string: it is accepted
    when the list of expected content types holds the empty prefix, the error
    otherwise carries no value, and with prefixes made of ASCII bytes it is
    accepted only then; with several values under the name, only the first is
    compared, once it and the prefix are in lower case. *)
Theorem content_type_taken_from_first_value (httpResponse : HTTPResponse.t)
    (request : Request.t) :
  statusAccepted request httpResponse ->
  Request.ExpectedContentTypes request <> [] ->
  ((HTTPResponse.Header httpResponse !! "Content-Type" = None
    \/ HTTPResponse.Header httpResponse !! "Content-Type" = Some []) ->
   (validateResponse httpResponse request = None
    <-> exists prefix, In prefix (Request.ExpectedContentTypes request)
                       /\ LowerPrefix prefix EmptyString)
   /\ (In EmptyString (Request.ExpectedContentTypes request) ->
       validateResponse httpResponse request = None)
   /\ (validateResponse httpResponse request <> None ->
       validateResponse httpResponse request
       = Some (Errorf "unexpected content type: "))
   /\ ((forall prefix, In prefix (Request.ExpectedContentTypes request) ->
                       GoStrings.isASCII prefix = true) ->
       ~ In EmptyString (Request.ExpectedContentTypes request) ->
       validateResponse httpResponse request
       = Some (Errorf "unexpected content type: ")))
  /\ (forall first others,
      HTTPResponse.Header httpResponse !! "Content-Type" = Some (first :: others) ->
      (validateResponse httpResponse request = None
       <-> exists prefix, In prefix (Request.ExpectedContentTypes request)
                          /\ LowerPrefix prefix first)
      /\ (validateResponse httpResponse request <> None ->
          validateResponse httpResponse request
          = Some (Errorf ("unexpected content type: " ++ first)%string))).
Proof.
  intros Hs Hne.
  assert (Hvalue : forall value,
             HTTPHeader.Get (HTTPResponse.Header httpResponse) "Content-Type" = value ->
             (validateResponse httpResponse request = None
              <-> exists prefix, In prefix (Request.ExpectedContentTypes request)
                                 /\ LowerPrefix prefix value)
             /\ (validateResponse httpResponse request <> None ->
                 validateResponse httpResponse request
                 = Some (Errorf ("unexpected content type: " ++ value)%string))).
  { intros value Hget.
    assert (Hiff : contentTypeAccepted request httpResponse
                   <-> exists prefix, In prefix (Request.ExpectedContentTypes request)
                                      /\ LowerPrefix prefix value).
    { unfold contentTypeAccepted. rewrite Hget.
      split; [intros [Hnil|Hm]; [contradiction|exact Hm]|auto]. }
    split.
    - rewrite validateResponse_None, Hiff. tauto.
    - intros Hsome.
      rewrite validateResponse_contentType; [rewrite Hget; reflexivity|exact Hs|].
      intros Hc. apply Hsome, validateResponse_None. tauto. }
  split.
  - intros Hmissing.
    assert (Hget : HTTPHeader.Get (HTTPResponse.Header httpResponse) "Content-Type"
                   = EmptyString).
    { unfold HTTPHeader.Get.
      change (Textproto.CanonicalMIMEHeaderKey "Content-Type") with "Content-Type".
      destruct Hmissing as [-> | ->]; reflexivity. }
    destruct (Hvalue EmptyString Hget) as [Hnone Herr].
    split; [exact Hnone|]. split; [|split; [exact Herr|]].
    + intros Hin. apply Hnone. exists EmptyString. split; [exact Hin|].
      apply LowerPrefix_refl.
    + intros Hascii Hnin. apply Herr. rewrite Hnone.
      intros (prefix & Hin & Hp).
      apply (LowerPrefix_ASCII prefix EmptyString (Hascii prefix Hin) eq_refl) in Hp.
      apply CasePrefix_of_empty in Hp. subst prefix. contradiction.
  - intros first others Hlookup. apply Hvalue.
    unfold HTTPHeader.Get.
    change (Textproto.CanonicalMIMEHeaderKey "Content-Type") with "Content-Type".
    rewrite Hlookup. reflexivity.
Qed.

End ValidatorMore.

(** ** More on the request builder *)

Lemma valuesOf_Permutation (l1 l2 : list (string * list string)) :
  l1 ≡ₚ l2 -> valuesOf l1 ≡ₚ valuesOf l2.
Proof.
  unfold valuesOf. induction 1 as [|x l1 l2 _ IH|x y l|l1 l2 l3 _ IH1 _ IH2]; simpl.
  - reflexivity.
  - apply Permutation_app_head, IH.
  - rewrite !app_assoc. apply Permutation_app_tail, Permutation_app_comm.
  - etransitivity; eassumption.
Qed.

Lemma allValues_Add (h : gmap string (list string)) (key value : string) :
  allValues (HTTPHeader.Add h key value) ≡ₚ allValues h ++ [value].
Proof.
  unfold HTTPHeader.Add, allValues.
  set (K := Textproto.CanonicalMIMEHeaderKey key).
  destruct (h !! K) as [values|] eqn:Hlookup; simpl.
  - rewrite <- insert_delete_eq.
    rewrite (valuesOf_Permutation _ _
               (map_to_list_insert (delete K h) K (values ++ [value])
                  (lookup_delete_eq h K))).
    rewrite <- (valuesOf_Permutation _ _ (map_to_list_delete h K values Hlookup)).
    unfold valuesOf. simpl. rewrite <- !app_assoc.
    apply Permutation_app_head, Permutation_app_comm.
  - rewrite (valuesOf_Permutation _ _ (map_to_list_insert h K [value] Hlookup)).
    unfold valuesOf. simpl. apply (Permutation_app_comm [value]).
Qed.

Lemma allValues_addValues (values : list string) (h : gmap string (list string))
    (key : string) :
  allValues (addValues h key values) ≡ₚ allValues h ++ values.
Proof.
  unfold addValues.
  revert h. induction values as [|value values IH]; intros h; simpl.
  - rewrite app_nil_r. reflexivity.
  - rewrite IH, allValues_Add, <- app_assoc. reflexivity.
Qed.

Lemma allValues_addHeaders (entries : list (string * list string))
    (h : gmap string (list string)) :
  allValues (addHeaders h entries) ≡ₚ allValues h ++ valuesOf entries.
Proof.
  unfold addHeaders.
  revert h. induction entries as [|[key values] entries IH]; intros h; simpl.
  - unfold valuesOf. simpl. rewrite app_nil_r. reflexivity.
  - rewrite IH, allValues_addValues, <- app_assoc. reflexivity.
Qed.

Lemma valuesOf_nil_or_entry (entries : list (string * list string)) :
  valuesOf entries <> [] ->
  exists key values, In (key, values) entries /\ values <> [].
Proof.
  unfold valuesOf. induction entries as [|[key values] entries IH]; simpl.
  - intros Hne. contradiction.
  - intros Hne. destruct values as [|v values].
    + destruct (IH Hne) as (k & vs & Hin & Hvs). exists k, vs. auto.
    + exists key, (v :: values). split; [left; reflexivity|discriminate].
Qed.

Lemma In_valuesOf (entries : list (string * list string)) (key : string)
    (values : list string) (v : string) :
  In (key, values) entries -> In v values -> In v (valuesOf entries).
Proof.
  intros Hentry Hv. unfold valuesOf. apply in_concat.
  exists values. split; [|exact Hv].
  apply in_map_iff. exists (key, values). auto.
Qed.

Section BuilderMore.

Context {urlImpl : NetURL.Impl} {mapRange : MapRange} {tables : Unicode.Tables}.

(** The fields [http.NewRequestWithContext] sets from the method, the
    address and the length of the body. *)
Lemma buildHTTPRequest_fields (c : ClientImpl) (request : Request.t)
    (built : HTTPRequest.t) :
  buildHTTPRequest c request = Ok built ->
  let method := if String.eqb (Request.Method request) EmptyString
                then "GET" else Request.Method request in
  NetHTTP.validMethod method = true
  /\ HTTPRequest.Method built = method
  /\ HTTPRequest.Host built = NetURL.Host (HTTPRequest.URL built)
  /\ HTTPRequest.ContentLength built
     = Z.of_nat (List.length (HTTPRequest.bodyBytes (HTTPRequest.Body built))).
Proof.
  unfold buildHTTPRequest, NetURL.URL_Parse, NetHTTP.NewRequestWithContext.
  destruct (NetURL.Parse (baseURL c)); [|discriminate].
  destruct (NetURL.Parse (Request.Path request)); [|discriminate].
  destruct (NetHTTP.validMethod _) eqn:Hm; [|discriminate]. simpl.
  destruct (NetURL.Parse (NetURL.String _)); [|discriminate].
  destruct (if negb (String.eqb (Request.Method request) NetHTTP.MethodGet)
               && notNil (Request.Body request)
            then Request.Body request else None) as [b|].
  - destruct (Nat.eqb (List.length b) 0) eqn:Hlen; intros [= <-]; simpl; auto.
  - intros [= <-]; simpl; auto.
Qed.

(** X9: [buildHTTPRequest] succeeds exactly when the base address parses,
    the path parses, the text of the resolved address parses again and the
    method (GET for an empty one) is a token; every error it returns is
    wrapped by [WithStack]. Neither the headers nor the body can make it
    fail. *)
Theorem buildHTTPRequest_succeeds_iff (c : ClientImpl) (request : Request.t) :
  ((exists built, buildHTTPRequest c request = Ok built)
   <-> exists base ref u,
         NetURL.Parse (baseURL c) = Ok base
         /\ NetURL.Parse (Request.Path request) = Ok ref
         /\ NetURL.Parse (NetURL.String (NetURL.ResolveReference base ref)) = Ok u
         /\ NetHTTP.validMethod
              (if String.eqb (Request.Method request) EmptyString
               then "GET" else Request.Method request) = true)
  /\ (forall err, buildHTTPRequest c request = Err err ->
                  exists cause, err = WithStack cause).
Proof.
  split; [split|].
  - intros (built & Hb).
    destruct (buildHTTPRequest_URL c request built Hb)
      as (base & ref & u & H1 & H2 & H3 & _).
    destruct (buildHTTPRequest_fields c request built Hb) as (Hm & _).
    exists base, ref, u. auto.
  - intros (base & ref & u & H1 & H2 & H3 & Hm).
    eapply buildHTTPRequest_succeeds; eauto.
  - intros err Hb. unfold buildHTTPRequest, NetURL.URL_Parse in Hb.
    destruct (NetURL.Parse (baseURL c)); [|injection Hb as <-; eauto].
    destruct (NetURL.Parse (Request.Path request)); [|injection Hb as <-; eauto].
    destruct (NetHTTP.NewRequestWithContext _ _ _); [discriminate|].
    injection Hb as <-. eauto.
Qed.

(** X10: the built request has the method of the request, or GET when the
    request has none, and this method is a non-empty token; its [Host] is
    the host of its address, and its [ContentLength] is the number of bytes
    of its body. *)
Theorem built_request_fields (c : ClientImpl) (request : Request.t)
    (built : HTTPRequest.t) :
  buildHTTPRequest c request = Ok built ->
  (Request.Method request = EmptyString -> HTTPRequest.Method built = "GET")
  /\ (Request.Method request <> EmptyString ->
      HTTPRequest.Method built = Request.Method request)
  /\ NetHTTP.validMethod (HTTPRequest.Method built) = true
  /\ HTTPRequest.Host built = NetURL.Host (HTTPRequest.URL built)
  /\ HTTPRequest.ContentLength built
     = Z.of_nat (List.length (HTTPRequest.bodyBytes (HTTPRequest.Body built))).
Proof.
  intros Hb.
  destruct (buildHTTPRequest_fields c request built Hb) as (Hv & Hm & Hh & Hl).
  rewrite <- Hm in Hv.
  split; [|split; [|auto]].
  - intros Hempty. rewrite Hm, Hempty. reflexivity.
  - intros Hne. rewrite Hm. apply String.eqb_neq in Hne. rewrite Hne. reflexivity.
Qed.

(** X11: the bytes of the body of the built request are the bytes of the
    [Body] of the request when the method is not GET, and none when it is;
    the built [Body] is [nil] exactly when the method is GET or the [Body] of
    the request is [nil], so a [Body] that is empty but not [nil] gives a body
    that yields no byte. *)
Theorem built_body_bytes (c : ClientImpl) (request : Request.t)
    (built : HTTPRequest.t) :
  buildHTTPRequest c request = Ok built ->
  HTTPRequest.bodyBytes (HTTPRequest.Body built)
  = (if String.eqb (Request.Method request) "GET" then []
     else default [] (Request.Body request))
  /\ (HTTPRequest.Body built = HTTPRequest.nilBody
      <-> Request.Method request = "GET" \/ Request.Body request = None)
  /\ (Request.Method request <> "GET" -> Request.Body request = Some [] ->
      HTTPRequest.Body built = HTTPRequest.NoBody).
Proof.
  intros Hb. rewrite (buildHTTPRequest_Body c request built Hb).
  unfold NetHTTP.MethodGet.
  destruct (String.eqb_spec (Request.Method request) "GET") as [Hm|Hm]; simpl.
  - split; [reflexivity|]. split; [tauto|]. intros Hne. contradiction.
  - destruct (Request.Body request) as [b|]; simpl.
    + destruct b as [|x b]; simpl.
      * split; [reflexivity|]. split; [|reflexivity].
        split; [discriminate|intros [?|?]; [contradiction|discriminate]].
      * split; [reflexivity|]. split; [|discriminate].
        split; [discriminate|intros [?|?]; [contradiction|discriminate]].
    + split; [reflexivity|]. split; [tauto|discriminate].
Qed.

(** X12: the built header holds every value of [Headers] once: the values
    of the built header, taken together, are those of [Headers], in some
    order; none is dropped, overwritten or repeated, whatever the keys. *)
Theorem header_values_preserved (c : ClientImpl) (request : Request.t)
    (built : HTTPRequest.t) :
  buildHTTPRequest c request = Ok built ->
  allValues (HTTPRequest.Header built) ≡ₚ allValues (Request.Headers request).
Proof.
  intros Hb. rewrite (buildHTTPRequest_Header c request built Hb).
  rewrite allValues_addHeaders. unfold allValues at 1.
  rewrite map_to_list_empty. simpl.
  apply valuesOf_Permutation, rangeMap_perm.
Qed.

(** X13: every entry of the built header has at least one value and comes
    from a key of [Headers] with at least one value, whose canonical form is
    the name of the entry and whose values are among those of the entry; so
    a key of [Headers] with no value leaves no entry, and a request without
    headers gives an empty header. *)
Theorem header_entries_come_from_request (c : ClientImpl) (request : Request.t)
    (built : HTTPRequest.t) :
  buildHTTPRequest c request = Ok built ->
  (forall K values,
      HTTPRequest.Header built !! K = Some values ->
      values <> []
      /\ exists key vs,
           Request.Headers request !! key = Some vs
           /\ vs <> []
           /\ Textproto.CanonicalMIMEHeaderKey key = K
           /\ forall v, In v vs -> In v values)
  /\ (Request.Headers request = ∅ -> HTTPRequest.Header built = ∅).
Proof.
  intros Hb. pose proof (buildHTTPRequest_Header c request built Hb) as Hh.
  split.
  - intros K values Hlookup.
    rewrite Hh, addHeaders_lookup, lookup_empty in Hlookup.
    set (entries := entriesFor K (rangeMap (Request.Headers request))) in *.
    assert (Hvalues : values = valuesOf entries /\ valuesOf entries <> []).
    { unfold appendTo in Hlookup. destruct (valuesOf entries); [discriminate|].
      injection Hlookup as <-. split; [reflexivity|discriminate]. }
    destruct Hvalues as [-> Hne]. split; [exact Hne|].
    destruct (valuesOf_nil_or_entry entries Hne) as (key & vs & Hin & Hvs).
    exists key, vs.
    pose proof Hin as Hin'. apply List.filter_In in Hin' as [Hrange Hk].
    pose proof (rangeMap_perm (Request.Headers request)) as Hperm.
    apply list_elem_of_In in Hrange. rewrite Hperm in Hrange.
    apply elem_of_map_to_list in Hrange.
    simpl in Hk. apply String.eqb_eq in Hk.
    split; [exact Hrange|]. split; [exact Hvs|]. split; [exact Hk|].
    intros v Hv. eapply In_valuesOf; eauto.
  - intros Hempty. rewrite Hh, Hempty.
    assert (Hnil : rangeMap (∅ : gmap string (list string)) = []).
    { pose proof (rangeMap_perm (∅ : gmap string (list string))) as Hp.
      rewrite map_to_list_empty in Hp.
      apply Permutation_nil. symmetry. exact Hp. }
    rewrite Hnil. reflexivity.
Qed.

End BuilderMore.


Section HeaderLookup.

Context {urlImpl : NetURL.Impl} {mapRange : MapRange} {tables : Unicode.Tables}.

(** X14: a header given under a key made of token bytes, with no other key
    of [Headers] equal to it up to case, is found again in the built request
    under any spelling of its name: [Header.Get] returns its first value (the
    empty string when it has none), and the entry under the canonical name
    holds its values unchanged. *)
Theorem header_found_under_any_spelling (c : ClientImpl) (request : Request.t)
    (built : HTTPRequest.t) (key spelling : string) (values : list string) :
  buildHTTPRequest c request = Ok built ->
  Request.Headers request !! key = Some values ->
  validHeaderFieldName key = true ->
  (forall key', Request.Headers request !! key' <> None ->
                EqualFold key' key = true -> key' = key) ->
  EqualFold spelling key = true ->
  HTTPHeader.Get (HTTPRequest.Header built) spelling = List.hd EmptyString values
  /\ HTTPRequest.Header built !! Textproto.CanonicalMIMEHeaderKey key = entryOf values.
Proof.
  intros Hb Hlookup Hv Hunique Hspelling.
  assert (Hentries : entriesFold key (rangeMap (Request.Headers request))
                     = [(key, values)]).
  { apply unique_entry.
    - apply NoDup_fst_filter, NoDup_rangeMap.
    - apply List.filter_In. split; [apply In_rangeMap, Hlookup|].
      apply EqualFold_refl.
    - intros k' v' Hin. apply List.filter_In in Hin as [Hin Hf].
      apply In_rangeMap in Hin. apply Hunique; [congruence|exact Hf]. }
  assert (Hentry : HTTPRequest.Header built !! Textproto.CanonicalMIMEHeaderKey key
                   = entryOf values).
  { rewrite (buildHTTPRequest_Header c request built Hb).
    rewrite addHeaders_lookup, lookup_empty, (entriesFor_entriesFold _ _ Hv), Hentries.
    unfold valuesOf. simpl. rewrite app_nil_r.
    destruct values; reflexivity. }
  split; [|exact Hentry].
  unfold HTTPHeader.Get.
  rewrite (proj2 (CanonicalMIMEHeaderKey_eq_iff key spelling Hv) Hspelling), Hentry.
  destruct values; reflexivity.
Qed.

End HeaderLookup.

(** ** The later revision *)

Section LatestRevision.

Context {urlImpl : NetURL.Impl} {mapRange : MapRange} {tables : Unicode.Tables}.

Lemma Latest_addHeaders (entries : list (string * list string))
    (h : gmap string (list string)) :
  Latest.addHeaders h entries = addHeaders h entries.
Proof.
  unfold Latest.addHeaders, addHeaders.
  revert h. induction entries as [|[key values] entries IH]; intros h; simpl;
    [reflexivity|].
  rewrite IH. f_equal. apply addValues_normalizedKey.
Qed.

(** The request the later revision builds is the one the current revision
    builds, bound to the context given. *)
Lemma Latest_buildHTTPRequest (ctx : Latest.Context) (c : ClientImpl)
    (request : Request.t) :
  Latest.buildHTTPRequest (Some ctx) c (Latest.ofCurrent request)
  = match buildHTTPRequest c request with
    | Ok built => Ok (HTTPRequest.WithContext built ctx)
    | Err err => Err err
    end.
Proof.
  unfold Latest.buildHTTPRequest, buildHTTPRequest,
    Latest.NewRequestWithContext, NetHTTP.NewRequestWithContext.
  cbn [Latest.Method Latest.Path Latest.Headers Latest.Body Latest.ofCurrent].
  destruct (NetURL.Parse (baseURL c)); [|reflexivity].
  destruct (NetURL.URL_Parse _ _); [|reflexivity].
  destruct (negb (NetHTTP.validMethod _)); [reflexivity|].
  destruct (NetURL.Parse (NetURL.String _)); [|reflexivity].
  unfold HTTPRequest.WithContext, withHeader.
  destruct (Request.Body request) as [b|]; simpl.
  - destruct (negb (String.eqb (Request.Method request) NetHTTP.MethodGet)); simpl.
    + destruct b as [|x b]; simpl; rewrite Latest_addHeaders; reflexivity.
    + rewrite Latest_addHeaders. reflexivity.
  - rewrite andb_false_r. simpl. rewrite Latest_addHeaders. reflexivity.
Qed.

(** The current revision binds every request to [context.Background()]. *)
Lemma buildHTTPRequest_ctx (c : ClientImpl) (request : Request.t)
    (built : HTTPRequest.t) :
  buildHTTPRequest c request = Ok built ->
  HTTPRequest.ctx built = GoContext.Background.
Proof.
  unfold buildHTTPRequest, NetURL.URL_Parse, NetHTTP.NewRequestWithContext.
  destruct (NetURL.Parse (baseURL c)); [|discriminate].
  destruct (NetURL.Parse (Request.Path request)); [|discriminate].
  destruct (negb (NetHTTP.validMethod _)); [discriminate|].
  destruct (NetURL.Parse (NetURL.String _)); [|discriminate].
  destruct (match _ with Some _ => _ | None => _ end) as [rc contentLength].
  intros [= <-]; reflexivity.
Qed.

Lemma Latest_buildHTTPRequest_Background (c : ClientImpl) (request : Request.t) :
  Latest.buildHTTPRequest (Some Latest.Background) c (Latest.ofCurrent request)
  = buildHTTPRequest c request.
Proof.
  rewrite Latest_buildHTTPRequest.
  destruct (buildHTTPRequest c request) as [built|err] eqn:Hb; [|reflexivity].
  pose proof (buildHTTPRequest_ctx c request built Hb) as Hctx.
  destruct built. simpl in Hctx. subst. reflexivity.
Qed.

(** X15: for a request whose body is a [*bytes.Reader], the later revision
    builds the request the current one builds, bound to the context it is
    given instead of [context.Background()]: calling
    [http.CanonicalHeaderKey] before [Header.Add] changes no header. Called
    with [context.Background()], [Do] of the later revision returns what [Do]
    of the current one returns and makes the same calls. *)
Theorem Latest_Do_is_Do (c : ClientImpl) (request : Request.t)
    (edit : option EditRequestFunc) :
  Latest.Do (Some Latest.Background) c (Latest.ofCurrent request) edit
  = Do c request edit
  /\ (forall built, buildHTTPRequest c request = Ok built ->
                    HTTPRequest.ctx built = GoContext.Background)
  /\ (forall ctx,
      Latest.buildHTTPRequest (Some ctx) c (Latest.ofCurrent request)
      = match buildHTTPRequest c request with
        | Ok built => Ok (HTTPRequest.WithContext built ctx)
        | Err err => Err err
        end).
Proof.
  split; [|split].
  - unfold Latest.Do, Do. rewrite Latest_buildHTTPRequest_Background. reflexivity.
  - apply buildHTTPRequest_ctx.
  - intros ctx. apply Latest_buildHTTPRequest.
Qed.

(** X16: with a [nil] context the later [Do] fails before it calls the hook
    or the transport; when the addresses parse and the method is a token,
    the error is that of [http.NewRequestWithContext] for a nil context,
    wrapped by [WithStack]. *)
Theorem Latest_nil_context (c : ClientImpl) (request : Latest.Request)
    (edit : option EditRequestFunc) :
  exists cause,
    Latest.Do None c request edit = ((None, Some (WithStack cause)), [])
    /\ (forall base ref,
        NetURL.Parse (baseURL c) = Ok base ->
        NetURL.Parse (Latest.Path request) = Ok ref ->
        NetHTTP.validMethod
          (if String.eqb (Latest.Method request) EmptyString
           then "GET" else Latest.Method request) = true ->
        cause = errorString "net/http: nil Context").
Proof.
  unfold Latest.Do, Latest.buildHTTPRequest, NetURL.URL_Parse,
    Latest.NewRequestWithContext.
  destruct (NetURL.Parse (baseURL c)) as [base|e] eqn:Hbase.
  - destruct (NetURL.Parse (Latest.Path request)) as [ref|e] eqn:Href.
    + destruct (NetHTTP.validMethod _) eqn:Hm; simpl.
      * eexists. split; [reflexivity|]. reflexivity.
      * eexists. split; [reflexivity|]. intros ? ? _ _ Hm'. congruence.
    + eexists. split; [reflexivity|]. intros ? ? _ H'. discriminate.
  - eexists. split; [reflexivity|]. intros ? ? H'. discriminate.
Qed.

(** X17: in the later revision no body is attached when the method is GET
    or the [Body] of the request is [nil]; otherwise the reader is attached
    with its bytes: a [*bytes.Buffer], a [*bytes.Reader] or a
    [*strings.Reader] behind [io.NopCloser] with its length as
    [ContentLength], or replaced by [http.NoBody] when nothing is left to
    read; any other reader with [ContentLength] 0, as it is when it has a
    [Close] and behind [io.NopCloser] when it has none. *)
Theorem Latest_body_attached (ctx : option Latest.Context) (c : ClientImpl)
    (request : Latest.Request) (built : HTTPRequest.t) :
  Latest.buildHTTPRequest ctx c request = Ok built ->
  (Latest.Method request = "GET" ->
   HTTPRequest.Body built = HTTPRequest.nilBody
   /\ HTTPRequest.ContentLength built = 0%Z)
  /\ (Latest.Method request <> "GET" ->
      (Latest.Body request = None ->
       HTTPRequest.Body built = HTTPRequest.nilBody
       /\ HTTPRequest.ContentLength built = 0%Z)
      /\ (forall data,
          Latest.Body request = Some (Latest.BytesBuffer data)
          \/ Latest.Body request = Some (Latest.BytesReader data)
          \/ Latest.Body request = Some (Latest.StringsReader data) ->
          HTTPRequest.bodyBytes (HTTPRequest.Body built) = data
          /\ HTTPRequest.ContentLength built = Z.of_nat (List.length data)
          /\ (data = [] -> HTTPRequest.Body built = HTTPRequest.NoBody)
          /\ (data <> [] -> HTTPRequest.Body built = HTTPRequest.NopCloser data))
      /\ (forall data,
          Latest.Body request = Some (Latest.OtherReader data) ->
          HTTPRequest.Body built = HTTPRequest.NopCloser data
          /\ HTTPRequest.ContentLength built = 0%Z)
      /\ (forall data,
          Latest.Body request = Some (Latest.OtherReadCloser data) ->
          HTTPRequest.Body built = HTTPRequest.ReadCloser data
          /\ HTTPRequest.ContentLength built = 0%Z)
      /\ (Latest.Body request = Some Latest.NoBodyReader ->
          HTTPRequest.Body built = HTTPRequest.NoBody
          /\ HTTPRequest.ContentLength built = 0%Z)).
Proof.
  unfold Latest.buildHTTPRequest, NetURL.URL_Parse, Latest.NewRequestWithContext,
    NetHTTP.MethodGet.
  destruct (NetURL.Parse (baseURL c)); [|discriminate].
  destruct (NetURL.Parse (Latest.Path request)); [|discriminate].
  destruct (negb (NetHTTP.validMethod _)); [discriminate|].
  destruct ctx as [ctx|]; [|discriminate].
  destruct (NetURL.Parse (NetURL.String _)); [|discriminate].
  destruct (String.eqb_spec (Latest.Method request) "GET") as [Hm|Hm]; simpl.
  - intros [= <-]. split; [split; reflexivity|]. intros Hne. contradiction.
  - intros Hbuilt. split; [intros; contradiction|]. intros _.
    assert (Hsized : forall data body,
               Latest.knownLength body = Some (Z.of_nat (List.length data)) ->
               Latest.readCloserOf body = HTTPRequest.NopCloser data ->
               Latest.Body request = Some body ->
               HTTPRequest.bodyBytes (HTTPRequest.Body built) = data
               /\ HTTPRequest.ContentLength built = Z.of_nat (List.length data)
               /\ (data = [] -> HTTPRequest.Body built = HTTPRequest.NoBody)
               /\ (data <> [] -> HTTPRequest.Body built = HTTPRequest.NopCloser data)).
    { intros data body Hlen Hrc Hbody. rewrite Hbody in Hbuilt. simpl in Hbuilt.
      rewrite Hlen, Hrc in Hbuilt.
      destruct data as [|x data]; simpl in Hbuilt; injection Hbuilt as <-; simpl.
      - split; [reflexivity|]. split; [reflexivity|].
        split; [intros _; reflexivity|intros Hne; contradiction].
      - split; [reflexivity|]. split; [reflexivity|].
        split; [discriminate|intros _; reflexivity]. }
    split; [|split; [|split; [|split]]].
    + intros Hbody. rewrite Hbody in Hbuilt. simpl in Hbuilt. injection Hbuilt as <-.
      split; reflexivity.
    + intros data [Hbody|[Hbody|Hbody]];
        refine (Hsized data _ _ _ Hbody); reflexivity.
    + intros data Hbody. rewrite Hbody in Hbuilt. simpl in Hbuilt. injection Hbuilt as <-.
      split; reflexivity.
    + intros data Hbody. rewrite Hbody in Hbuilt. simpl in Hbuilt. injection Hbuilt as <-.
      split; reflexivity.
    + intros Hbody. rewrite Hbody in Hbuilt. simpl in Hbuilt. injection Hbuilt as <-.
      split; reflexivity.
Qed.

End LatestRevision.


(** ** The version text *)

Lemma trimLeft_length (s : list ascii) :
  (List.length (Meta.trimLeft s) <= List.length s)%nat.
Proof.
  remember (List.length s) as n eqn:Hn.
  assert (Hle : (List.length s <= n)%nat) by lia. clear Hn.
  revert s Hle. induction n as [|n IH]; intros s Hle.
  - destruct s; simpl in *; lia.
  - destruct s as [|a [|b [|c s]]]; simpl in *; try lia.
    + destruct (Meta.asciiSpace a); simpl; lia.
    + destruct (Meta.asciiSpace a).
      * specialize (IH [b]). simpl in IH. lia.
      * destruct (Meta.space2 a b); simpl; lia.
    + destruct (Meta.asciiSpace a).
      * specialize (IH (b :: c :: s)). simpl in IH. lia.
      * destruct (Meta.space2 a b).
        -- specialize (IH (c :: s)). simpl in IH. lia.
        -- destruct (Meta.space3 a b c); [|simpl; lia].
           specialize (IH s). lia.
Qed.

(** The result of [trimLeft] starts with no white space. *)
Lemma trimLeft_stable (s : list ascii) :
  Meta.trimLeft (Meta.trimLeft s) = Meta.trimLeft s.
Proof.
  remember (List.length s) as n eqn:Hn.
  assert (Hle : (List.length s <= n)%nat) by lia. clear Hn.
  revert s Hle. induction n as [|n IH]; intros s Hle.
  - destruct s; [reflexivity|simpl in Hle; lia].
  - destruct s as [|a [|b [|c s]]]; [reflexivity| | |]; simpl in Hle.
    + simpl. destruct (Meta.asciiSpace a) eqn:Ha; [reflexivity|].
      simpl. rewrite Ha. reflexivity.
    + cbn [Meta.trimLeft]. destruct (Meta.asciiSpace a) eqn:Ha.
      * apply (IH [b]). simpl. lia.
      * destruct (Meta.space2 a b) eqn:Hab; [reflexivity|].
        cbn [Meta.trimLeft]. rewrite Ha, Hab. reflexivity.
    + cbn [Meta.trimLeft]. destruct (Meta.asciiSpace a) eqn:Ha.
      * apply (IH (b :: c :: s)). simpl. lia.
      * destruct (Meta.space2 a b) eqn:Hab.
        -- apply (IH (c :: s)). simpl. lia.
        -- destruct (Meta.space3 a b c) eqn:Habc.
           ++ apply (IH s). lia.
           ++ cbn [Meta.trimLeft]. rewrite Ha, Hab, Habc. reflexivity.
Qed.

Lemma trimLeftReversed_length (s : list ascii) :
  (List.length (Meta.trimLeftReversed s) <= List.length s)%nat.
Proof.
  remember (List.length s) as n eqn:Hn.
  assert (Hle : (List.length s <= n)%nat) by lia. clear Hn.
  revert s Hle. induction n as [|n IH]; intros s Hle.
  - destruct s; simpl in *; lia.
  - destruct s as [|a [|b [|c s]]]; simpl in *; try lia.
    + destruct (Meta.asciiSpace a); simpl; lia.
    + destruct (Meta.asciiSpace a).
      * specialize (IH [b]). simpl in IH. lia.
      * destruct (Meta.space2 b a); simpl; lia.
    + destruct (Meta.asciiSpace a).
      * specialize (IH (b :: c :: s)). simpl in IH. lia.
      * destruct (Meta.space2 b a).
        -- specialize (IH (c :: s)). simpl in IH. lia.
        -- destruct (Meta.space3 c b a); [|simpl; lia].
           specialize (IH s). lia.
Qed.

Lemma trimLeftReversed_stable (s : list ascii) :
  Meta.trimLeftReversed (Meta.trimLeftReversed s) = Meta.trimLeftReversed s.
Proof.
  remember (List.length s) as n eqn:Hn.
  assert (Hle : (List.length s <= n)%nat) by lia. clear Hn.
  revert s Hle. induction n as [|n IH]; intros s Hle.
  - destruct s; [reflexivity|simpl in Hle; lia].
  - destruct s as [|a [|b [|c s]]]; [reflexivity| | |]; simpl in Hle.
    + simpl. destruct (Meta.asciiSpace a) eqn:Ha; [reflexivity|].
      simpl. rewrite Ha. reflexivity.
    + cbn [Meta.trimLeftReversed]. destruct (Meta.asciiSpace a) eqn:Ha.
      * apply (IH [b]). simpl. lia.
      * destruct (Meta.space2 b a) eqn:Hab; [reflexivity|].
        cbn [Meta.trimLeftReversed]. rewrite Ha, Hab. reflexivity.
    + cbn [Meta.trimLeftReversed]. destruct (Meta.asciiSpace a) eqn:Ha.
      * apply (IH (b :: c :: s)). simpl. lia.
      * destruct (Meta.space2 b a) eqn:Hab.
        -- apply (IH (c :: s)). simpl. lia.
        -- destruct (Meta.space3 c b a) eqn:Habc.
           ++ apply (IH s). lia.
           ++ cbn [Meta.trimLeftReversed]. rewrite Ha, Hab, Habc. reflexivity.
Qed.

(** [trimLeftReversed] removes bytes from the front only. *)
Lemma trimLeftReversed_suffix (s : list ascii) :
  exists removed, s = removed ++ Meta.trimLeftReversed s.
Proof.
  remember (List.length s) as n eqn:Hn.
  assert (Hle : (List.length s <= n)%nat) by lia. clear Hn.
  revert s Hle. induction n as [|n IH]; intros s Hle.
  - destruct s; [exists []; reflexivity|simpl in Hle; lia].
  - destruct s as [|a [|b [|c s]]]; simpl in Hle.
    + exists []. reflexivity.
    + simpl. destruct (Meta.asciiSpace a); [exists [a]|exists []]; reflexivity.
    + cbn [Meta.trimLeftReversed]. destruct (Meta.asciiSpace a).
      * destruct (IH [b]) as [r Hr]; [simpl; lia|].
        exists (a :: r). cbn [app]. f_equal. exact Hr.
      * destruct (Meta.space2 b a); [exists [a; b]|exists []]; reflexivity.
    + cbn [Meta.trimLeftReversed]. destruct (Meta.asciiSpace a).
      * destruct (IH (b :: c :: s)) as [r Hr]; [simpl; lia|].
        exists (a :: r). cbn [app]. f_equal. exact Hr.
      * destruct (Meta.space2 b a).
        -- destruct (IH (c :: s)) as [r Hr]; [simpl; lia|].
           exists (a :: b :: r). cbn [app]. do 2 f_equal. exact Hr.
        -- destruct (Meta.space3 c b a); [|exists []; reflexivity].
           destruct (IH s) as [r Hr]; [lia|].
           exists (a :: b :: c :: r). cbn [app]. do 3 f_equal. exact Hr.
Qed.

Lemma trimRight_prefix (s : list ascii) :
  exists removed, s = Meta.trimRight s ++ removed.
Proof.
  unfold Meta.trimRight.
  destruct (trimLeftReversed_suffix (List.rev s)) as [r Hr].
  exists (List.rev r).
  rewrite <- rev_app_distr, <- Hr, rev_involutive. reflexivity.
Qed.

Lemma trimRight_stable (s : list ascii) :
  Meta.trimRight (Meta.trimRight s) = Meta.trimRight s.
Proof.
  unfold Meta.trimRight. rewrite rev_involutive, trimLeftReversed_stable.
  reflexivity.
Qed.

(** A text that starts with no white space has no prefix that does. *)
Lemma trimLeft_stable_prefix (p q : list ascii) :
  Meta.trimLeft (p ++ q) = p ++ q -> Meta.trimLeft p = p.
Proof.
  intros Hstable.
  assert (Hshort : forall l, (List.length l < List.length (p ++ q))%nat ->
                             Meta.trimLeft l <> p ++ q).
  { intros l Hl Heq. pose proof (trimLeft_length l) as Hlen.
    rewrite Heq in Hlen. lia. }
  destruct p as [|a [|b [|c p]]]; [reflexivity| | |];
    cbn [Meta.trimLeft app] in *.
  - destruct (Meta.asciiSpace a); [|reflexivity].
    exfalso. apply (Hshort q); [simpl; lia|exact Hstable].
  - destruct (Meta.asciiSpace a).
    + exfalso. apply (Hshort (b :: q)); [simpl; lia|exact Hstable].
    + destruct (Meta.space2 a b); [|reflexivity].
      exfalso. apply (Hshort q); [simpl; lia|exact Hstable].
  - destruct (Meta.asciiSpace a).
    + exfalso. apply (Hshort (b :: c :: p ++ q)); [simpl; lia|exact Hstable].
    + destruct (Meta.space2 a b).
      * exfalso. apply (Hshort (c :: p ++ q)); [simpl; lia|exact Hstable].
      * destruct (Meta.space3 a b c); [|reflexivity].
        exfalso. apply (Hshort (p ++ q)); [simpl; lia|exact Hstable].
Qed.

Lemma TrimSpace_stable (s : string) :
  Meta.TrimSpace (Meta.TrimSpace s) = Meta.TrimSpace s.
Proof.
  unfold Meta.TrimSpace. rewrite list_ascii_of_string_of_list_ascii.
  set (x := Meta.trimLeft (list_ascii_of_string s)).
  assert (Hleft : Meta.trimLeft (Meta.trimRight x) = Meta.trimRight x).
  { destruct (trimRight_prefix x) as [r Hr].
    apply (trimLeft_stable_prefix _ r). rewrite <- Hr.
    apply trimLeft_stable. }
  rewrite Hleft, trimRight_stable. reflexivity.
Qed.

(** X18: the version returned is the letter v followed by the text of the
    version file without the white space at its two ends: trimming what
    follows the v again changes nothing, whatever the file holds. *)
Theorem GetVersion_trimmed (version : string) :
  exists rest,
    Meta.GetVersion version = String "v" rest
    /\ rest = Meta.TrimSpace version
    /\ Meta.TrimSpace rest = rest.
Proof.
  exists (Meta.TrimSpace version). split; [reflexivity|].
  split; [reflexivity|apply TrimSpace_stable].
Qed.

Lemma trimLeft_pad (pad s : list ascii) :
  forallb Meta.asciiSpace pad = true ->
  Meta.trimLeft (pad ++ s) = Meta.trimLeft s.
Proof.
  induction pad as [|a pad IH]; simpl; [reflexivity|].
  intros [Ha Hpad]%andb_true_iff. rewrite Ha. apply IH, Hpad.
Qed.

Lemma trimLeftReversed_pad (pad s : list ascii) :
  forallb Meta.asciiSpace pad = true ->
  Meta.trimLeftReversed (pad ++ s) = Meta.trimLeftReversed s.
Proof.
  induction pad as [|a pad IH]; simpl; [reflexivity|].
  intros [Ha Hpad]%andb_true_iff. rewrite Ha. apply IH, Hpad.
Qed.

Lemma plain_not_space (a : ascii) :
  Meta.plain a = true ->
  Meta.asciiSpace a = false
  /\ (forall b, Meta.space2 a b = false)
  /\ (forall b c, Meta.space3 a b c = false)
  /\ (forall b, Meta.space2 b a = false)
  /\ (forall b c, Meta.space3 c b a = false).
Proof.
  unfold Meta.plain, Meta.space2, Meta.space3.
  intros [Hlt Hns]%andb_true_iff. apply N.ltb_lt in Hlt.
  apply negb_true_iff in Hns. split; [exact Hns|].
  repeat split; intros;
    repeat match goal with
           | |- context [(?x =? ?y)%N] =>
               destruct (N.eqb_spec x y); try lia
           | |- context [(?x <=? ?y)%N] =>
               destruct (N.leb_spec x y); try lia
           end; reflexivity.
Qed.

Lemma trimLeft_plain (a : ascii) (s : list ascii) :
  Meta.plain a = true -> Meta.trimLeft (a :: s) = a :: s.
Proof.
  intros Hp. destruct (plain_not_space a Hp) as (Ha & H2 & H3 & _).
  cbn [Meta.trimLeft]. rewrite Ha.
  destruct s as [|b [|c s]]; [reflexivity| |]; rewrite H2; [reflexivity|].
  rewrite H3. reflexivity.
Qed.

Lemma trimLeftReversed_plain (a : ascii) (s : list ascii) :
  Meta.plain a = true -> Meta.trimLeftReversed (a :: s) = a :: s.
Proof.
  intros Hp. destruct (plain_not_space a Hp) as (Ha & _ & _ & H2 & H3).
  cbn [Meta.trimLeftReversed]. rewrite Ha.
  destruct s as [|b [|c s]]; [reflexivity| |]; rewrite H2; [reflexivity|].
  rewrite H3. reflexivity.
Qed.

Lemma forallb_reversed {A : Type} (f : A -> bool) (l : list A) :
  forallb f l = true -> forallb f (List.rev l) = true.
Proof.
  rewrite !forallb_forall. intros Hall x Hin. apply Hall, in_rev, Hin.
Qed.

Lemma list_ascii_of_string_app (s t : string) :
  list_ascii_of_string (s ++ t)%string
  = list_ascii_of_string s ++ list_ascii_of_string t.
Proof. induction s as [|a s IH]; simpl; [reflexivity|]. rewrite IH. reflexivity. Qed.

(** X19: white space around the version in the file is ignored: for a text
    that starts and ends with an ASCII byte that is not white space (such as
    a version number), surrounded by any ASCII white space (such as the line
    feed that ends the file), the version returned is the letter v followed
    by that text. *)
Theorem GetVersion_ignores_padding (before version after : string) :
  Meta.allSpace before = true ->
  Meta.allSpace after = true ->
  Meta.plainEnds version = true ->
  Meta.GetVersion (before ++ version ++ after)%string = ("v" ++ version)%string.
Proof.
  unfold Meta.allSpace, Meta.plainEnds, Meta.GetVersion, Meta.TrimSpace.
  intros Hbefore Hafter [Hfirst Hlast]%andb_true_iff.
  rewrite !list_ascii_of_string_app.
  rewrite (trimLeft_pad _ _ Hbefore).
  destruct (list_ascii_of_string version) as [|a l'] eqn:Hl; [discriminate|].
  rewrite <- app_comm_cons, (trimLeft_plain a _ Hfirst), app_comm_cons.
  unfold Meta.trimRight. rewrite rev_app_distr.
  rewrite trimLeftReversed_pad by (apply forallb_reversed; exact Hafter).
  destruct (List.rev (a :: l')) as [|b r] eqn:Hr; [discriminate|].
  rewrite (trimLeftReversed_plain b r Hlast), <- Hr, rev_involutive, <- Hl.
  rewrite string_of_list_ascii_of_string. reflexivity.
Qed.


(** ** The example program *)

Section ExampleProgram.

Context {urlImpl : NetURL.Impl} {mapRange : MapRange} {tables : Unicode.Tables}.

Lemma Do_result_shape (c : ClientImpl) (request : Request.t)
    (edit : option EditRequestFunc) :
  (exists response, fst (Do c request edit) = (Some response, None))
  \/ (exists err, fst (Do c request edit) = (None, Some err)).
Proof.
  destruct (Do_path c request edit)
    as [err Hb HDo|built sent err Hb He HDo|built sent err Hb He Hd HDo
       |built sent resp err Hb He Hd Hv HDo|built sent resp Hb He Hd Hv HDo];
    rewrite HDo; cbn [fst]; eauto.
  apply readResponse_result.
Qed.

Lemma slicePrefix_min (b : list Byte.byte) :
  ExampleMain.slicePrefix b
    (if (256 <? List.length b)%nat then 256%nat else List.length b)
  = Some (firstn 256 b).
Proof.
  unfold ExampleMain.slicePrefix.
  destruct (Nat.ltb_spec 256 (List.length b)) as [Hlong|Hshort].
  - destruct (Nat.leb_spec 256 (List.length b)); [reflexivity|lia].
  - rewrite Nat.leb_refl. rewrite firstn_all. rewrite firstn_all2 by lia.
    reflexivity.
Qed.

(** X20: the example program never panics: when [Do] returns an error it
    ends with [log.Fatalf] and the message of that error, and prints nothing;
    when [Do] returns a response it prints the status code and the first 256
    bytes of the body, or the whole body when it is shorter, the slice
    [response.Body[:bodyLength]] being always in range. The only calls it
    makes are those of [Do]. *)
Theorem main_reports (do : DoFunc) :
  let run := Latest.Do (Some Latest.Background) (NewClient do "http://google.com")
               ExampleMain.request None in
  fst (ExampleMain.main do) <> ExampleMain.Panic
  /\ snd (ExampleMain.main do) = snd run
  /\ (forall err,
      snd (fst run) = Some err ->
      fst (ExampleMain.main do)
      = ExampleMain.Fatal ("Failed to make request: " ++ ExampleMain.Error err)%string)
  /\ (forall response,
      fst run = (Some response, None) ->
      let first := firstn 256 (Response.Body response) in
      (List.length first <= 256)%nat
      /\ List.length first = Nat.min 256 (List.length (Response.Body response))
      /\ fst (ExampleMain.main do)
         = ExampleMain.Printed
             ("Response Status: " ++ formatInt (Response.StatusCode response)
              ++ ExampleMain.newline
              ++ "First " ++ formatInt (Z.of_nat (List.length first))
              ++ " bytes of response body:" ++ ExampleMain.newline
              ++ string_of_list_byte first ++ ExampleMain.newline)%string).
Proof.
  intros run.
  set (client := NewClient do "http://google.com").
  set (request := Request.mk "GET" "/" ∅ None [200%Z; 301%Z; 302%Z] ["text/html"]).
  assert (Hrun : run = Do client request None).
  { change run with (Latest.Do (Some Latest.Background) client
                       (Latest.ofCurrent request) None).
    unfold Latest.Do, Do. rewrite Latest_buildHTTPRequest_Background. reflexivity. }
  assert (Hmain : ExampleMain.main do
                  = (let '(response, err) := fst run in
                     match err with
                     | Some err =>
                         ExampleMain.Fatal
                           ("Failed to make request: " ++ ExampleMain.Error err)%string
                     | None =>
                         match response with
                         | None => ExampleMain.Panic
                         | Some response =>
                             let bodyLength := List.length (Response.Body response) in
                             let bodyLength :=
                               if (256 <? bodyLength)%nat then 256%nat else bodyLength in
                             match ExampleMain.slicePrefix (Response.Body response)
                                     bodyLength with
                             | None => ExampleMain.Panic
                             | Some first =>
                                 ExampleMain.Printed
                                   ("Response Status: "
                                    ++ formatInt (Response.StatusCode response)
                                    ++ ExampleMain.newline
                                    ++ "First " ++ formatInt (Z.of_nat bodyLength)
                                    ++ " bytes of response body:" ++ ExampleMain.newline
                                    ++ string_of_list_byte first
                                    ++ ExampleMain.newline)%string
                             end
                         end
                     end, snd run)).
  { clear Hrun. subst run client. unfold ExampleMain.main.
    destruct (Latest.Do _ _ _ _) as [[response [err|]] calls]; cbn [fst snd];
      unfold mbind, M_bind, mret, M_ret.
    - cbv beta iota. rewrite app_nil_r. reflexivity.
    - destruct response as [response|];
        [|cbv beta iota; rewrite app_nil_r; reflexivity].
      cbv beta iota zeta. destruct (ExampleMain.slicePrefix _ _);
        cbv beta iota; rewrite app_nil_r; reflexivity. }
  assert (Hlen : forall b : list Byte.byte,
             (if (256 <? List.length b)%nat then 256%nat else List.length b)
             = List.length (firstn 256 b)).
  { intros b. rewrite length_firstn.
    destruct (Nat.ltb_spec 256 (List.length b)); lia. }
  rewrite Hmain. cbn [fst snd].
  destruct (Do_result_shape client request None) as [(response & Hr)|(err & Hr)];
    rewrite <- Hrun in Hr; rewrite Hr.
  - cbv zeta. rewrite slicePrefix_min, Hlen.
    split; [discriminate|]. split; [reflexivity|].
    split; [intros err; discriminate|].
    intros response' [= <-]. split; [rewrite length_firstn; lia|].
    split; [apply length_firstn|reflexivity].
  - split; [discriminate|]. split; [reflexivity|].
    split; [intros err' [= <-]; reflexivity|].
    intros response'. discriminate.
Qed.

End ExampleProgram.


(** ** The helpers of the earlier revision, compared *)

Lemma containsInt_Contains (list : list Z) (item : Z) :
  Superseded.containsInt list item = GoSlices.Contains list item.
Proof.
  unfold GoSlices.Contains.
  induction list as [|v list IH]; simpl; [reflexivity|].
  rewrite IH, (Z.eqb_sym item v). destruct (Z.eqb v item); reflexivity.
Qed.

Lemma HasPrefix_lowerASCII (s prefix : string) :
  GoStrings.HasPrefix s prefix = true ->
  GoStrings.HasPrefix (GoStrings.lowerASCII s) (GoStrings.lowerASCII prefix) = true.
Proof.
  revert s. induction prefix as [|p prefix IH]; intros s;
    [intros _; destruct s; reflexivity|].
  destruct s as [|c s]; simpl; [discriminate|].
  intros [Hc Hs]%andb_true_iff. apply Ascii.eqb_eq in Hc. subst c.
  unfold Bytes.eqb. rewrite Ascii.eqb_refl. apply IH, Hs.
Qed.

Lemma noUpper_hasUpper (s : string) :
  noUpper s = true -> GoStrings.hasUpper s = false.
Proof.
  unfold noUpper, GoStrings.hasUpper.
  induction (list_ascii_of_string s) as [|c l IH]; simpl; [reflexivity|].
  intros [Hc Hl]%andb_true_iff. apply negb_true_iff in Hc. rewrite Hc, (IH Hl).
  reflexivity.
Qed.

Section EarlierHelpers.

Context {tables : Unicode.Tables}.

(** X21: the helpers of the earlier revision against the checks of the
    current one: [containsInt] is [slices.Contains]; for a content type and
    prefixes made of ASCII bytes, a content type that [containsStringPrefix]
    accepts is accepted by the current check, and the two checks agree when
    neither the content type nor the prefixes hold an upper-case letter. *)
Theorem earlier_helpers_accept_less (codes : list Z) (code : Z)
    (prefixes : list string) (s : string) :
  let current :=
    GoSlices.ContainsFunc prefixes
      (fun prefix => GoStrings.HasPrefix (GoStrings.ToLower s)
                       (GoStrings.ToLower prefix)) in
  Superseded.containsInt codes code = GoSlices.Contains codes code
  /\ (GoStrings.isASCII s = true -> forallb GoStrings.isASCII prefixes = true ->
      (Superseded.containsStringPrefix prefixes s = true -> current = true)
      /\ (noUpper s = true -> forallb noUpper prefixes = true ->
          Superseded.containsStringPrefix prefixes s = current)).
Proof.
  intros current. split; [apply containsInt_Contains|]. subst current.
  intros Hs Hps. rewrite (ToLower_ASCII s Hs). unfold GoSlices.ContainsFunc. split.
  - induction prefixes as [|prefix prefixes IH]; simpl; [discriminate|].
    simpl in Hps. apply andb_true_iff in Hps as [Hp Hps].
    rewrite (ToLower_ASCII prefix Hp).
    destruct (GoStrings.HasPrefix s prefix) eqn:Hpre.
    + intros _. rewrite (HasPrefix_lowerASCII _ _ Hpre). reflexivity.
    + intros Hrest. rewrite (IH Hps Hrest). apply orb_true_r.
  - intros Hu. rewrite (lowerASCII_noUpper s (noUpper_hasUpper s Hu)).
    induction prefixes as [|prefix prefixes IH]; simpl; [reflexivity|].
    simpl in Hps. apply andb_true_iff in Hps as [Hp Hps].
    intros [Hup Hrest]%andb_true_iff.
    rewrite (ToLower_ASCII prefix Hp),
      (lowerASCII_noUpper prefix (noUpper_hasUpper prefix Hup)).
    destruct (GoStrings.HasPrefix s prefix); [reflexivity|]. apply IH; assumption.
Qed.

End EarlierHelpers.

(** ** The theorems at the example calls *)

#[local] Existing Instance RFC3986.impl.
#[local] Existing Instance rangeForward.
#[local] Existing Instance latin1Tables.

Lemma response_body_closed_once_witness :
  List.length (List.filter isClose
    (snd (Do (exampleClient (respond 500 "text/plain" (streamOf "internal server error")))
             getTest None))) = 1%nat
  /\ exists before,
       snd (Do (exampleClient (respond 500 "text/plain" (streamOf "internal server error")))
               getTest None) = before ++ [Close]
       /\ List.filter isClose before = [].
Proof.
  eapply (response_body_closed_once
            (exampleClient (respond 500 "text/plain" (streamOf "internal server error")))
            getTest None).
  - vm_compute. reflexivity.
  - reflexivity.
  - reflexivity.
Defined.

Lemma content_type_validation_witness :
  let accepted :=
    exampleClient (respond 200 "Application/JSON; charset=utf-8" (streamOf "ok")) in
  let rejected :=
    exampleClient (respond 200 "text/plain" (streamOf "unexpected content")) in
  Request.ExpectedContentTypes getTest = ["application/json"]
  /\ (CasePrefix "application/json" "Application/JSON; charset=utf-8"
      /\ In ReadAll (snd (Do accepted getTest None))
      /\ fst (Do accepted getTest None)
         = (Some (Response.mk 200
                    {[ "Content-Type" := ["Application/JSON; charset=utf-8"] ]}
                    (list_byte_of_string "ok")), None))
  /\ (~ CasePrefix "application/json" "text/plain"
      /\ ~ In ReadAll (snd (Do rejected getTest None))
      /\ fst (Do rejected getTest None)
         = (None, Some (Errorf "unexpected content type: text/plain")))
  /\ (let latin := Request.mk "GET" "/test" ∅ None [200%Z]
                     [("text/" ++ smallEAcute)%string] in
      let beyond :=
        exampleClient (respond 200 ("text/" ++ capitalEAcute)%string (streamOf "ok")) in
      In ReadAll (snd (Do beyond latin None))
      /\ fst (Do beyond latin None)
         = (Some (Response.mk 200
                    {[ "Content-Type" := [("text/" ++ capitalEAcute)%string] ]}
                    (list_byte_of_string "ok")), None)).
Proof.
  intros accepted rejected. split; [reflexivity|].
  assert (Hne : Request.ExpectedContentTypes getTest <> []) by discriminate.
  assert (Hascii : forall prefix, In prefix (Request.ExpectedContentTypes getTest) ->
                                  GoStrings.isASCII prefix = true)
    by (intros prefix [<-|[]]; reflexivity).
  split; [|split].
  - assert (Hcp : CasePrefix "application/json" "Application/JSON; charset=utf-8")
      by (repeat (constructor; [reflexivity|]); constructor).
    split; [exact Hcp|].
    pose (httpResponse :=
            HTTPResponse.mk 200
              {[ "Content-Type" := ["Application/JSON; charset=utf-8"] ]} (streamOf "ok")).
    assert (Hs : statusAccepted getTest httpResponse) by (right; left; reflexivity).
    assert (Hb : buildHTTPRequest accepted getTest = Ok _) by (vm_compute; reflexivity).
    destruct (content_type_validation accepted getTest None _ _ httpResponse
                Hb eq_refl eq_refl Hs Hne) as (Hread & Hgood & _ & Hletters).
    assert (Hm : exists prefix, In prefix (Request.ExpectedContentTypes getTest)
                   /\ LowerPrefix prefix
                        (HTTPHeader.Get (HTTPResponse.Header httpResponse) "Content-Type")).
    { apply (Hletters eq_refl Hascii). exists "application/json".
      split; [left; reflexivity|exact Hcp]. }
    split; [exact (proj2 Hread Hm)|].
    refine (eq_trans (Hgood Hm) _). vm_compute. reflexivity.
  - assert (Hcp : ~ CasePrefix "application/json" "text/plain").
    { intros Hcp. apply (proj1 (CasePrefix_HasPrefix _ _)) in Hcp.
      vm_compute in Hcp. discriminate. }
    split; [exact Hcp|].
    pose (httpResponse :=
            HTTPResponse.mk 200 {[ "Content-Type" := ["text/plain"] ]}
              (streamOf "unexpected content")).
    assert (Hs : statusAccepted getTest httpResponse) by (right; left; reflexivity).
    assert (Hb : buildHTTPRequest rejected getTest = Ok _) by (vm_compute; reflexivity).
    destruct (content_type_validation rejected getTest None _ _ httpResponse
                Hb eq_refl eq_refl Hs Hne) as (Hread & _ & Hbad & Hletters).
    assert (Hm : ~ (exists prefix, In prefix (Request.ExpectedContentTypes getTest)
                      /\ LowerPrefix prefix
                           (HTTPHeader.Get (HTTPResponse.Header httpResponse)
                              "Content-Type"))).
    { intros Hm. apply (Hletters eq_refl Hascii) in Hm.
      destruct Hm as (prefix & [<-|[]] & Hp). exact (Hcp Hp). }
    split; [intros Hin; exact (Hm (proj1 Hread Hin))|].
    refine (eq_trans (Hbad Hm) _). reflexivity.
  - intros latin beyond.
    pose (httpResponse :=
            HTTPResponse.mk 200
              {[ "Content-Type" := [("text/" ++ capitalEAcute)%string] ]} (streamOf "ok")).
    assert (Hs : statusAccepted latin httpResponse) by (right; left; reflexivity).
    assert (Hb : buildHTTPRequest beyond latin = Ok _) by (vm_compute; reflexivity).
    assert (Hlatin : Request.ExpectedContentTypes latin <> []) by discriminate.
    destruct (content_type_validation beyond latin None _ _ httpResponse
                Hb eq_refl eq_refl Hs Hlatin) as (Hread & Hgood & _).
    assert (Hm : exists prefix, In prefix (Request.ExpectedContentTypes latin)
                   /\ LowerPrefix prefix
                        (HTTPHeader.Get (HTTPResponse.Header httpResponse) "Content-Type")).
    { exists ("text/" ++ smallEAcute)%string. split; [left; reflexivity|].
      apply LowerPrefix_HasPrefix. vm_compute. reflexivity. }
    split; [exact (proj2 Hread Hm)|].
    refine (eq_trans (Hgood Hm) _). vm_compute. reflexivity.
Defined.

Lemma edit_hook_runs_before_transport_witness :
  let c := exampleClient (respond 200 "application/json" (streamOf "ok")) in
  (exists built,
      buildHTTPRequest c postTest = Ok built
      /\ failingEdit built = (built, Some (errorString "edit failed"))
      /\ Do c postTest (Some failingEdit)
         = ((None, Some (WithStack (errorString "edit failed"))), [CallEdit built]))
  /\ (exists built sent,
      snd (Do c postTest (Some setCustomHeader))
      = [CallEdit built] ++ CallDo sent :: [ReadAll; Close]
      /\ exists built',
           buildHTTPRequest c postTest = Ok built'
           /\ [CallEdit built] = [CallEdit built']
           /\ setCustomHeader built' = (sent, None)).
Proof.
  intros c. split.
  - eexists. split; [vm_compute; reflexivity|]. split; [reflexivity|].
    eapply (proj1 (edit_hook_runs_before_transport c postTest failingEdit)).
    + vm_compute. reflexivity.
    + reflexivity.
  - eexists. eexists.
    assert (Htrace : snd (Do c postTest (Some setCustomHeader))
                     = [CallEdit _] ++ CallDo _ :: [ReadAll; Close])
      by (vm_compute; reflexivity).
    split; [exact Htrace|].
    exact (proj2 (edit_hook_runs_before_transport c postTest setCustomHeader)
             _ _ _ Htrace).
Defined.

Lemma status_validation_witness :
  let c := exampleClient (respond 500 "text/plain" (streamOf "internal server error")) in
  (exists built,
      buildHTTPRequest c getTest = Ok built
      /\ Request.ExpectedStatusCodes getTest = [200%Z]
      /\ ~ In 500%Z (Request.ExpectedStatusCodes getTest)
      /\ Do c getTest None
         = ((None, Some (Errorf "unexpected status code: 500")),
            callsUntilDo None built built ++ [Close])
      /\ (forall code,
          snd (fst (Do c getTest None))
          = Some (Errorf ("unexpected status code: " ++ formatInt code)%string) ->
          code = 500%Z))
  /\ (Request.ExpectedStatusCodes postTest = []
      /\ (forall code,
          snd (fst (Do c postTest None))
          <> Some (Errorf ("unexpected status code: " ++ formatInt code)%string))
      /\ fst (Do c postTest None)
         = (Some (Response.mk 500 {[ "Content-Type" := ["text/plain"] ]}
                    (list_byte_of_string "internal server error")), None)).
Proof.
  intros c. split.
  - eexists.
    assert (Hb : buildHTTPRequest c getTest = Ok _) by (vm_compute; reflexivity).
    split; [exact Hb|]. split; [reflexivity|].
    assert (Hnin : ~ In 500%Z (Request.ExpectedStatusCodes getTest))
      by (intros [|[]]; discriminate).
    split; [exact Hnin|].
    assert (Hne : Request.ExpectedStatusCodes getTest <> []) by discriminate.
    destruct (proj1 (status_validation c getTest None)
                _ _ (HTTPResponse.mk 500 {[ "Content-Type" := ["text/plain"] ]}
                       (streamOf "internal server error"))
                Hb eq_refl eq_refl Hne Hnin) as (HDo & Hcode & _).
    split; [exact HDo|exact Hcode].
  - split; [reflexivity|].
    split; [exact (proj1 (proj2 (status_validation c postTest None) eq_refl))|].
    vm_compute. reflexivity.
Defined.

Lemma validation_precedes_body_read_witness :
  let c := exampleClient (respond 500 "text/plain" (streamOf "internal server error")) in
  let ok := exampleClient (respond 200 "application/json" (streamOf "ok")) in
  let httpResponse :=
    HTTPResponse.mk 500 {[ "Content-Type" := ["text/plain"] ]}
      (streamOf "internal server error") in
  (In ReadAll (snd (Do ok getTest None))
   /\ exists built sent httpResponse,
        buildHTTPRequest ok getTest = Ok built
        /\ applyEdit None built = (sent, None)
        /\ do ok sent = Ok httpResponse
        /\ statusAccepted getTest httpResponse
        /\ contentTypeAccepted getTest httpResponse
        /\ snd (Do ok getTest None) = callsUntilDo None built sent ++ [ReadAll; Close])
  /\ (~ statusAccepted getTest httpResponse
      /\ ~ contentTypeAccepted getTest httpResponse
      /\ fst (Do c getTest None)
         = (None, Some (Errorf ("unexpected status code: "
                                ++ formatInt (HTTPResponse.StatusCode httpResponse))%string))
      /\ ~ In ReadAll (snd (Do c getTest None))).
Proof.
  intros c ok httpResponse. split.
  - assert (Hin : In ReadAll (snd (Do ok getTest None)))
      by (vm_compute; right; left; reflexivity).
    split; [exact Hin|].
    exact (proj1 (validation_precedes_body_read ok getTest None) Hin).
  - assert (Hs : ~ statusAccepted getTest httpResponse).
    { intros [Hnil|[Heq|[]]]; discriminate. }
    split; [exact Hs|]. split.
    + intros [Hnil|(prefix & [<-|[]] & Hp)]; [discriminate|].
      apply (proj1 (LowerPrefix_HasPrefix _ _)) in Hp. vm_compute in Hp. discriminate.
    + refine (proj1 (proj2 (validation_precedes_body_read c getTest None)
                       _ _ httpResponse _ eq_refl eq_refl) Hs).
      vm_compute. reflexivity.
Defined.

Lemma get_request_has_no_body_witness :
  let c := exampleClient (respond 200 "application/json" (streamOf "ok")) in
  (Request.Method getTest = "GET"
   /\ Request.Body getTest = Some (list_byte_of_string "ignored"))
  /\ (exists built,
        buildHTTPRequest c getTest = Ok built
        /\ HTTPRequest.Body built = HTTPRequest.nilBody)
  /\ (exists sent,
        In (CallDo sent) (snd (Do c getTest None))
        /\ HTTPRequest.Body sent = HTTPRequest.nilBody).
Proof.
  intros c. split; [split; reflexivity|]. split.
  - eexists.
    assert (Hb : buildHTTPRequest c getTest = Ok _) by (vm_compute; reflexivity).
    split; [exact Hb|].
    exact (proj1 (get_request_has_no_body c getTest eq_refl) _ Hb).
  - eexists.
    assert (Hin : In (CallDo _) (snd (Do c getTest None)))
      by (vm_compute; left; reflexivity).
    split; [exact Hin|].
    exact (proj2 (get_request_has_no_body c getTest eq_refl) _ Hin).
Defined.

Lemma body_attached_unchanged_witness :
  let c := exampleClient (respond 201 "application/json" (streamOf "created")) in
  exists built,
    buildHTTPRequest c postTest = Ok built
    /\ HTTPRequest.Body built = HTTPRequest.NopCloser (list_byte_of_string "test=data")
    /\ HTTPRequest.bodyBytes (HTTPRequest.Body built) = list_byte_of_string "test=data".
Proof.
  intros c. eexists.
  assert (Hb : buildHTTPRequest c postTest = Ok _) by (vm_compute; reflexivity).
  split; [exact Hb|].
  apply (body_attached_unchanged c postTest (list_byte_of_string "test=data") _).
  - discriminate.
  - reflexivity.
  - discriminate.
  - exact Hb.
Defined.

Lemma path_resolved_against_base_witness :
  let c := exampleClient (respond 200 "application/json" (streamOf "ok")) in
  let api := NewClient refuse "http://example.com/api/v1" in
  let users := Request.mk "GET" "users/1" ∅ None [] [] in
  (exists built,
      buildHTTPRequest c getTest = Ok built
      /\ RFC3986.URLString (HTTPRequest.URL built) = "http://example.com/test")
  /\ (exists built,
      buildHTTPRequest api users = Ok built
      /\ RFC3986.URLString (HTTPRequest.URL built) = "http://example.com/api/users/1"
      /\ RFC3986.URLString (HTTPRequest.URL built)
         <> (baseURL api ++ Request.Path users)%string)
  /\ (exists built,
      buildHTTPRequest api getTest = Ok built
      /\ RFC3986.URLString (HTTPRequest.URL built) = "http://example.com/test"
      /\ RFC3986.URLString (HTTPRequest.URL built)
         <> (baseURL api ++ Request.Path getTest)%string)
  /\ (exists built base ref u,
      buildHTTPRequest c getTest = Ok built
      /\ NetURL.Parse (baseURL c) = Ok base
      /\ NetURL.Parse (Request.Path getTest) = Ok ref
      /\ NetURL.Parse (NetURL.String (NetURL.ResolveReference base ref)) = Ok u
      /\ HTTPRequest.URL built
         = NetHTTP.withHost u (NetHTTP.removeEmptyPort (NetURL.Host u))).
Proof.
  intros c api users.
  destruct path_resolved_against_base as [Hgeneral Hexamples].
  split; [|split; [|split]].
  - exact (proj1 (Hexamples rangeForward c getTest eq_refl) eq_refl eq_refl).
  - exact (proj1 (proj2 (Hexamples rangeForward api users eq_refl)) eq_refl eq_refl).
  - exact (proj2 (proj2 (Hexamples rangeForward api getTest eq_refl)) eq_refl eq_refl).
  - eexists.
    assert (Hb : buildHTTPRequest c getTest = Ok _) by (vm_compute; reflexivity).
    destruct (Hgeneral RFC3986.impl rangeForward c getTest _ Hb)
      as (base & ref & u & H1 & H2 & H3 & H4).
    exists base, ref, u. auto.
Defined.

(** C7, as stated, fails. Two keys that are equal up to case and hold a
    space are kept as two entries of the built header, each with its own
    value, so that no entry holds the values of both. And for the keys
    "content-type" and "Content-Type" the order of the two values in the
    merged entry follows the order in which [range] visits the map: both
    orders occur for the same request, so the request does not determine the
    order. *)
Lemma header_names_merge_counterexample :
  (EqualFold "x y" "X Y" = true
   /\ Request.Headers spacedNames !! "x y" = Some ["1"]
   /\ Request.Headers spacedNames !! "X Y" = Some ["2"]
   /\ exists built,
        buildHTTPRequest (exampleClient refuse) spacedNames = Ok built
        /\ HTTPRequest.Header built !! "x y" = Some ["1"]
        /\ HTTPRequest.Header built !! "X Y" = Some ["2"]
        /\ ~ (exists K values,
                HTTPRequest.Header built !! K = Some values
                /\ In "1" values /\ In "2" values))
  /\ (EqualFold "content-type" "Content-Type" = true
      /\ (exists built1 built2,
            @buildHTTPRequest RFC3986.impl rangeForward (exampleClient refuse) twoSpellings
            = Ok built1
            /\ @buildHTTPRequest RFC3986.impl rangeBackward (exampleClient refuse) twoSpellings
               = Ok built2
            /\ HTTPRequest.Header built1 !! "Content-Type" = Some ["a"; "b"]
            /\ HTTPRequest.Header built2 !! "Content-Type" = Some ["b"; "a"])
      /\ ~ (exists values,
              forall (mapRange : MapRange) built,
                @buildHTTPRequest RFC3986.impl mapRange (exampleClient refuse) twoSpellings
                = Ok built ->
                HTTPRequest.Header built !! "Content-Type" = Some values)).
Proof.
  split.
  - split; [reflexivity|]. split; [reflexivity|]. split; [reflexivity|].
    eexists.
    split; [vm_compute; reflexivity|]. split; [vm_compute; reflexivity|].
    split; [vm_compute; reflexivity|].
    intros (K & values & Hlookup & H1 & H2).
    apply elem_of_map_to_list in Hlookup. vm_compute in Hlookup.
    apply list_elem_of_In in Hlookup.
    destruct Hlookup as [[= <- <-]|[[= <- <-]|[]]].
    + destruct H2 as [|[]]; discriminate.
    + destruct H1 as [|[]]; discriminate.
  - split; [reflexivity|].
    assert (Hf : exists built,
               @buildHTTPRequest RFC3986.impl rangeForward (exampleClient refuse) twoSpellings
               = Ok built
               /\ HTTPRequest.Header built !! "Content-Type" = Some ["a"; "b"]).
    { eexists. split; vm_compute; reflexivity. }
    assert (Hb : exists built,
               @buildHTTPRequest RFC3986.impl rangeBackward (exampleClient refuse) twoSpellings
               = Ok built
               /\ HTTPRequest.Header built !! "Content-Type" = Some ["b"; "a"]).
    { eexists. split; vm_compute; reflexivity. }
    destruct Hf as (built1 & Hb1 & Hh1). destruct Hb as (built2 & Hb2 & Hh2).
    split.
    + exists built1, built2. auto.
    + intros (values & Hall).
      pose proof (Hall rangeForward built1 Hb1) as Hv1.
      pose proof (Hall rangeBackward built2 Hb2) as Hv2.
      rewrite Hh1 in Hv1. rewrite Hh2 in Hv2. congruence.
Qed.

Lemma header_names_merge_witness :
  let c := exampleClient refuse in
  (exists built,
      buildHTTPRequest c twoSpellings = Ok built
      /\ validHeaderFieldName "content-type" = true
      /\ Textproto.CanonicalMIMEHeaderKey "content-type" = "Content-Type"
      /\ HTTPRequest.Header built !! "Content-Type" = Some ["a"; "b"]
      /\ HTTPRequest.Header built !! "content-type" = None)
  /\ (exists built,
      buildHTTPRequest c spacedNames = Ok built
      /\ validHeaderFieldName "x y" = false
      /\ validHeaderFieldName "X Y" = false
      /\ HTTPRequest.Header built !! "x y" = Some ["1"]
      /\ HTTPRequest.Header built !! "X Y" = Some ["2"]).
Proof.
  intros c. split.
  - eexists.
    assert (Hb : buildHTTPRequest c twoSpellings = Ok _) by (vm_compute; reflexivity).
    split; [exact Hb|]. split; [reflexivity|]. split; [reflexivity|].
    destruct (proj1 (header_names_merge c twoSpellings _ "content-type" Hb) eq_refl)
      as (_ & Hentry & Hsingle & _).
    split.
    + refine (eq_trans Hentry _). vm_compute. reflexivity.
    + apply Hsingle; [reflexivity|discriminate].
  - eexists.
    assert (Hb : buildHTTPRequest c spacedNames = Ok _) by (vm_compute; reflexivity).
    split; [exact Hb|]. split; [reflexivity|]. split; [reflexivity|].
    split.
    + refine (eq_trans
                (proj2 (proj2 (header_names_merge c spacedNames _ "x y" Hb) eq_refl)) _).
      vm_compute. reflexivity.
    + refine (eq_trans
                (proj2 (proj2 (header_names_merge c spacedNames _ "X Y" Hb) eq_refl)) _).
      vm_compute. reflexivity.
Defined.

(** ** The cases of the test suite and of the specification, run *)

(** GET to /users/1 answered with status 200, JSON and a body. *)
Example end_to_end :
  fst (Do (exampleClient
             (respond 200 "application/json" (HTTPResponse.mkReadCloser userJSON None None)))
          getUser None)
  = (Some (Response.mk 200 {[ "Content-Type" := ["application/json"] ]} userJSON), None).
Proof. vm_compute. reflexivity. Qed.

(** A content type that differs from the expected prefix by the case of its
    letters and carries a parameter is accepted. *)
Example mixed_case_content_type :
  fst (Do (exampleClient
             (respond 200 "Application/JSON; charset=utf-8" (streamOf "ok")))
          getTest None)
  = (Some (Response.mk 200 {[ "Content-Type" := ["Application/JSON; charset=utf-8"] ]}
             (list_byte_of_string "ok")), None).
Proof. vm_compute. reflexivity. Qed.

Example unexpected_status_code :
  exists sent,
    Do (exampleClient (respond 500 "text/plain" (streamOf "internal server error")))
       getTest None
    = ((None, Some (Errorf "unexpected status code: 500")), [CallDo sent; Close]).
Proof. eexists. vm_compute. reflexivity. Qed.

Example unexpected_content_type :
  exists sent,
    Do (exampleClient (respond 200 "text/plain" (streamOf "unexpected content")))
       getTest None
    = ((None, Some (Errorf "unexpected content type: text/plain")), [CallDo sent; Close]).
Proof. eexists. vm_compute. reflexivity. Qed.

Example body_read_failure :
  exists sent,
    Do (exampleClient (respond 200 "application/json" brokenStream)) getTest None
    = ((None, Some (WithStack (errorString "unexpected EOF"))),
       [CallDo sent; ReadAll; Close]).
Proof. eexists. vm_compute. reflexivity. Qed.

Example transport_failure :
  exists sent,
    Do (exampleClient refuse) getTest None
    = ((None, Some (WithStack (errorString "connection refused"))), [CallDo sent]).
Proof. eexists. vm_compute. reflexivity. Qed.

Example edited_request_is_sent :
  exists built sent,
    snd (Do (exampleClient (respond 200 "application/json" (streamOf "ok")))
            postTest (Some setCustomHeader))
    = [CallEdit built; CallDo sent; ReadAll; Close]
    /\ HTTPHeader.Get (HTTPRequest.Header built) "X-Custom-Header" = EmptyString
    /\ HTTPHeader.Get (HTTPRequest.Header sent) "X-Custom-Header" = "custom-value"
    /\ HTTPHeader.Get (HTTPRequest.Header sent) "Content-Type" = "application/json".
Proof.
  eexists. eexists. split; [vm_compute; reflexivity|].
  repeat split; vm_compute; reflexivity.
Qed.

(** A request whose [Method] is empty is not a request whose [Method] is
    "GET" for [buildHTTPRequest]: its body is attached, and
    [http.NewRequestWithContext] gives the built request the method "GET". *)
Example empty_method_keeps_body :
  exists built,
    buildHTTPRequest (exampleClient refuse) emptyMethod = Ok built
    /\ HTTPRequest.Method built = "GET"
    /\ HTTPRequest.Body built = HTTPRequest.NopCloser (list_byte_of_string "payload").
Proof. eexists. split; [vm_compute; reflexivity|]. split; reflexivity. Qed.

(** The helper [containsStringPrefix] of the earlier revision does not fold
    case. *)
Example containsStringPrefix_folds_no_case :
  Superseded.containsStringPrefix ["application/json"] "Application/JSON; charset=utf-8"
  = false
  /\ Superseded.containsStringPrefix ["application/json"] "application/json; charset=utf-8"
     = true.
Proof. split; reflexivity. Qed.

(** ** The further theorems at example calls *)

Lemma closes_iff_response_witness :
  let failing := exampleClient (respond 500 "text/plain" (streamOf "internal server error")) in
  let ok := exampleClient (respond 200 "application/json" (streamOf "ok")) in
  (In Close (snd (Do failing getTest None))
   /\ exists built sent httpResponse,
        buildHTTPRequest failing getTest = Ok built
        /\ applyEdit None built = (sent, None)
        /\ do failing sent = Ok httpResponse)
  /\ (In ReadAll (snd (Do ok getTest None)) /\ In Close (snd (Do ok getTest None))).
Proof.
  intros failing ok. split.
  - assert (Hin : In Close (snd (Do failing getTest None)))
      by (vm_compute; right; left; reflexivity).
    split; [exact Hin|].
    exact (proj1 (proj1 (closes_iff_response failing getTest None)) Hin).
  - assert (Hin : In ReadAll (snd (Do ok getTest None)))
      by (vm_compute; right; left; reflexivity).
    split; [exact Hin|].
    exact (proj2 (closes_iff_response ok getTest None) Hin).
Defined.

Lemma Do_succeeds_iff_witness :
  let c := exampleClient
             (respond 200 "application/json" (HTTPResponse.mkReadCloser userJSON None None)) in
  let response := Response.mk 200 {[ "Content-Type" := ["application/json"] ]} userJSON in
  fst (Do c getUser None) = (Some response, None)
  /\ exists built sent httpResponse,
       buildHTTPRequest c getUser = Ok built
       /\ applyEdit None built = (sent, None)
       /\ do c sent = Ok httpResponse
       /\ validateResponse httpResponse getUser = None
       /\ HTTPResponse.readErr (HTTPResponse.Body httpResponse) = None
       /\ response
          = Response.mk (HTTPResponse.StatusCode httpResponse)
              (HTTPHeader.Clone (HTTPResponse.Header httpResponse))
              (HTTPResponse.data (HTTPResponse.Body httpResponse)).
Proof.
  intros c response.
  assert (Hrun : fst (Do c getUser None) = (Some response, None))
    by (vm_compute; reflexivity).
  split; [exact Hrun|].
  exact (proj1 (Do_succeeds_iff c getUser None response) Hrun).
Defined.

Lemma Do_error_origin_witness :
  let c := exampleClient refuse in
  let err := WithStack (errorString "connection refused") in
  snd (fst (Do c getTest None)) = Some err
  /\ ((buildHTTPRequest c getTest = Err err /\ exists cause, err = WithStack cause)
      \/ exists built sent,
           buildHTTPRequest c getTest = Ok built
           /\ ((exists cause, applyEdit None built = (sent, Some cause)
                              /\ err = WithStack cause)
               \/ (applyEdit None built = (sent, None)
                   /\ ((exists cause, do c sent = Err cause /\ err = WithStack cause)
                       \/ exists httpResponse,
                            do c sent = Ok httpResponse
                            /\ (validateResponse httpResponse getTest = Some err
                                \/ (validateResponse httpResponse getTest = None
                                    /\ exists cause,
                                         HTTPResponse.readErr (HTTPResponse.Body httpResponse)
                                         = Some cause
                                         /\ err = WithStack cause)))))).
Proof.
  intros c err.
  assert (Hrun : snd (fst (Do c getTest None)) = Some err)
    by (vm_compute; reflexivity).
  split; [exact Hrun|].
  exact (Do_error_origin c getTest None err Hrun).
Defined.

Lemma nil_hook_sends_built_request_witness :
  let c := exampleClient (respond 200 "application/json" (streamOf "ok")) in
  exists sent,
    In (CallDo sent) (snd (Do c getTest None))
    /\ buildHTTPRequest c getTest = Ok sent.
Proof.
  intros c. eexists.
  assert (Hin : In (CallDo _) (snd (Do c getTest None)))
    by (vm_compute; left; reflexivity).
  split; [exact Hin|].
  exact (proj2 (nil_hook_sends_built_request c getTest) _ Hin).
Defined.

Lemma validation_uses_sets_witness :
  let r1 := Request.mk "GET" "/" ∅ None [200%Z; 201%Z] ["text/html"; "application/json"] in
  let r2 := Request.mk "GET" "/" ∅ None [201%Z; 200%Z; 201%Z]
              ["application/json"; "text/html"; "text/html"] in
  let httpResponse := HTTPResponse.mk 404 {[ "Content-Type" := ["text/html"] ]}
                        (streamOf "not found") in
  validateResponse httpResponse r1 = validateResponse httpResponse r2.
Proof.
  intros r1 r2 httpResponse.
  apply (validation_uses_sets httpResponse r1 r2).
  - intros code. simpl. tauto.
  - intros prefix. simpl. tauto.
Defined.

Lemma content_type_taken_from_first_value_witness :
  let bare := HTTPResponse.mk 200 ∅ (streamOf "ok") in
  let two := HTTPResponse.mk 200 {[ "Content-Type" := ["text/plain"; "application/json"] ]}
               (streamOf "ok") in
  validateResponse bare getTest = Some (Errorf "unexpected content type: ")
  /\ validateResponse two getTest = Some (Errorf "unexpected content type: text/plain").
Proof.
  intros bare two.
  assert (Hs1 : statusAccepted getTest bare) by (right; left; reflexivity).
  assert (Hs2 : statusAccepted getTest two) by (right; left; reflexivity).
  assert (Hne : Request.ExpectedContentTypes getTest <> []) by discriminate.
  split.
  - destruct (proj1 (content_type_taken_from_first_value bare getTest Hs1 Hne)
                (or_introl eq_refl)) as (_ & _ & _ & Hascii).
    apply Hascii.
    + intros prefix [<-|[]]. reflexivity.
    + intros [|[]]; discriminate.
  - apply (proj2 (proj2 (content_type_taken_from_first_value two getTest Hs2 Hne)
                    "text/plain" ["application/json"] eq_refl)).
    vm_compute. discriminate.
Defined.

Lemma buildHTTPRequest_succeeds_iff_witness :
  let c := exampleClient refuse in
  (exists built, buildHTTPRequest c getTest = Ok built)
  /\ (exists base ref u,
        NetURL.Parse (baseURL c) = Ok base
        /\ NetURL.Parse (Request.Path getTest) = Ok ref
        /\ NetURL.Parse (NetURL.String (NetURL.ResolveReference base ref)) = Ok u
        /\ NetHTTP.validMethod
             (if String.eqb (Request.Method getTest) EmptyString
              then "GET" else Request.Method getTest) = true)
  /\ (exists cause,
        buildHTTPRequest c (Request.mk "GET POST" "/test" ∅ None [] [])
        = Err (WithStack cause)).
Proof.
  intros c.
  assert (Hb : exists built, buildHTTPRequest c getTest = Ok built)
    by (eexists; vm_compute; reflexivity).
  split; [exact Hb|]. split.
  - exact (proj1 (proj1 (buildHTTPRequest_succeeds_iff c getTest)) Hb).
  - assert (He : buildHTTPRequest c (Request.mk "GET POST" "/test" ∅ None [] [])
                 = Err (WithStack (errorString "net/http: invalid method")))
      by (vm_compute; reflexivity).
    destruct (proj2 (buildHTTPRequest_succeeds_iff c
                       (Request.mk "GET POST" "/test" ∅ None [] [])) _ He)
      as [cause Hcause].
    exists cause. rewrite He, Hcause. reflexivity.
Defined.

Lemma built_request_fields_witness :
  exists built,
    buildHTTPRequest (exampleClient refuse) emptyMethod = Ok built
    /\ HTTPRequest.Method built = "GET"
    /\ NetHTTP.validMethod (HTTPRequest.Method built) = true
    /\ HTTPRequest.Host built = NetURL.Host (HTTPRequest.URL built)
    /\ HTTPRequest.ContentLength built
       = Z.of_nat (List.length (HTTPRequest.bodyBytes (HTTPRequest.Body built))).
Proof.
  eexists.
  assert (Hb : buildHTTPRequest (exampleClient refuse) emptyMethod = Ok _)
    by (vm_compute; reflexivity).
  split; [exact Hb|].
  destruct (built_request_fields (exampleClient refuse) emptyMethod _ Hb)
    as (Hget & _ & Hrest).
  split; [exact (Hget eq_refl)|exact Hrest].
Defined.

Lemma built_body_bytes_witness :
  exists built,
    buildHTTPRequest (exampleClient refuse) postTest = Ok built
    /\ HTTPRequest.bodyBytes (HTTPRequest.Body built) = list_byte_of_string "test=data"
    /\ HTTPRequest.Body built <> HTTPRequest.nilBody.
Proof.
  eexists.
  assert (Hb : buildHTTPRequest (exampleClient refuse) postTest = Ok _)
    by (vm_compute; reflexivity).
  split; [exact Hb|].
  destruct (built_body_bytes (exampleClient refuse) postTest _ Hb)
    as (Hbytes & Hnil & _).
  split; [exact Hbytes|].
  intros Hn. apply Hnil in Hn. destruct Hn; discriminate.
Defined.

Lemma header_values_preserved_witness :
  exists built,
    buildHTTPRequest (exampleClient refuse) twoSpellings = Ok built
    /\ allValues (HTTPRequest.Header built) ≡ₚ allValues (Request.Headers twoSpellings).
Proof.
  eexists.
  assert (Hb : buildHTTPRequest (exampleClient refuse) twoSpellings = Ok _)
    by (vm_compute; reflexivity).
  split; [exact Hb|].
  exact (header_values_preserved (exampleClient refuse) twoSpellings _ Hb).
Defined.

Lemma header_entries_come_from_request_witness :
  exists built,
    buildHTTPRequest (exampleClient refuse) getTest = Ok built
    /\ HTTPRequest.Header built !! "Accept" = Some ["application/json"]
    /\ exists key vs,
         Request.Headers getTest !! key = Some vs
         /\ vs <> []
         /\ Textproto.CanonicalMIMEHeaderKey key = "Accept"
         /\ forall v, In v vs -> In v ["application/json"].
Proof.
  eexists.
  assert (Hb : buildHTTPRequest (exampleClient refuse) getTest = Ok _)
    by (vm_compute; reflexivity).
  split; [exact Hb|].
  refine ((fun Hlookup =>
             conj Hlookup
               (proj2 (proj1 (header_entries_come_from_request (exampleClient refuse)
                                getTest _ Hb) "Accept" ["application/json"] Hlookup))) _).
  vm_compute. reflexivity.
Defined.

Lemma header_found_under_any_spelling_witness :
  exists built,
    buildHTTPRequest (exampleClient refuse) getTest = Ok built
    /\ HTTPHeader.Get (HTTPRequest.Header built) "ACCEPT" = "application/json"
    /\ HTTPRequest.Header built !! "Accept" = Some ["application/json"].
Proof.
  eexists.
  assert (Hb : buildHTTPRequest (exampleClient refuse) getTest = Ok _)
    by (vm_compute; reflexivity).
  split; [exact Hb|].
  apply (header_found_under_any_spelling (exampleClient refuse) getTest _
           "Accept" "ACCEPT" ["application/json"] Hb).
  - reflexivity.
  - reflexivity.
  - intros key' Hsome _. destruct (decide (key' = "Accept")) as [Heq|Hne]; [exact Heq|].
    contradiction Hsome. apply lookup_singleton_ne. congruence.
  - reflexivity.
Defined.

Lemma Latest_nil_context_witness :
  Latest.Do None (exampleClient refuse) (Latest.ofCurrent getTest) None
  = ((None, Some (WithStack (errorString "net/http: nil Context"))), []).
Proof.
  destruct (Latest_nil_context (exampleClient refuse) (Latest.ofCurrent getTest) None)
    as (cause & HDo & Hcause).
  rewrite HDo. rewrite (Hcause _ _ eq_refl eq_refl eq_refl). reflexivity.
Defined.

Lemma Latest_body_attached_witness :
  let request :=
    Latest.mkRequest "POST" "/test" ∅
      (Some (Latest.StringsReader (list_byte_of_string "streamed"))) [] [] in
  exists built,
    Latest.buildHTTPRequest (Some Latest.Background) (exampleClient refuse) request
    = Ok built
    /\ HTTPRequest.Body built = HTTPRequest.NopCloser (list_byte_of_string "streamed")
    /\ HTTPRequest.ContentLength built = 8%Z.
Proof.
  intros request. eexists.
  assert (Hb : Latest.buildHTTPRequest (Some Latest.Background) (exampleClient refuse)
                 request = Ok _) by (vm_compute; reflexivity).
  split; [exact Hb|].
  destruct (Latest_body_attached _ _ request _ Hb) as (_ & Hpost).
  assert (Hm : Latest.Method request <> "GET") by discriminate.
  destruct (proj1 (proj2 (Hpost Hm)) (list_byte_of_string "streamed")
              (or_intror (or_intror eq_refl))) as (_ & Hlength & _ & Hbody).
  split; [apply Hbody; discriminate|exact Hlength].
Defined.

Lemma Latest_Do_is_Do_witness :
  exists built,
    buildHTTPRequest (exampleClient refuse) postTest = Ok built
    /\ HTTPRequest.ctx built = GoContext.Background
    /\ Latest.buildHTTPRequest (Some (GoContext.Other 1)) (exampleClient refuse)
         (Latest.ofCurrent postTest)
       = Ok (HTTPRequest.WithContext built (GoContext.Other 1)).
Proof.
  eexists.
  assert (Hb : buildHTTPRequest (exampleClient refuse) postTest = Ok _)
    by (vm_compute; reflexivity).
  split; [exact Hb|].
  destruct (Latest_Do_is_Do (exampleClient refuse) postTest None) as (_ & Hctx & Hany).
  split; [exact (Hctx _ Hb)|].
  refine (eq_trans (Hany (GoContext.Other 1)) _). vm_compute. reflexivity.
Defined.

Lemma GetVersion_ignores_padding_witness :
  Meta.GetVersion ("0.0.6" ++ ExampleMain.newline)%string = "v0.0.6".
Proof.
  apply (GetVersion_ignores_padding EmptyString "0.0.6" ExampleMain.newline);
    reflexivity.
Defined.

Lemma main_reports_witness :
  let do := respond 200 "text/html; charset=ISO-8859-1" (streamOf "<html>") in
  fst (Latest.Do (Some Latest.Background) (NewClient do "http://google.com")
         ExampleMain.request None)
  = (Some (Response.mk 200 {[ "Content-Type" := ["text/html; charset=ISO-8859-1"] ]}
             (list_byte_of_string "<html>")), None)
  /\ fst (ExampleMain.main do)
     = ExampleMain.Printed
         ("Response Status: 200" ++ ExampleMain.newline
          ++ "First 6 bytes of response body:" ++ ExampleMain.newline
          ++ "<html>" ++ ExampleMain.newline)%string.
Proof.
  intros do.
  assert (Hrun : fst (Latest.Do (Some Latest.Background)
                        (NewClient do "http://google.com") ExampleMain.request None)
                 = (Some (Response.mk 200
                            {[ "Content-Type" := ["text/html; charset=ISO-8859-1"] ]}
                            (list_byte_of_string "<html>")), None))
    by (vm_compute; reflexivity).
  split; [exact Hrun|].
  destruct (main_reports do) as (_ & _ & _ & Hprinted).
  destruct (Hprinted _ Hrun) as (_ & _ & Hout).
  rewrite Hout. vm_compute. reflexivity.
Defined.

Lemma earlier_helpers_accept_less_witness :
  Superseded.containsStringPrefix ["text/html"; "application/json"]
    "application/json; charset=utf-8" = true
  /\ GoSlices.ContainsFunc ["text/html"; "application/json"]
       (fun prefix => GoStrings.HasPrefix
                        (GoStrings.ToLower "application/json; charset=utf-8")
                        (GoStrings.ToLower prefix)) = true
  /\ Superseded.containsStringPrefix ["text/html"] "text/plain"
     = GoSlices.ContainsFunc ["text/html"]
         (fun prefix => GoStrings.HasPrefix (GoStrings.ToLower "text/plain")
                          (GoStrings.ToLower prefix)).
Proof.
  split; [reflexivity|]. split.
  - exact (proj1 (proj2 (earlier_helpers_accept_less [] 0%Z
                           ["text/html"; "application/json"]
                           "application/json; charset=utf-8") eq_refl eq_refl) eq_refl).
  - exact (proj2 (proj2 (earlier_helpers_accept_less [] 0%Z ["text/html"] "text/plain")
                    eq_refl eq_refl) eq_refl eq_refl).
Defined.

(** ** Lower case beyond ASCII, on the table of the examples *)

(** [strings.ToLower] lower-cases the capital E with acute, and turns a byte
    that is no UTF-8 into U+FFFD. *)
Example ToLower_beyond_ASCII :
  let replacement :=
    String (ascii_of_nat 239) (String (ascii_of_nat 191)
      (String (ascii_of_nat 189) EmptyString)) in
  GoStrings.ToLower ("text/" ++ capitalEAcute)%string = ("text/" ++ smallEAcute)%string
  /\ GoStrings.ToLower loneByte = replacement
  /\ GoStrings.ToLower replacement = replacement
  /\ GoStrings.ToLower ("A" ++ loneByte ++ "B")%string = ("a" ++ replacement ++ "b")%string
  /\ GoStrings.ToLower smallEAcute = smallEAcute.
Proof. repeat split; vm_compute; reflexivity. Qed.

(** A content type whose capital letter lies beyond ASCII is accepted for
    the prefix with the small letter, which the helper of the earlier
    revision rejects; and a prefix that is a byte-for-byte prefix of the
    content type but no UTF-8 is rejected, which that helper accepts. *)
Example content_type_beyond_ASCII :
  let request (prefix : string) := Request.mk "GET" "/" ∅ None [] [prefix] in
  let response (contentType : string) :=
    HTTPResponse.mk 200 {[ "Content-Type" := [contentType] ]} (streamOf "ok") in
  (validateResponse (response ("text/" ++ capitalEAcute)%string)
     (request ("text/" ++ smallEAcute)%string) = None
   /\ Superseded.containsStringPrefix [("text/" ++ smallEAcute)%string]
        ("text/" ++ capitalEAcute)%string = false)
  /\ (validateResponse (response smallEAcute) (request loneByte)
      = Some (Errorf ("unexpected content type: " ++ smallEAcute)%string)
      /\ Superseded.containsStringPrefix [loneByte] smallEAcute = true).
Proof. repeat split; vm_compute; reflexivity. Qed.
